(** * Ouroboros desktop: the safety gate and the supervisor's chat router

    A shallow embedding of these pieces of the repository:

    - [ouroboros/safety.py]: [check_safety], the two-tier LLM validator that
      sits in front of mutating tool calls;
    - [app.py]: the body of the main loop of [run_supervisor], i.e. one tick
      of the supervisor and the routing of every inbound chat update; the
      settings, the dashboard switches and the uptime line;
    - [scripts/telegram_bridge.py]: the polling loop and the answer queue;
    - [ouroboros/tools/evolution_stats.py]: the sampling of the git history.

    Python [str] is modelled by [string]: a text is its UTF-8 bytes.  Slices
    and lengths count characters, a character being a byte together with the
    continuation bytes that follow it.  White space and letter case ([strip],
    [split], [lower]) are modelled on the ASCII range, which is where the
    command words live: on a text that [isascii] they are the operations of
    Python.  Calls that leave the process (LLM requests, chat replies, worker
    control, snapshot writes) are recorded, in order, in a trace of effects;
    what they answer is read from an environment record. *)

From Stdlib Require Import Ascii String Sorted.
From stdpp Require Import base gmap strings list pretty.

Set Warnings "-register-all".
Local Open Scope string_scope.
Local Open Scope list_scope.
Local Open Scope Z_scope.

(* ===================================================================== *)
(** ** Python string operations *)
(* ===================================================================== *)

Module PyStr.

(** The newline and the double quote, for the literals that contain them. *)
Definition nl : string := String (Ascii.ascii_of_nat 10) "".
Definition dq : string := String (Ascii.ascii_of_nat 34) "".

(** [s.isascii()]: no character beyond U+007F, that is no byte beyond 127. *)
Fixpoint isascii (s : string) : bool :=
  match s with
  | "" => true
  | String c s' => (Ascii.nat_of_ascii c <? 128)%nat && isascii s'
  end.

(** A continuation byte of UTF-8, [10xxxxxx]: every other byte starts a
    character. *)
Definition is_continuation (c : ascii) : bool :=
  let n := Ascii.nat_of_ascii c in ((128 <=? n) && (n <? 192))%nat.

(** [len(s)]: the number of characters. *)
Fixpoint len (s : string) : nat :=
  match s with
  | "" => O
  | String c s' => ((if is_continuation c then 0 else 1) + len s')%nat
  end.

(** [str.isspace] on the ASCII range: TAB, LF, VT, FF, CR, FS, GS, RS, US
    and the space. *)
Definition isspace (c : ascii) : bool :=
  let n := Ascii.nat_of_ascii c in
  ((9 <=? n) && (n <=? 13) || (28 <=? n) && (n <=? 31) || (n =? 32))%nat.

Definition lower_char (c : ascii) : ascii :=
  let n := Ascii.nat_of_ascii c in
  if ((65 <=? n) && (n <=? 90))%nat then Ascii.ascii_of_nat (n + 32) else c.

(** [s.lower()], of the letters of ASCII *)
Fixpoint lower (s : string) : string :=
  match s with
  | "" => ""
  | String c s' => String (lower_char c) (lower s')
  end.

Fixpoint lstrip (s : string) : string :=
  match s with
  | "" => ""
  | String c s' => if isspace c then lstrip s' else s
  end.

Fixpoint rstrip (s : string) : string :=
  match s with
  | "" => ""
  | String c s' =>
      match rstrip s' with
      | "" => if isspace c then "" else String c ""
      | r => String c r
      end
  end.

(** [s.strip()], of the white space of ASCII *)
Definition strip (s : string) : string := rstrip (lstrip s).

(** [s.startswith(p)] *)
Definition startswith (s p : string) : bool := String.prefix p s.

(** [s.split()]: the maximal runs of characters that are no white space
    of ASCII. *)
Fixpoint split_go (cur : option string) (s : string) : list string :=
  match s with
  | "" => option_list (String.rev <$> cur)
  | String c s' =>
      if isspace c
      then option_list (String.rev <$> cur) ++ split_go None s'
      else split_go (Some (String c (default "" cur))) s'
  end.
Definition split (s : string) : list string := split_go None s.

(** [s[:n]]: the first [n] characters, each with its continuation bytes. *)
Fixpoint take (n : nat) (s : string) : string :=
  match s with
  | "" => ""
  | String c s' =>
      if is_continuation c then String c (take n s')
      else
        match n with
        | O => ""
        | S k => String c (take k s')
        end
  end.

(** [s.replace(old, new)] for a non-empty [old]: left to right, without
    overlap.  The recursion is on [s]; [skip] counts the characters of a
    match that are still to be dropped. *)
Fixpoint replace_go (old new : string) (skip : nat) (s : string) : string :=
  match s with
  | "" => ""
  | String c s' =>
      match skip with
      | S k => replace_go old new k s'
      | O =>
          if String.prefix old s
          then new +:+ replace_go old new (String.length old - 1) s'
          else String c (replace_go old new O s')
      end
  end.
Definition replace (old new s : string) : string := replace_go old new O s.

(** No character of [s] is a space. *)
Fixpoint nospace (s : string) : bool :=
  match s with
  | "" => true
  | String c s' => negb (isspace c) && nospace s'
  end.

End PyStr.

(* ===================================================================== *)
(** ** ouroboros/safety.py *)
(* ===================================================================== *)

Module Safety.
Import PyStr.

(** What [json.loads] can produce.  A float keeps its text. *)
Inductive json : Type :=
| JNull
| JBool (b : bool)
| JInt (z : Z)
| JFloat (repr : string)
| JStr (s : string)
| JArr (l : list json)
| JObj (m : gmap string json).

(** A value of the [arguments] dictionary ([Dict[str, Any]]): either a tree
    that [json.dumps] can encode, or a value holding an object it cannot
    (a set, bytes, ...), of which only the offending type's name matters. *)
Inductive pyarg : Type :=
| Ser (v : json)
| NonSer (type_name : string).

(** Exceptions: all of them are instances of [Exception]; the class is
    kept because one handler selects [json.JSONDecodeError]. *)
Inductive exn_class : Type :=
| JSONDecodeError
| AttributeError
| TypeError
| OtherError (name : string).

Record exn : Type := Exn { exn_cls : exn_class; exn_str : string }.

Definition is_JSONDecodeError (e : exn) : bool :=
  match exn_cls e with JSONDecodeError => true | _ => false end.

(** A usage record, as returned next to the message by [client.chat]. *)
Definition usage : Type := list (string * json).

(** One chat message: role and content. *)
Definition chat_message : Type := (string * string)%type.

(** The calls that leave the function: [client.chat] and
    [update_budget_from_usage], each recorded when it is made.  Logging is
    not traced. *)
Inductive effect : Type :=
| LLMChat (model : string) (messages : list chat_message)
| UpdateBudget (u : usage).

Inductive outcome (A : Type) : Type :=
| Returns (a : A)
| Raises (e : exn).
Global Arguments Returns {A} a.
Global Arguments Raises {A} e.

(** A computation: how it ends and the effects it performed, in order. *)
Definition M (A : Type) : Type := (outcome A * list effect)%type.

Definition ret {A} (a : A) : M A := (Returns a, []).
Definition raise {A} (e : exn) : M A := (Raises e, []).
Definition tell (ef : effect) : M unit := (Returns tt, [ef]).
Definition bind {A B} (m : M A) (k : A → M B) : M B :=
  match m with
  | (Returns a, t) => let '(r, t') := k a in (r, t ++ t')
  | (Raises e, t) => (Raises e, t)
  end.
(** [try: m  except <sel>: h] *)
Definition try_except {A} (sel : exn → bool) (m : M A) (h : exn → M A) : M A :=
  match m with
  | (Raises e, t) =>
      if sel e then let '(r, t') := h e in (r, t ++ t') else (Raises e, t)
  | done => done
  end.
Definition any_Exception (e : exn) : bool := true.

Declare Scope safety_scope.
Delimit Scope safety_scope with safety.
Notation "x <- m ;; k" := (bind m (λ x, k))
  (at level 100, m at next level, right associativity) : safety_scope.
Notation "m ;;; k" := (bind m (λ _, k))
  (at level 100, right associativity) : safety_scope.
Local Open Scope safety_scope.

(** What the function reads from outside: the process environment, the
    prompt file, the LLM client, and the two [json] library calls. *)
Record Env : Type := {
  (** [os.environ] *)
  environ : gmap string string;
  (** [DEFAULT_LIGHT_MODEL], imported from [ouroboros.llm] *)
  DEFAULT_LIGHT_MODEL : string;
  (** [prompts/SAFETY.md]: its text, or [None] when reading it fails *)
  SAFETY_md : option string;
  (** [client.chat(messages=..., model=...)]: it raises, or returns the
      message's ["content"] (absent or null: [None]) and the usage *)
  client_chat : string → list chat_message → outcome (option string * usage);
  (** [update_budget_from_usage], imported from [supervisor.state]: the
      exception it raises, if any *)
  update_budget_from_usage : usage → option exn;
  (** [json.loads] *)
  json_loads : string → outcome json;
  (** the text of [json.dumps(v, indent=2)] for an encodable dictionary *)
  json_dumps_text : list (string * json) → string;
  (** [str(v)] of a value that is not a [str] *)
  py_str_of : json → string;
}.

Definition prompt_fallback : string :=
  "You are a security supervisor. Block any destructive commands or attempts to modify BIBLE.md. Respond with JSON: {"
  +:+ dq +:+ "status" +:+ dq +:+ ": " +:+ dq +:+ "SAFE" +:+ dq +:+ "|" +:+ dq +:+ "DANGEROUS" +:+ dq
  +:+ ", " +:+ dq +:+ "reason" +:+ dq +:+ ": " +:+ dq +:+ "..." +:+ dq +:+ "}".

(** [_get_safety_prompt]: the file, or the fallback when the read raises. *)
Definition _get_safety_prompt (E : Env) : string :=
  match SAFETY_md E with
  | Some text => text
  | None => prompt_fallback
  end.

(** [json.dumps(arguments, indent=2)]: a [TypeError] at the first value
    that has no encoding. *)
Fixpoint encodable (arguments : list (string * pyarg)) : outcome (list (string * json)) :=
  match arguments with
  | [] => Returns []
  | (k, Ser v) :: rest =>
      match encodable rest with
      | Returns kvs => Returns ((k, v) :: kvs)
      | Raises e => Raises e
      end
  | (_, NonSer ty) :: _ =>
      Raises (Exn TypeError ("Object of type " +:+ ty +:+ " is not JSON serializable"))
  end.

Definition json_dumps (E : Env) (arguments : list (string * pyarg)) : M string :=
  match encodable arguments with
  | Returns kvs => ret (json_dumps_text E kvs)
  | Raises e => raise e
  end.

(** The f-string of [_build_check_prompt]. *)
Definition check_prompt_text (tool_name args_json : string) : string :=
  "Proposed tool call:" +:+ nl +:+ "Tool: " +:+ tool_name +:+ nl
  +:+ "Arguments:" +:+ nl +:+ "```json" +:+ nl +:+ args_json +:+ nl +:+ "```"
  +:+ nl +:+ nl +:+ "Is this safe?".

Definition _build_check_prompt (E : Env) (tool_name : string)
    (arguments : list (string * pyarg)) : M string :=
  args_json <- json_dumps E arguments ;;
  ret (check_prompt_text tool_name args_json).

(** [msg.get("content") or ""] *)
Definition content_or_empty (content : option string) : string :=
  default "" content.

(** [text.replace("```json", "").replace("```", "").strip()] *)
Definition clean (text : string) : string :=
  strip (replace "```" "" (replace "```json" "" text)).

Definition type_name (v : json) : string :=
  match v with
  | JNull => "NoneType"
  | JBool _ => "bool"
  | JInt _ => "int"
  | JFloat _ => "float"
  | JStr _ => "str"
  | JArr _ => "list"
  | JObj _ => "dict"
  end.

(** [result.get(key, dflt)]: only a dictionary has [get]. *)
Definition py_get (result : json) (key : string) (dflt : json) : M json :=
  match result with
  | JObj m => ret (default dflt (m !! key))
  | v => raise (Exn AttributeError
                  ("'" +:+ type_name v +:+ "' object has no attribute 'get'"))
  end.

(** [x == "SAFE"] *)
Definition is_SAFE (x : json) : bool :=
  match x with
  | JStr s => bool_decide (s = "SAFE")
  | _ => false
  end.

(** [str(v)], as an f-string formats a value. *)
Definition py_str (E : Env) (v : json) : string :=
  match v with
  | JStr s => s
  | JNull => "None"
  | JBool true => "True"
  | JBool false => "False"
  | JInt z => pretty z
  | v => py_str_of E v
  end.

(** [if usage: update_budget_from_usage(usage)] *)
Definition report_usage (E : Env) (usage : usage) : M unit :=
  match usage with
  | [] => ret tt
  | _ :: _ =>
      tell (UpdateBudget usage) ;;;
      match update_budget_from_usage E usage with
      | None => ret tt
      | Some e => raise e
      end
  end.

(** [client.chat(...)] followed by [msg.get("content") or ""] and the
    budget update, the common head of both checks. *)
Definition chat_text (E : Env) (model : string) (messages : list chat_message) : M string :=
  tell (LLMChat model messages) ;;;
  match client_chat E model messages with
  | Raises e => raise e
  | Returns (content, usage) =>
      let text := content_or_empty content in
      report_usage E usage ;;;
      ret text
  end.

(** Where the fast check leaves the function: it has returned, or control
    goes on to the deep check with [fast_reason] set. *)
Inductive fast_result : Type :=
| FastReturn (r : bool * string)
| FastFlagged (fast_reason : string).

Definition MUTATING : list string :=
  ["run_shell"; "claude_code_edit"; "repo_write_commit"; "repo_commit"; "drive_write"].

Definition light_model (E : Env) : string :=
  default (DEFAULT_LIGHT_MODEL E) (environ E !! "OUROBOROS_MODEL_LIGHT").

Definition heavy_model (E : Env) : string :=
  default (default "anthropic/claude-sonnet-4.6" (environ E !! "OUROBOROS_MODEL"))
          (environ E !! "OUROBOROS_MODEL_CODE").

Definition deep_suffix : string :=
  nl +:+ "Take a deep breath and think carefully. Is this actually malicious, or just a normal development command?".

Definition fast_check (E : Env) (prompt : string) : M fast_result :=
  try_except any_Exception
    (text <- chat_text E (light_model E)
               [("system", _get_safety_prompt E); ("user", prompt)] ;;
     try_except is_JSONDecodeError
       (let clean_text := clean text in
        result <- (json_loads E clean_text, []) ;;
        status <- py_get result "status" JNull ;;
        if is_SAFE status then ret (FastReturn (true, ""))
        else
          fast_reason <- py_get result "reason" (JStr "Unknown danger") ;;
          ret (FastFlagged (py_str E fast_reason)))
       (λ _, ret (FastFlagged "Invalid JSON response from fast check.")))
    (λ e, ret (FastFlagged (exn_str e))).

Definition deep_check (E : Env) (prompt : string) : M (bool * string) :=
  try_except any_Exception
    (text <- chat_text E (heavy_model E)
               [("system", _get_safety_prompt E +:+ deep_suffix); ("user", prompt)] ;;
     try_except is_JSONDecodeError
       (let clean_text := clean text in
        result <- (json_loads E clean_text, []) ;;
        status <- py_get result "status" JNull ;;
        if is_SAFE status then ret (true, "")
        else
          heavy_reason <- py_get result "reason" (JStr "Unknown danger") ;;
          ret (false,
               "⚠️ SAFETY_VIOLATION: The Safety Supervisor blocked this command." +:+ nl
               +:+ "Reason: " +:+ py_str E heavy_reason +:+ nl +:+ nl
               +:+ "You must find a different, safer approach to achieve your goal."))
       (λ _, ret (false, "⚠️ SAFETY_VIOLATION: Safety Supervisor failed to parse JSON.")))
    (λ e, ret (false, "⚠️ SAFETY_VIOLATION: Safety check failed with error: " +:+ exn_str e)).

(** How one check reads the model's answer: the four outcomes the protocol
    tells apart.  [Flagged] is a decoded dictionary whose status is anything
    but ["SAFE"] (["DANGEROUS"] included); [Failed] is every exception other
    than a decode error, whether from the call, from the budget update or
    from reading the result. *)
Inductive verdict : Type :=
| Safe
| Flagged (reason : json)
| Unparseable
| Failed (e : exn).

Definition budget_failure (E : Env) (u : usage) : option exn :=
  match u with
  | [] => None
  | _ :: _ => update_budget_from_usage E u
  end.

Definition verdict_of (E : Env) (model : string) (messages : list chat_message) : verdict :=
  match client_chat E model messages with
  | Raises e => Failed e
  | Returns (content, u) =>
      match budget_failure E u with
      | Some e => Failed e
      | None =>
          match json_loads E (clean (content_or_empty content)) with
          | Raises e => if is_JSONDecodeError e then Unparseable else Failed e
          | Returns (JObj m) =>
              if is_SAFE (default JNull (m !! "status")) then Safe
              else Flagged (default (JStr "Unknown danger") (m !! "reason"))
          | Returns v =>
              Failed (Exn AttributeError
                        ("'" +:+ type_name v +:+ "' object has no attribute 'get'"))
          end
      end
  end.

(** The effects of one check: the call, then the budget update when the
    call came back with a non-empty usage. *)
Definition effects_of (E : Env) (model : string) (messages : list chat_message) : list effect :=
  LLMChat model messages ::
  match client_chat E model messages with
  | Returns (_, (_ :: _) as u) => [UpdateBudget u]
  | _ => []
  end.

Definition fast_messages (E : Env) (prompt : string) : list chat_message :=
  [("system", _get_safety_prompt E); ("user", prompt)].
Definition deep_messages (E : Env) (prompt : string) : list chat_message :=
  [("system", _get_safety_prompt E +:+ deep_suffix); ("user", prompt)].

(** The reason of a deny, by the deep check's verdict. *)
Definition deny_reason (E : Env) (v : verdict) : string :=
  match v with
  | Safe => ""
  | Flagged heavy_reason =>
      "⚠️ SAFETY_VIOLATION: The Safety Supervisor blocked this command." +:+ nl
      +:+ "Reason: " +:+ py_str E heavy_reason +:+ nl +:+ nl
      +:+ "You must find a different, safer approach to achieve your goal."
  | Unparseable => "⚠️ SAFETY_VIOLATION: Safety Supervisor failed to parse JSON."
  | Failed e => "⚠️ SAFETY_VIOLATION: Safety check failed with error: " +:+ exn_str e
  end.

(** The mutating set as the specification lists it. *)
Definition SPEC_MUTATING : list string :=
  ["run_shell"; "code_edit"; "repo_write_commit"; "repo_commit"; "drive_write"].

(** [check_safety(tool_name, arguments)].  [LLMClient()] only builds the
    client object and is not traced. *)
Definition check_safety (E : Env) (tool_name : string)
    (arguments : list (string * pyarg)) : M (bool * string) :=
  if negb (bool_decide (tool_name ∈ MUTATING)) then ret (true, "")
  else
    prompt <- _build_check_prompt E tool_name arguments ;;
    fast <- fast_check E prompt ;;
    match fast with
    | FastReturn r => ret r
    | FastFlagged _ => deep_check E prompt
    end.

End Safety.

(* ===================================================================== *)
(** ** app.py: the main loop of [run_supervisor] *)
(* ===================================================================== *)

Module Supervisor.
Import PyStr.

(** The values the loop stores in, or reads from, a dictionary. *)
Inductive pyval : Type :=
| PyNone
| PyBool (b : bool)
| PyInt (z : Z)
| PyStr (s : string).

(** [str(v)] *)
Definition py_str (v : pyval) : string :=
  match v with
  | PyNone => "None"
  | PyBool true => "True"
  | PyBool false => "False"
  | PyInt z => pretty z
  | PyStr s => s
  end.

(** [x is None], for the result of [d.get(key)] *)
Definition is_None (x : option pyval) : bool :=
  match x with
  | None | Some PyNone => true
  | Some _ => false
  end.

(** A task of the queue; [task_type] is [t.get("type")]. *)
Record Task : Type := {
  task_id : string;
  task_type : pyval;
  task_priority : Z;
  task_created_at : Z;
}.

(** An event of the bus; the loop hands it on without looking inside. *)
Record Event : Type := {
  ev_worker : Z;
  ev_type : string;
  ev_payload : string;
}.

(** The message dictionary of an update: its ["text"] key and whatever
    sender chat id the transport attached ([None]: key absent). *)
Record Message : Type := {
  msg_text : option string;
  msg_chat_id : option Z;
}.

Record Update : Type := {
  update_id : Z;
  message : option Message;
}.

(** [upd.get("message") or {}], then [if not msg: continue]: a missing,
    null or empty dictionary gives [None]. *)
Definition message_of (upd : Update) : option Message :=
  match message upd with
  | Some {| msg_text := None; msg_chat_id := None |} => None
  | m => m
  end.

(** Everything the loop does to the outside, in the order it does it. *)
Inductive effect : Type :=
| RotateChatLog
| EnsureWorkersHealthy
| DispatchEvent (evt : Event)
| EnforceTaskTimeouts
| EnqueueEvolutionTaskIfNeeded
| AssignTasks
| PersistQueueSnapshot (reason : string) (pending : list Task)
| GetUpdates (offset : Z)
| SaveState (st : gmap string pyval)
| LogChat (direction : string) (chat_id user_id : Z) (text : string)
| SendWithBudget (chat_id : Z) (text : string) (force_budget : bool)
| KillWorkers
| SafeRestart (reason unsynced_policy : string)
| OsExit (code : Z)
| OsExecv
| QueueReviewTask (reason : string) (force : bool)
| SortPending
| ConsciousnessStart
| ConsciousnessStop
| ConsciousnessPause
| InjectObservation (text : string)
| AgentInjectMessage (text : string)
| StartChatThread (chat_id : Z) (text : string)
| Sleep.

(** The effects of the part of an iteration that is not the routing of the
    inbox: the five phases before it, reading the inbox, and the sleep. *)
Definition is_phase_effect (e : effect) : bool :=
  match e with
  | RotateChatLog | EnsureWorkersHealthy | DispatchEvent _ | EnforceTaskTimeouts
  | EnqueueEvolutionTaskIfNeeded | AssignTasks | GetUpdates _ | Sleep => true
  | PersistQueueSnapshot reason _ => bool_decide (reason = "main_loop")
  | _ => false
  end.

(** The two stores the loop shares with the rest of the supervisor: the
    state document behind [load_state]/[save_state], and [PENDING]. *)
Record Store : Type := {
  state_doc : gmap string pyval;
  PENDING : list Task;
}.

Inductive proc_status : Type :=
| Running
| Exited (code : Z)
| Replaced.

Record Sup : Type := {
  store : Store;
  offset : Z;
  trace : list effect;
  proc : proc_status;
}.

(** What the absent collaborators answer and do.  An answer may depend on
    everything that happened before, hence the trace argument.  The queue
    and worker helpers act on the shared stores; the chat replies, the chat
    log, worker killing, [safe_restart] and the consciousness are recorded
    as effects and leave the two stores as they are. *)
Record World : Type := {
  now_iso : list effect → string;
  safe_restart : list effect → bool * string;
  consciousness_start : list effect → string;
  consciousness_stop : list effect → string;
  consciousness_is_running : list effect → bool;
  agent_busy : list effect → bool;
  status_text : list effect → Store → string;
  ensure_workers_healthy : Store → Store;
  dispatch_event : Event → Store → Store;
  enforce_task_timeouts : Store → Store;
  enqueue_evolution_task_if_needed : Store → Store;
  assign_tasks : Store → Store;
  queue_review_task : string → bool → Store → Store;
}.

Definition emit (e : effect) (s : Sup) : Sup :=
  {| store := store s; offset := offset s; trace := trace s ++ [e]; proc := proc s |}.
Definition on_store (f : Store → Store) (s : Sup) : Sup :=
  {| store := f (store s); offset := offset s; trace := trace s; proc := proc s |}.
Definition set_offset (o : Z) (s : Sup) : Sup :=
  {| store := store s; offset := o; trace := trace s; proc := proc s |}.
Definition set_proc (p : proc_status) (s : Sup) : Sup :=
  {| store := store s; offset := offset s; trace := trace s; proc := p |}.
Definition set_state_doc (st : gmap string pyval) (S : Store) : Store :=
  {| state_doc := st; PENDING := PENDING S |}.
Definition set_PENDING (l : list Task) (S : Store) : Store :=
  {| state_doc := state_doc S; PENDING := l |}.

Definition load_state (s : Sup) : gmap string pyval := state_doc (store s).
Definition save_state (st : gmap string pyval) (s : Sup) : Sup :=
  emit (SaveState st) (on_store (set_state_doc st) s).
Definition log_chat (direction : string) (chat_id user_id : Z) (text : string) : Sup → Sup :=
  emit (LogChat direction chat_id user_id text).
Definition send_with_budget (chat_id : Z) (text : string) : Sup → Sup :=
  emit (SendWithBudget chat_id text false).
Definition kill_workers : Sup → Sup := emit KillWorkers.
Definition persist_queue_snapshot (reason : string) (s : Sup) : Sup :=
  emit (PersistQueueSnapshot reason (PENDING (store s))) s.

(** Modelled from the spec: [sort_pending] of [supervisor.queue] is not
    among the sources; the spec has the pending list ordered by
    [(priority, created_at)], smaller first.  The order below is that key,
    the sort a stable insertion sort. *)
Definition task_le (a b : Task) : Prop :=
  task_priority a < task_priority b
  ∨ (task_priority a = task_priority b ∧ task_created_at a ≤ task_created_at b).

Global Instance task_le_dec : RelDecision task_le.
Proof. intros a b. unfold task_le. apply _. Defined.

Fixpoint insert_task (t : Task) (l : list Task) : list Task :=
  match l with
  | [] => [t]
  | u :: l' => if decide (task_le t u) then t :: l else u :: insert_task t l'
  end.

Definition sorted_tasks (l : list Task) : list Task := foldr insert_task [] l.

Definition sort_pending (s : Sup) : Sup :=
  emit SortPending (on_store (λ S, set_PENDING (sorted_tasks (PENDING S)) S) s).

(** The dispatch on the owner's text, from [lowered = text.strip().lower()]
on: the [if]/[elif] chain of supervisor commands, then the hand-over to the
chat agent. *)
Definition route_text (W : World) (chat_id : Z) (text : string) (s : Sup) : Sup :=
  let lowered := lower (strip text) in
  if startswith lowered "/panic" then
    let s := send_with_budget chat_id "🛑 PANIC: stopping everything now." s in
    let s := kill_workers s in
    set_proc (Exited 1) (emit (OsExit 1) s)
  else if startswith lowered "/restart" then
    let s := send_with_budget chat_id "♻️ Restarting (soft)." s in
    let '(ok, restart_msg) := safe_restart W (trace s) in
    let s := emit (SafeRestart "owner_restart" "rescue_and_reset") s in
    if negb ok then
      send_with_budget chat_id ("⚠️ Restart cancelled: " +:+ restart_msg) s
    else
      let s := kill_workers s in
      set_proc Replaced (emit OsExecv s)
  else if startswith lowered "/review" then
    emit (QueueReviewTask "owner:/review" true)
         (on_store (queue_review_task W "owner:/review" true) s)
  else if startswith lowered "/evolve" then
    let parts := split lowered in
    let action := default "on" (parts !! 1%nat) in
    let turn_on := bool_decide (action ∉ ["off"; "stop"; "0"]) in
    let st2 := load_state s in
    let st2 := <["evolution_mode_enabled" := PyBool turn_on]> st2 in
    let s := save_state st2 s in
    let s :=
      if negb turn_on then
        let s := on_store (λ S, set_PENDING
                   (filter (λ t, py_str (task_type t) ≠ "evolution") (PENDING S)) S) s in
        let s := sort_pending s in
        persist_queue_snapshot "evolve_off" s
      else s in
    let state_str := if turn_on then "ON" else "OFF" in
    send_with_budget chat_id ("🧬 Evolution: " +:+ state_str) s
  else if startswith lowered "/bg" then
    let parts := split lowered in
    let action := default "status" (parts !! 1%nat) in
    if bool_decide (action ∈ ["start"; "on"; "1"]) then
      let result := consciousness_start W (trace s) in
      let s := emit ConsciousnessStart s in
      send_with_budget chat_id ("🧠 " +:+ result) s
    else if bool_decide (action ∈ ["stop"; "off"; "0"]) then
      let result := consciousness_stop W (trace s) in
      let s := emit ConsciousnessStop s in
      send_with_budget chat_id ("🧠 " +:+ result) s
    else
      let bg_status := if consciousness_is_running W (trace s) then "running" else "stopped" in
      send_with_budget chat_id ("🧠 Background consciousness: " +:+ bg_status) s
  else if startswith lowered "/status" then
    let status := status_text W (trace s) (store s) in
    emit (SendWithBudget chat_id status true) s
  else
    let s := emit (InjectObservation ("Owner message: " +:+ take 100 text)) s in
    if agent_busy W (trace s) then
      emit (AgentInjectMessage text) s
    else
      let s := emit ConsciousnessPause s in
      emit (StartChatThread chat_id text) s.

(** The body of [for upd in updates]. *)
Definition handle_update (W : World) (upd : Update) (s : Sup) : Sup :=
  let s := set_offset (update_id upd + 1) s in
  match message_of upd with
  | None => s
  | Some msg =>
      let chat_id := 1 in
      let user_id := 1 in
      let text := default "" (msg_text msg) in
      let now := now_iso W (trace s) in
      let st := load_state s in
      if is_None (st !! "owner_id") then
        let st := <["owner_id" := PyInt user_id]> st in
        let st := <["owner_chat_id" := PyInt chat_id]> st in
        let st := <["last_owner_message_at" := PyStr now]> st in
        let s := save_state st s in
        let s := log_chat "in" chat_id user_id text s in
        send_with_budget chat_id "✅ Owner registered. Ouroboros online." s
      else
        let s := log_chat "in" chat_id user_id text s in
        let st := <["last_owner_message_at" := PyStr now]> st in
        let s := save_state st s in
        if bool_decide (text = "") then s
        else route_text W chat_id text s
  end.

(** [for upd in updates: ...]: the loop ends with the process. *)
Fixpoint route_updates (W : World) (updates : list Update) (s : Sup) : Sup :=
  match updates with
  | [] => s
  | upd :: rest =>
      let s' := handle_update W upd s in
      match proc s' with
      | Running => route_updates W rest s'
      | _ => s'
      end
  end.

(** The part of an iteration before the chat inbox is read.  [events] are
    the events [get_nowait] hands out before it raises [Empty]. *)
Definition before_inbox (W : World) (events : list Event) (s : Sup) : Sup :=
  let s := emit RotateChatLog s in
  let s := emit EnsureWorkersHealthy (on_store (ensure_workers_healthy W) s) in
  let s := foldl (λ s evt, emit (DispatchEvent evt) (on_store (dispatch_event W evt) s))
                 s events in
  let s := emit EnforceTaskTimeouts (on_store (enforce_task_timeouts W) s) in
  let s := emit EnqueueEvolutionTaskIfNeeded
                (on_store (enqueue_evolution_task_if_needed W) s) in
  let s := emit AssignTasks (on_store (assign_tasks W) s) in
  persist_queue_snapshot "main_loop" s.

(** One iteration of [while True]; [updates] is what [get_updates] returns. *)
Definition tick (W : World) (events : list Event) (updates : list Update) (s : Sup) : Sup :=
  let s := before_inbox W events s in
  let s := emit (GetUpdates (offset s)) s in
  let s := route_updates W updates s in
  match proc s with
  | Running => emit Sleep s
  | _ => s
  end.

(** [run_supervisor] from [while True] on, over the inputs of its
    successive iterations; it goes on for as long as the process runs.  The
    start-up code before the loop is not part of the model. *)
Fixpoint run_supervisor (W : World) (inputs : list (list Event * list Update)) (s : Sup) : Sup :=
  match inputs with
  | [] => s
  | (events, updates) :: later =>
      let s' := tick W events updates s in
      match proc s' with
      | Running => run_supervisor W later s'
      | _ => s'
      end
  end.

(** Names for what the statements below keep referring to: the welcome
    line, the state document after a first contact, and what every message
    of a registered installation goes through before its text is looked at. *)
Definition welcome : string := "✅ Owner registered. Ouroboros online.".

Definition registered (now : string) (st : gmap string pyval) : gmap string pyval :=
  <["last_owner_message_at" := PyStr now]>
    (<["owner_chat_id" := PyInt 1]> (<["owner_id" := PyInt 1]> st)).

Definition noted (W : World) (upd : Update) (text : string) (s : Sup) : Sup :=
  save_state (<["last_owner_message_at" := PyStr (now_iso W (trace s))]> (load_state s))
    (log_chat "in" 1 1 text (set_offset (update_id upd + 1) s)).

(** A stretch of trace that holds none of the phase effects. *)
Definition routed_only (routed : list effect) : Prop :=
  Forall (λ e, is_phase_effect e = false) routed.

(** The stores as the five phases before the inbox leave them. *)
Definition phases_store (W : World) (events : list Event) (S : Store) : Store :=
  assign_tasks W
    (enqueue_evolution_task_if_needed W
       (enforce_task_timeouts W
          (foldl (λ S evt, dispatch_event W evt S) (ensure_workers_healthy W S) events))).

End Supervisor.

(* ===================================================================== *)
(** ** Concrete environments, for running the definitions *)
(* ===================================================================== *)

Module Samples.
Import PyStr.

Definition safe_text : string :=
  "{" +:+ dq +:+ "status" +:+ dq +:+ ": " +:+ dq +:+ "SAFE" +:+ dq +:+ "}".
Definition danger_text : string :=
  "{" +:+ dq +:+ "status" +:+ dq +:+ ": " +:+ dq +:+ "DANGEROUS" +:+ dq +:+ ", "
  +:+ dq +:+ "reason" +:+ dq +:+ ": " +:+ dq +:+ "destructive" +:+ dq +:+ "}".

(** A decoder that knows the two answers above and rejects the rest. *)
Definition sample_loads (s : string) : Safety.outcome Safety.json :=
  if bool_decide (s = safe_text) then
    Safety.Returns (Safety.JObj {[ "status" := Safety.JStr "SAFE" ]})
  else if bool_decide (s = danger_text) then
    Safety.Returns (Safety.JObj (<[ "reason" := Safety.JStr "destructive" ]>
                                   {[ "status" := Safety.JStr "DANGEROUS" ]}))
  else
    Safety.Raises (Safety.Exn Safety.JSONDecodeError
                     "Expecting value: line 1 column 1 (char 0)").

(** An environment whose light model answers [fast] and whose heavy model
    answers [deep], the answers fenced as models tend to do. *)
Definition E_sample (fast deep : string) : Safety.Env :=
  {| Safety.environ := <[ "OUROBOROS_MODEL_LIGHT" := "light" ]>
                         {[ "OUROBOROS_MODEL_CODE" := "heavy" ]};
     Safety.DEFAULT_LIGHT_MODEL := "google/gemini-3-pro-preview";
     Safety.SAFETY_md := None;
     Safety.client_chat := λ model _,
       Safety.Returns
         (Some ("```json" +:+ nl +:+ (if bool_decide (model = "light") then fast else deep)
                +:+ nl +:+ "```"),
          [("cost", Safety.JInt 1)]);
     Safety.update_budget_from_usage := λ _, None;
     Safety.json_loads := sample_loads;
     Safety.json_dumps_text := λ _, "{}";
     Safety.py_str_of := λ _, "?" |}.

(** Both models answer DANGEROUS. *)
Definition E_dd : Safety.Env := E_sample danger_text danger_text.

Definition shell_args : list (string * Safety.pyarg) :=
  [("cmd", Safety.Ser (Safety.JStr "rm -rf /"))].

(** A world whose queue helpers leave the stores alone and whose clock
    advances with the trace; [ok] is what [safe_restart] answers. *)
Definition W_sample (ok : bool) : Supervisor.World :=
  {| Supervisor.now_iso := λ tr, "2026-01-01T00:00:" +:+ pretty (length tr) +:+ "+00:00";
     Supervisor.safe_restart := λ _, (ok, "already_restarting");
     Supervisor.consciousness_start := λ _, "started";
     Supervisor.consciousness_stop := λ _, "stopped";
     Supervisor.consciousness_is_running := λ _, false;
     Supervisor.agent_busy := λ _, false;
     Supervisor.status_text := λ _ _, "ok";
     Supervisor.ensure_workers_healthy := id;
     Supervisor.dispatch_event := λ _, id;
     Supervisor.enforce_task_timeouts := id;
     Supervisor.enqueue_evolution_task_if_needed := id;
     Supervisor.assign_tasks := id;
     Supervisor.queue_review_task := λ _ _, id |}.

Definition mk_task (id : string) (ty : string) (prio created : Z) : Supervisor.Task :=
  {| Supervisor.task_id := id; Supervisor.task_type := Supervisor.PyStr ty;
     Supervisor.task_priority := prio; Supervisor.task_created_at := created |}.

(** A fresh install: no owner in the state document, nothing pending. *)
Definition fresh : Supervisor.Sup :=
  {| Supervisor.store := {| Supervisor.state_doc := ∅; Supervisor.PENDING := [] |};
     Supervisor.offset := 0; Supervisor.trace := []; Supervisor.proc := Supervisor.Running |}.

(** A fresh install on which [pending] is queued already. *)
Definition unowned (pending : list Supervisor.Task) : Supervisor.Sup :=
  {| Supervisor.store := {| Supervisor.state_doc := ∅; Supervisor.PENDING := pending |};
     Supervisor.offset := 0; Supervisor.trace := []; Supervisor.proc := Supervisor.Running |}.

(** An installation whose owner is registered, with [pending] queued. *)
Definition owned (pending : list Supervisor.Task) : Supervisor.Sup :=
  {| Supervisor.store :=
       {| Supervisor.state_doc :=
            <[ "owner_id" := Supervisor.PyInt 1 ]>
              (<[ "owner_chat_id" := Supervisor.PyInt 1 ]>
                 {[ "evolution_mode_enabled" := Supervisor.PyBool true ]});
          Supervisor.PENDING := pending |};
     Supervisor.offset := 0; Supervisor.trace := []; Supervisor.proc := Supervisor.Running |}.

(** An update carrying [text], sent from chat [cid]. *)
Definition text_from (uid : Z) (cid : Z) (text : string) : Supervisor.Update :=
  {| Supervisor.update_id := uid;
     Supervisor.message := Some {| Supervisor.msg_text := Some text;
                                   Supervisor.msg_chat_id := Some cid |} |}.

(** The scenario of owner registration: "hi" from chat 100 on a fresh
    install, then "hello" from chat 200. *)
Definition after_hi : Supervisor.Sup :=
  Supervisor.handle_update (W_sample true) (text_from 1 100 "hi") fresh.
Definition after_hello : Supervisor.Sup :=
  Supervisor.handle_update (W_sample true) (text_from 2 200 "hello") after_hi.

End Samples.

(* ===================================================================== *)
(** ** app.py: around the loop *)
(* ===================================================================== *)

Module App.
Import PyStr.

(** The command words of the router's [if]/[elif] chain, in its order. *)
Definition COMMAND_WORDS : list string :=
  ["/panic"; "/restart"; "/review"; "/evolve"; "/bg"; "/status"].

(** [lowered] starts with one of them. *)
Definition is_command (lowered : string) : bool :=
  existsb (startswith lowered) COMMAND_WORDS.

(** The words that turn evolution off, and the argument of a command:
    [parts[1] if len(parts) > 1 else dflt]. *)
Definition OFF_WORDS : list string := ["off"; "stop"; "0"].
Definition argument (dflt lowered : string) : string :=
  default dflt (split lowered !! 1%nat).

(** [main]: the dashboard switches.  [on_evo_change] and [on_bg_change] hand
    a command to [CHAT_BRIDGE.ui_send] when there is a bridge; the result is
    the text sent, if any. *)
Definition on_evo_change (bridge : bool) (value : bool) : option string :=
  if bridge then
    let action := if value then "start" else "stop" in
    Some ("/evolve " +:+ action)
  else None.

Definition on_bg_change (bridge : bool) (value : bool) : option string :=
  if bridge then
    let action := if value then "start" else "stop" in
    Some ("/bg " +:+ action)
  else None.

(** [update_dashboard]: the uptime line.  [divmod] on integers is floor
    division, as [Z.div] and [Z.modulo] are for a positive divisor. *)
Definition uptime_fields (elapsed : Z) : Z * Z * Z :=
  let h := elapsed `div` 3600 in
  let rem := elapsed `mod` 3600 in
  let m := rem `div` 60 in
  let s := rem `mod` 60 in
  (h, m, s).

Definition uptime_text (elapsed : Z) : string :=
  let '(h, m, s) := uptime_fields elapsed in
  if bool_decide (h ≠ 0) then
    pretty h +:+ "h " +:+ pretty m +:+ "m " +:+ pretty s +:+ "s"
  else if bool_decide (m ≠ 0) then
    pretty m +:+ "m " +:+ pretty s +:+ "s"
  else pretty s +:+ "s".

(** The settings file: absent, unreadable, or its text. *)
Inductive settings_file : Type :=
| NoFile
| Unreadable (e : Safety.exn)
| FileText (text : string).

(** The dictionary [load_settings] falls back to. *)
Definition DEFAULT_SETTINGS : gmap string Safety.json :=
  list_to_map
    [("OPENROUTER_API_KEY", Safety.JStr "");
     ("OPENAI_API_KEY", Safety.JStr "");
     ("ANTHROPIC_API_KEY", Safety.JStr "");
     ("OUROBOROS_MODEL", Safety.JStr "anthropic/claude-sonnet-4.6");
     ("OUROBOROS_MODEL_CODE", Safety.JStr "anthropic/claude-sonnet-4.6");
     ("OUROBOROS_MODEL_LIGHT", Safety.JStr "google/gemini-3-pro-preview");
     ("OUROBOROS_MAX_WORKERS", Safety.JInt 5);
     ("TOTAL_BUDGET", Safety.JFloat "10.0");
     ("OUROBOROS_SOFT_TIMEOUT_SEC", Safety.JInt 600);
     ("OUROBOROS_HARD_TIMEOUT_SEC", Safety.JInt 1800)].

(** [load_settings]: what [json.loads] makes of the file, whatever that is;
    the defaults when the file is absent or anything raises. *)
Definition load_settings (E : Safety.Env) (f : settings_file) : Safety.json :=
  match f with
  | FileText text =>
      match Safety.json_loads E text with
      | Safety.Returns settings => settings
      | Safety.Raises _ => Safety.JObj DEFAULT_SETTINGS
      end
  | NoFile | Unreadable _ => Safety.JObj DEFAULT_SETTINGS
  end.

(** Truth value of a decoded value; a float's is read off its text by
    [float_truthy]. *)
Definition truthy (float_truthy : string → bool) (v : Safety.json) : bool :=
  match v with
  | Safety.JNull => false
  | Safety.JBool b => b
  | Safety.JInt z => bool_decide (z ≠ 0)
  | Safety.JFloat repr => float_truthy repr
  | Safety.JStr s => bool_decide (s ≠ "")
  | Safety.JArr l => bool_decide (l ≠ [])
  | Safety.JObj m => bool_decide (m ≠ ∅)
  end.

(** The script's entry: [settings = load_settings()], then the supervisor
    thread is started if [settings.get("OPENROUTER_API_KEY")] is true.  The
    result says whether it was started. *)
Definition starts_supervisor (E : Safety.Env) (float_truthy : string → bool)
    (f : settings_file) : Safety.outcome bool :=
  match Safety.py_get (load_settings E f) "OPENROUTER_API_KEY" Safety.JNull with
  | (Safety.Returns key, _) => Safety.Returns (truthy float_truthy key)
  | (Safety.Raises e, _) => Safety.Raises e
  end.

(** [run_supervisor], its first lines: the environment variables set from
    the settings dictionary, each [str(settings.get(key, dflt))]. *)
Definition setting (E : Safety.Env) (settings : gmap string Safety.json)
    (key : string) (dflt : Safety.json) : string :=
  Safety.py_str E (default dflt (settings !! key)).

Definition set_environment (E : Safety.Env) (settings : gmap string Safety.json)
    : gmap string string :=
  let environ := Safety.environ E in
  let environ := <["OPENROUTER_API_KEY" :=
                     setting E settings "OPENROUTER_API_KEY" (Safety.JStr "")]> environ in
  let environ := <["OPENAI_API_KEY" :=
                     setting E settings "OPENAI_API_KEY" (Safety.JStr "")]> environ in
  let environ := <["ANTHROPIC_API_KEY" :=
                     setting E settings "ANTHROPIC_API_KEY" (Safety.JStr "")]> environ in
  let environ := <["OUROBOROS_MODEL" :=
                     setting E settings "OUROBOROS_MODEL"
                       (Safety.JStr "anthropic/claude-sonnet-4.6")]> environ in
  let environ := <["OUROBOROS_MODEL_CODE" :=
                     setting E settings "OUROBOROS_MODEL_CODE"
                       (Safety.JStr "anthropic/claude-sonnet-4.6")]> environ in
  let environ := <["OUROBOROS_MODEL_LIGHT" :=
                     setting E settings "OUROBOROS_MODEL_LIGHT"
                       (Safety.JStr "google/gemini-3-pro-preview")]> environ in
  <["TOTAL_BUDGET" := setting E settings "TOTAL_BUDGET" (Safety.JFloat "10.0")]> environ.

(** The safety gate's environment once [run_supervisor] has set the
    variables. *)
Definition after_setup (E : Safety.Env) (settings : gmap string Safety.json) : Safety.Env :=
  {| Safety.environ := set_environment E settings;
     Safety.DEFAULT_LIGHT_MODEL := Safety.DEFAULT_LIGHT_MODEL E;
     Safety.SAFETY_md := Safety.SAFETY_md E;
     Safety.client_chat := Safety.client_chat E;
     Safety.update_budget_from_usage := Safety.update_budget_from_usage E;
     Safety.json_loads := Safety.json_loads E;
     Safety.json_dumps_text := Safety.json_dumps_text E;
     Safety.py_str_of := Safety.py_str_of E |}.

End App.

(* ===================================================================== *)
(** ** Counting the safety gate's calls *)
(* ===================================================================== *)

Module SafetyCost.
Import Safety.

Definition is_LLMChat (e : effect) : bool :=
  match e with LLMChat _ _ => true | UpdateBudget _ => false end.

(** The LLM calls and the budget updates of a trace. *)
Definition llm_calls (t : list effect) : nat :=
  length (List.filter is_LLMChat t).
Definition budget_updates (t : list effect) : nat :=
  length (List.filter (λ e, negb (is_LLMChat e)) t).

End SafetyCost.

(* ===================================================================== *)
(** ** scripts/telegram_bridge.py *)
(* ===================================================================== *)

Module Bridge.
Import PyStr.

(** An update of [getUpdates], by the keys the loop reads: ["update_id"],
    ["message"]["chat"]["id"] and ["message"]["text"]; [None] is an absent
    (or empty) key. *)
Record TgUpdate : Type := {
  tg_update_id : option Z;
  tg_chat_id : option Z;
  tg_text : option string;
}.

(** What the loop does to the outside. *)
Inductive effect : Type :=
| PostCommand (text : string)
| WaitReply
| SendMessage (chat_id text : string)
| Sleep2.

(** The module's constants, read from the process environment and
    stripped, and what the calls answer: [post_command] and [tg_api] may
    raise, [wait_reply] returns the answer. *)
Record World : Type := {
  ALLOWED_CHAT : string;
  post_command : list effect → option Safety.exn;
  wait_reply : list effect → Safety.outcome string;
  tg_api : list effect → option Safety.exn;
}.

Record St : Type := {
  offset : Z;
  trace : list effect;
}.

Definition emit (e : effect) (st : St) : St :=
  {| offset := offset st; trace := trace st ++ [e] |}.

(** [str(chat.get("id", ""))] *)
Definition chat_id_of (upd : TgUpdate) : string :=
  match tg_chat_id upd with
  | Some id => pretty id
  | None => ""
  end.

(** [str(msg.get("text") or "").strip()] *)
Definition text_of (upd : TgUpdate) : string :=
  strip (default "" (tg_text upd)).

(** The [try] around [post_command] and [wait_reply]: the answer, or the
    error line. *)
Definition ask (W : World) (text : string) (st : St) : string * St :=
  let st := emit (PostCommand text) st in
  match post_command W (trace st) with
  | Some e => ("❌ Ошибка bridge: " +:+ Safety.exn_str e, st)
  | None =>
      let st := emit WaitReply st in
      match wait_reply W (trace st) with
      | Safety.Returns answer => (answer, st)
      | Safety.Raises e => ("❌ Ошибка bridge: " +:+ Safety.exn_str e, st)
      end
  end.

(** The length a reply is cut to: [answer[:4000]]. *)
Definition REPLY_MAX : nat := 4000.

(** The body of [for upd in data.get("result", [])]; [Some e] when [tg_api]
    raised. *)
Definition handle (W : World) (upd : TgUpdate) (st : St) : St * option Safety.exn :=
  let st := {| offset := Z.max (offset st) (default 0 (tg_update_id upd) + 1);
               trace := trace st |} in
  let chat_id := chat_id_of upd in
  let text := text_of upd in
  if bool_decide (text = "") then (st, None)
  else if bool_decide (ALLOWED_CHAT W ≠ "") && bool_decide (chat_id ≠ ALLOWED_CHAT W)
  then (st, None)
  else
    let '(answer, st) := ask W text st in
    let st := emit (SendMessage chat_id (take REPLY_MAX answer)) st in
    (st, tg_api W (trace st)).

(** The [for] loop: an exception ends it. *)
Fixpoint handle_all (W : World) (updates : list TgUpdate) (st : St)
    : St * option Safety.exn :=
  match updates with
  | [] => (st, None)
  | upd :: rest =>
      match handle W upd st with
      | (st', None) => handle_all W rest st'
      | raised => raised
      end
  end.

(** One iteration of [while True] in [main]: [fetched] is the decoded
    result list, or the exception of the request; any exception is
    answered by a sleep. *)
Definition poll (W : World) (fetched : Safety.outcome (list TgUpdate)) (st : St) : St :=
  match fetched with
  | Safety.Raises _ => emit Sleep2 st
  | Safety.Returns updates =>
      match handle_all W updates st with
      | (st', None) => st'
      | (st', Some _) => emit Sleep2 st'
      end
  end.

(** The chats a trace replied to, and the commands it posted. *)
Definition replied_to (t : list effect) : list string :=
  omap (λ e, match e with SendMessage chat_id _ => Some chat_id | _ => None end) t.
Definition replies (t : list effect) : list string :=
  omap (λ e, match e with SendMessage _ text => Some text | _ => None end) t.
Definition posted (t : list effect) : list string :=
  omap (λ e, match e with PostCommand text => Some text | _ => None end) t.

(** An update passes the two [continue] guards: its stripped text is not
    empty, and its chat is the allowed one when one is configured. *)
Definition accepted (W : World) (upd : TgUpdate) : bool :=
  negb (bool_decide (text_of upd = ""))
  && negb (bool_decide (ALLOWED_CHAT W ≠ "") && bool_decide (chat_id_of upd ≠ ALLOWED_CHAT W)).

(** [OUTBOX = deque(maxlen=500)] and its [append]: a full queue drops its
    oldest entry. *)
Definition OUTBOX_MAXLEN : nat := 500.

Definition outbox_append {T : Type} (entry : T * string) (OUTBOX : list (T * string))
    : list (T * string) :=
  let extended := OUTBOX ++ [entry] in
  drop (length extended - OUTBOX_MAXLEN) extended.

(** [d.get(key) == s], for a string [s] *)
Definition is_str (v : option Safety.json) (s : string) : bool :=
  match v with
  | Some (Safety.JStr x) => bool_decide (x = s)
  | _ => false
  end.

(** The body of the receive loop of [ws_listener], for one frame received
    at time [now]: the new queue, or the exception that ends the
    connection. *)
Definition on_frame {T : Type} (E : Safety.Env) (float_truthy : string → bool)
    (now : T) (msg : string) (OUTBOX : list (T * string))
    : Safety.outcome (list (T * string)) :=
  if bool_decide (msg = "") then Safety.Returns OUTBOX
  else
    match Safety.json_loads E msg with
    | Safety.Raises _ => Safety.Returns OUTBOX
    | Safety.Returns (Safety.JObj data) =>
        if is_str (data !! "type") "chat" && is_str (data !! "role") "assistant"
        then
          let content := default Safety.JNull (data !! "content") in
          let text :=
            strip (if App.truthy float_truthy content then Safety.py_str E content else "") in
          if bool_decide (text ≠ "") then Safety.Returns (outbox_append (now, text) OUTBOX)
          else Safety.Returns OUTBOX
        else Safety.Returns OUTBOX
    | Safety.Returns v =>
        Safety.Raises
          (Safety.Exn Safety.AttributeError
             ("'" +:+ Safety.type_name v +:+ "' object has no attribute 'get'"))
    end.

End Bridge.

(* ===================================================================== *)
(** ** ouroboros/tools/evolution_stats.py *)
(* ===================================================================== *)

Module EvolutionStats.

(** [s.splitlines()].  The line boundaries of Python are LF, VT, FF, CR,
    CR LF, FS, GS, RS and the characters U+0085, U+2028 and U+2029, which
    UTF-8 writes [C2 85], [E2 80 A8] and [E2 80 A9]. *)
Definition is_linebreak (c : ascii) : bool :=
  let n := Ascii.nat_of_ascii c in
  ((10 <=? n) && (n <=? 13) || (28 <=? n) && (n <=? 30))%nat.

(** The number of bytes of the line boundary [s] starts with, 0 if it
    starts with none; of CR LF this is the CR. *)
Definition boundary_width (s : string) : nat :=
  match s with
  | "" => O
  | String c s1 =>
      if is_linebreak c then 1%nat
      else if bool_decide (c = Ascii.ascii_of_nat 194) then
        match s1 with
        | String c2 _ => if bool_decide (c2 = Ascii.ascii_of_nat 133) then 2%nat else O
        | "" => O
        end
      else if bool_decide (c = Ascii.ascii_of_nat 226) then
        match s1 with
        | String c2 (String c3 _) =>
            if bool_decide (c2 = Ascii.ascii_of_nat 128)
               && (bool_decide (c3 = Ascii.ascii_of_nat 168)
                   || bool_decide (c3 = Ascii.ascii_of_nat 169))
            then 3%nat else O
        | _ => O
        end
      else O
  end.

(** [skip] counts the bytes of a boundary that are still to be passed
    over; [after_cr] remembers a CR just seen, whose LF belongs to the same
    boundary; [cur] is the line so far, reversed. *)
Fixpoint splitlines_go (skip : nat) (after_cr : bool) (cur : string) (s : string)
    : list string :=
  match s with
  | "" => if bool_decide (cur = "") then [] else [String.rev cur]
  | String c s' =>
      match skip with
      | S k => splitlines_go k false cur s'
      | O =>
          if after_cr && bool_decide (c = Ascii.ascii_of_nat 10)
          then splitlines_go O false cur s'
          else
            match boundary_width s with
            | O => splitlines_go O false (String c cur) s'
            | S k =>
                String.rev cur
                :: splitlines_go k (bool_decide (c = Ascii.ascii_of_nat 13)) "" s'
            end
      end
  end.
Definition splitlines (s : string) : list string := splitlines_go O false "" s.

(** [s.split(sep, maxsplit)] for a one-character separator. *)
Fixpoint split_max_go (sep : ascii) (maxsplit : nat) (cur : string) (s : string)
    : list string :=
  match s with
  | "" => [String.rev cur]
  | String c s' =>
      match maxsplit with
      | S k =>
          if bool_decide (c = sep) then String.rev cur :: split_max_go sep k "" s'
          else split_max_go sep maxsplit (String c cur) s'
      | O => split_max_go sep O (String c cur) s'
      end
  end.
Definition split_max (sep : ascii) (maxsplit : nat) (s : string) : list string :=
  split_max_go sep maxsplit "" s.

(** [s.endswith(p)] and [s.count(c)] for a character. *)
Definition endswith (s p : string) : bool := String.prefix (String.rev p) (String.rev s).
Fixpoint count_char (c : ascii) (s : string) : nat :=
  match s with
  | "" => O
  | String c' s' => ((if bool_decide (c' = c) then 1 else 0) + count_char c s')%nat
  end.

Definition MAX_POINTS : nat := 100.

(** What the module asks of the outside: [subprocess.run] of git, which
    raises or gives the return code and the output, and the clock behind
    [generated_at]. *)
Record World : Type := {
  run : list string → Safety.outcome (Z * string);
  now_utc : string;
}.

(** [_git]: the output, or the empty string on a non-zero code or on any
    exception. *)
Definition _git (W : World) (args : list string) : string :=
  match run W ("git" :: args) with
  | Safety.Returns (code, stdout) => if bool_decide (code = 0) then stdout else ""
  | Safety.Raises _ => ""
  end.

(** [_count_py_lines] *)
Definition _count_py_lines (W : World) (commit_hash : string) : nat * nat :=
  let tree := _git W ["ls-tree"; "-r"; "--name-only"; commit_hash] in
  let py_files := List.filter (λ f, endswith f ".py") (splitlines tree) in
  let total_lines :=
    foldl (λ total f,
             let content := _git W ["show"; commit_hash +:+ ":" +:+ f] in
             (total + count_char (Ascii.ascii_of_nat 10) content)%nat)
          O py_files in
  (total_lines, length py_files).

(** [_get_file_bytes]: the contents are byte strings here, so the length
    is the size of the UTF-8 encoding. *)
Fixpoint _get_file_bytes (W : World) (commit_hash : string) (candidate_paths : list string)
    : nat :=
  match candidate_paths with
  | [] => O
  | path :: rest =>
      let content := _git W ["show"; commit_hash +:+ ":" +:+ path] in
      if bool_decide (content ≠ "") then String.length content
      else _get_file_bytes W commit_hash rest
  end.

(** [_VERSION_RE = v(\d+\.\d+\.\d+)].  Of the decimal digits that [\d]
    matches, [is_digit] knows the ones of ASCII: the pattern is modelled for
    messages that are ASCII text.  Digits and the dot exclude each other, so
    a greedy [\d+] is the longest run of digits and no shorter run can lead
    to a match. *)
Definition is_digit (c : ascii) : bool :=
  let n := Ascii.nat_of_ascii c in ((48 <=? n) && (n <=? 57))%nat.

(** The longest run of digits at the start of [s], and what follows it. *)
Fixpoint digits (s : string) : string * string :=
  match s with
  | "" => ("", "")
  | String c s' =>
      if is_digit c then let '(ds, rest) := digits s' in (String c ds, rest)
      else ("", s)
  end.

(** [\d+\.\d+\.\d+] matched at the start of [s]: the text matched. *)
Definition match_numbers (s : string) : option string :=
  let '(a, r1) := digits s in
  if bool_decide (a = "") then None
  else
    match r1 with
    | String "." r2 =>
        let '(b, r3) := digits r2 in
        if bool_decide (b = "") then None
        else
          match r3 with
          | String "." r4 =>
              let '(c, _) := digits r4 in
              if bool_decide (c = "") then None
              else Some (a +:+ "." +:+ b +:+ "." +:+ c)
          | _ => None
          end
    | _ => None
    end.

(** [_extract_version]: [search] takes the leftmost match. *)
Fixpoint _extract_version (msg : string) : option string :=
  match msg with
  | "" => None
  | String c rest =>
      if bool_decide (c = "v"%char) then
        match match_numbers rest with
        | Some version => Some version
        | None => _extract_version rest
        end
      else _extract_version rest
  end.

Record Commit : Type := { c_hash : string; c_ts : string; c_msg : string }.

Record Point : Type := {
  p_ts : string;
  p_hash : string;
  p_msg : string;
  p_version : option string;
  p_py_lines : nat;
  p_module_count : nat;
  p_bible_bytes : nat;
  p_system_bytes : nat;
}.

(** The lines of the log that split into three fields. *)
Definition parse_log (log_out : string) : list Commit :=
  omap (λ line,
          match split_max "|" 2 line with
          | [h; ts; msg] => Some {| c_hash := h; c_ts := ts; c_msg := msg |}
          | _ => None
          end)
       (splitlines log_out).

(** [sorted(X)] of a set of indices: its elements in increasing order. *)
Fixpoint insert_index (i : nat) (l : list nat) : list nat :=
  match l with
  | [] => [i]
  | j :: l' => if bool_decide (i ≤ j)%nat then i :: l else j :: insert_index i l'
  end.
Definition sorted (X : gset nat) : list nat := foldr insert_index [] (elements X).

(** [range(0, n, step)], as a list. *)
Definition range_step (n step : nat) : list nat :=
  List.filter (λ i, bool_decide (i `mod` step = 0)%nat) (seq 0 n).

(** [l[::step]]: [skip] elements are passed over before the next one is
    taken. *)
Fixpoint stride_go {A : Type} (step skip : nat) (l : list A) : list A :=
  match l with
  | [] => []
  | x :: l' =>
      match skip with
      | O => x :: stride_go step (step - 1) l'
      | S k => stride_go step k l'
      end
  end.
Definition stride {A : Type} (step : nat) (l : list A) : list A := stride_go step O l.

(** The indices whose commit message carries a version. *)
Definition version_indices (all_commits : list Commit) : gset nat :=
  list_to_set
    (omap (λ ic : nat * Commit,
             match _extract_version (c_msg ic.2) with
             | Some version => if bool_decide (version ≠ "") then Some ic.1 else None
             | None => None
             end)
          (imap pair all_commits)).

(** The sampling of [_collect_data], from [must_include] to [selected], for
    [n] commits, [n] at least one.  [extra_slots] is a natural number here:
    where the source has a negative one the guard [extra_slots > 0] fails
    just the same. *)
Definition select_indices (n : nat) (version_idx : gset nat) : list nat :=
  let must_include : gset nat := version_idx ∪ {[ 0%nat; (n - 1)%nat ]} in
  let step := Nat.max 1 (n `div` MAX_POINTS) in
  let spaced_idx : gset nat := list_to_set (range_step n step) in
  let candidate := sorted (must_include ∪ spaced_idx) in
  let candidate :=
    if bool_decide (MAX_POINTS < length candidate)%nat then
      let non_version := List.filter (λ i, bool_decide (i ∉ must_include)) candidate in
      let extra_slots := (MAX_POINTS - size must_include)%nat in
      let extra :=
        if bool_decide (0 < extra_slots)%nat && bool_decide (non_version ≠ []) then
          let step2 := Nat.max 1 (length non_version `div` extra_slots) in
          take extra_slots (stride step2 non_version)
        else [] in
      sorted (must_include ∪ list_to_set extra)
    else candidate in
  reverse candidate.

(** The loop over [selected]: [all_commits[idx]] raises on an index out of
    range. *)
Fixpoint collect_points (W : World) (all_commits : list Commit) (selected : list nat)
    : Safety.outcome (list Point) :=
  match selected with
  | [] => Safety.Returns []
  | idx :: rest =>
      match all_commits !! idx with
      | None => Safety.Raises (Safety.Exn (Safety.OtherError "IndexError")
                                 "list index out of range")
      | Some c =>
          let h := c_hash c in
          let '(py_lines, module_count) := _count_py_lines W h in
          let bible_bytes := _get_file_bytes W h ["BIBLE.md"; "prompts/BIBLE.md"] in
          let system_bytes := _get_file_bytes W h ["prompts/SYSTEM.md"; "SYSTEM.md"] in
          let point :=
            {| p_ts := c_ts c; p_hash := PyStr.take 8 h; p_msg := PyStr.take 80 (c_msg c);
               p_version := _extract_version (c_msg c);
               p_py_lines := py_lines; p_module_count := module_count;
               p_bible_bytes := bible_bytes; p_system_bytes := system_bytes |} in
          match collect_points W all_commits rest with
          | Safety.Returns points => Safety.Returns (point :: points)
          | Safety.Raises e => Safety.Raises e
          end
      end
  end.

(** [_collect_data] *)
Definition _collect_data (W : World) : Safety.outcome (list Point) :=
  let log_out := _git W ["log"; "--pretty=format:%H|%aI|%s"; "--no-merges"] in
  let all_commits := parse_log log_out in
  if bool_decide (all_commits = []) then Safety.Returns []
  else
    let n := length all_commits in
    collect_points W all_commits (select_indices n (version_indices all_commits)).

(** [max((p[field] for p in points), default=0)] *)
Definition max_of (field : Point → nat) (points : list Point) : nat :=
  foldr (λ p m, Nat.max (field p) m) O points.

(** The document handed to [_push_to_github]. *)
Record Data : Type := {
  generated_at : string;
  total_commits_sampled : nat;
  max_py_lines : nat;
  max_bible_bytes : nat;
  max_system_bytes : nat;
  points : list Point;
}.

(** [generate_evolution_stats]: the summary, and the document pushed if
    there was a push.  [_push_to_github] answers [push data], or raises:
    its requests are made outside any [try]. *)
Definition generate_evolution_stats (W : World) (push : Data → Safety.outcome string)
    : Safety.outcome (string * option Data) :=
  match _collect_data W with
  | Safety.Raises e => Safety.Raises e
  | Safety.Returns points =>
      match points, last points with
      | first :: _, Some last =>
          let data :=
            {| generated_at := now_utc W;
               total_commits_sampled := length points;
               max_py_lines := max_of p_py_lines points;
               max_bible_bytes := max_of p_bible_bytes points;
               max_system_bytes := max_of p_system_bytes points;
               points := points |} in
          match push data with
          | Safety.Raises e => Safety.Raises e
          | Safety.Returns result =>
              Safety.Returns
                ("evolution_stats: " +:+ result +:+ " | span=" +:+ PyStr.take 10 (p_ts first)
                 +:+ "…" +:+ PyStr.take 10 (p_ts last)
                 +:+ " | py_lines=" +:+ pretty (p_py_lines last)
                 +:+ " bible=" +:+ pretty (p_bible_bytes last)
                 +:+ "B system=" +:+ pretty (p_system_bytes last) +:+ "B",
                 Some data)
          end
      | _, _ => Safety.Returns ("No data collected (empty git history?)", None)
      end
  end.

End EvolutionStats.

(* ===================================================================== *)
(** ** More concrete environments *)
(* ===================================================================== *)

Module MoreSamples.
Import PyStr.

(** The LLM provider is down: every call raises. *)
Definition E_down : Safety.Env :=
  {| Safety.environ := ∅;
     Safety.DEFAULT_LIGHT_MODEL := "google/gemini-3-pro-preview";
     Safety.SAFETY_md := Some "policy";
     Safety.client_chat := λ _ _,
       Safety.Raises (Safety.Exn (Safety.OtherError "ConnectionError") "connection refused");
     Safety.update_budget_from_usage := λ _, None;
     Safety.json_loads := Samples.sample_loads;
     Safety.json_dumps_text := λ _, "{}";
     Safety.py_str_of := λ _, "?" |}.

(** The server's socket: every frame decodes to a line of the assistant. *)
Definition E_ws : Safety.Env :=
  {| Safety.environ := ∅;
     Safety.DEFAULT_LIGHT_MODEL := "google/gemini-3-pro-preview";
     Safety.SAFETY_md := None;
     Safety.client_chat := λ _ _,
       Safety.Raises (Safety.Exn (Safety.OtherError "ConnectionError") "connection refused");
     Safety.update_budget_from_usage := λ _, None;
     Safety.json_loads := λ _,
       Safety.Returns
         (Safety.JObj (list_to_map [("type", Safety.JStr "chat");
                                    ("role", Safety.JStr "assistant");
                                    ("content", Safety.JStr " hello ")]));
     Safety.json_dumps_text := λ _, "{}";
     Safety.py_str_of := λ _, "?" |}.

(** A bridge that serves chat 42 only; every call succeeds and the answer
    is long. *)
Definition long_answer : string :=
  Eval vm_compute in
    (let fix rep (n : nat) : string :=
       match n with O => "" | S n' => String "a" (rep n') end in rep 4100%nat).

Definition W_bridge : Bridge.World :=
  {| Bridge.ALLOWED_CHAT := "42";
     Bridge.post_command := λ _, None;
     Bridge.wait_reply := λ _, Safety.Returns long_answer;
     Bridge.tg_api := λ _, None |}.

Definition tg (id chat : Z) (text : string) : Bridge.TgUpdate :=
  {| Bridge.tg_update_id := Some id; Bridge.tg_chat_id := Some chat;
     Bridge.tg_text := Some text |}.

Definition bridge_start : Bridge.St := {| Bridge.offset := 0; Bridge.trace := [] |}.

(** U+2028 and U+0085 in UTF-8, and a log whose older subject holds a
    U+2028: [splitlines] breaks it there, and what follows has three fields
    of its own. *)
Definition u2028 : string :=
  String (Ascii.ascii_of_nat 226) (String (Ascii.ascii_of_nat 128)
    (String (Ascii.ascii_of_nat 168) "")).
Definition u0085 : string :=
  String (Ascii.ascii_of_nat 194) (String (Ascii.ascii_of_nat 133) "").

Definition W_wrapped : EvolutionStats.World :=
  {| EvolutionStats.run := λ args,
       if bool_decide (args !! 1%nat = Some "log") then
         Safety.Returns (0, "h1|d1|s1" +:+ nl +:+ "h2|d2|a" +:+ u2028 +:+ "b|c|d")
       else Safety.Returns (128, "fatal");
     EvolutionStats.now_utc := "2026-03-02T00:00:00Z" |}.

(** No git on the machine: every call raises. *)
Definition W_nogit : EvolutionStats.World :=
  {| EvolutionStats.run := λ _,
       Safety.Raises (Safety.Exn (Safety.OtherError "FileNotFoundError") "git");
     EvolutionStats.now_utc := "2026-03-02T00:00:00Z" |}.

(** A push that goes through. *)
Definition push_ok (d : EvolutionStats.Data) : Safety.outcome string :=
  Safety.Returns ("pushed " +:+ pretty (length (EvolutionStats.points d))
                  +:+ " points to docs/evolution.json").

(** A repository of three commits, the middle one tagged; [git show] knows
    one file. *)
Definition W_repo : EvolutionStats.World :=
  {| EvolutionStats.run := λ args,
       if bool_decide (args !! 1%nat = Some "log") then
         Safety.Returns (0, "c3c3c3c3c3|2026-03-01T00:00:00+00:00|fix: typo" +:+ nl
                            +:+ "b2b2b2b2b2|2026-02-01T00:00:00+00:00|release v6.2.0" +:+ nl
                            +:+ "not a commit line" +:+ nl
                            +:+ "a1a1a1a1a1|2026-01-01T00:00:00+00:00|init")
       else if bool_decide (args !! 1%nat = Some "ls-tree") then
         Safety.Returns (0, "app.py" +:+ nl +:+ "README.md" +:+ nl)
       else if bool_decide (args !! 2%nat = Some "a1a1a1a1a1:app.py") then
         Safety.Returns (0, "import os" +:+ nl +:+ "print(1)" +:+ nl)
       else Safety.Returns (128, "fatal");
     EvolutionStats.now_utc := "2026-03-02T00:00:00Z" |}.

(** What [W_repo] and [push_ok] give: the summary and the document. *)
Definition repo_summary : string :=
  "evolution_stats: pushed 3 points to docs/evolution.json"
  +:+ " | span=2026-01-01…2026-03-01 | py_lines=0 bible=0B system=0B".

Definition repo_point (ts hash msg : string) (version : option string) (py_lines : nat)
    : EvolutionStats.Point :=
  {| EvolutionStats.p_ts := ts; EvolutionStats.p_hash := hash;
     EvolutionStats.p_msg := msg; EvolutionStats.p_version := version;
     EvolutionStats.p_py_lines := py_lines; EvolutionStats.p_module_count := 1;
     EvolutionStats.p_bible_bytes := 0; EvolutionStats.p_system_bytes := 0 |}.

Definition repo_document : EvolutionStats.Data :=
  {| EvolutionStats.generated_at := "2026-03-02T00:00:00Z";
     EvolutionStats.total_commits_sampled := 3;
     EvolutionStats.max_py_lines := 2;
     EvolutionStats.max_bible_bytes := 0;
     EvolutionStats.max_system_bytes := 0;
     EvolutionStats.points :=
       [ repo_point "2026-01-01T00:00:00+00:00" "a1a1a1a1" "init" None 2;
         repo_point "2026-02-01T00:00:00+00:00" "b2b2b2b2" "release v6.2.0" (Some "6.2.0") 0;
         repo_point "2026-03-01T00:00:00+00:00" "c3c3c3c3" "fix: typo" None 0 ] |}.


(** An environment whose decoder reads every text as the empty array. *)
Definition E_array : Safety.Env :=
  {| Safety.environ := ∅;
     Safety.DEFAULT_LIGHT_MODEL := "google/gemini-3-pro-preview";
     Safety.SAFETY_md := Some "policy";
     Safety.client_chat := λ _ _, Safety.Returns (Some "[]", []);
     Safety.update_budget_from_usage := λ _, None;
     Safety.json_loads := λ _, Safety.Returns (Safety.JArr []);
     Safety.json_dumps_text := λ _, "{}";
     Safety.py_str_of := λ _, "?" |}.

End MoreSamples.

(* ===================================================================== *)
(** ** String facts *)
(* ===================================================================== *)

Module PyStrFacts.
Import PyStr.

Example lower_ex : lower "  /PaNiC now" = "  /panic now".
Proof. reflexivity. Qed.

Example strip_ex : strip (" " +:+ nl +:+ "/evolve  off " +:+ nl) = "/evolve  off".
Proof. reflexivity. Qed.

Example split_ex : split "/evolve   off  x" = ["/evolve"; "off"; "x"].
Proof. reflexivity. Qed.

Example clean_ex :
  Safety.clean ("```json" +:+ nl +:+ Samples.safe_text +:+ nl +:+ "```") = Samples.safe_text.
Proof. reflexivity. Qed.

Lemma isspace_lower_char c : isspace (lower_char c) = isspace c.
Proof. by destruct c as [[] [] [] [] [] [] [] []]. Qed.

Lemma prefix_nil s : String.prefix "" s = true.
Proof. by destruct s. Qed.

Lemma prefix_app p s : String.prefix p s = true → ∃ r, s = p +:+ r.
Proof.
  revert s. induction p as [|a p IH]; intros s Hp; [by exists s|].
  destruct s as [|c s]; [done|]. cbn in Hp.
  destruct (ascii_dec a c) as [->|]; [|done].
  destruct (IH _ Hp) as [r ->]. by exists r.
Qed.

Lemma prefix_lower p s :
  String.prefix p s = true → String.prefix (lower p) (lower s) = true.
Proof.
  revert s. induction p as [|a p IH]; intros s Hp; [apply prefix_nil|].
  destruct s as [|c s]; [done|]. cbn in Hp |- *.
  destruct (ascii_dec a c) as [->|]; [|done].
  destruct (ascii_dec _ _); [by apply IH|done].
Qed.

Lemma rstrip_cons_nospace c s :
  isspace c = false → rstrip (String c s) = String c (rstrip s).
Proof. intros Hc. cbn. rewrite Hc. by destruct (rstrip s). Qed.

Lemma prefix_lower_rstrip p s :
  nospace p = true →
  String.prefix p (lower s) = true → String.prefix p (lower (rstrip s)) = true.
Proof.
  revert s. induction p as [|a p IH]; intros s Hns Hp; [apply prefix_nil|].
  destruct s as [|c s]; [done|]. cbn in Hns, Hp.
  apply andb_true_iff in Hns as [Ha Hns].
  destruct (ascii_dec a (lower_char c)) as [->|]; [|done].
  rewrite isspace_lower_char in Ha. apply negb_true_iff in Ha.
  rewrite rstrip_cons_nospace by done. cbn.
  destruct (ascii_dec _ _); [|done]. by apply IH.
Qed.

(** A command word found at the start of the lowered text is still there
    after [strip]. *)
Lemma prefix_lower_strip p s :
  nospace p = true →
  String.prefix p (lower s) = true → String.prefix p (lower (strip s)) = true.
Proof.
  intros Hns Hp. unfold strip.
  destruct p as [|a p]; [apply prefix_nil|]. destruct s as [|c s]; [done|].
  assert (isspace c = false) as Hc.
  { cbn in Hns, Hp. apply andb_true_iff in Hns as [Ha _].
    destruct (ascii_dec a (lower_char c)) as [->|]; [|done].
    rewrite isspace_lower_char in Ha. by apply negb_true_iff in Ha. }
  cbn [lstrip]. rewrite Hc. by apply prefix_lower_rstrip.
Qed.

End PyStrFacts.

Module SafetyFacts.
Import PyStr Safety Samples.
Local Open Scope safety_scope.

(** Membership in a literal list, by running the decision procedure. *)
Ltac by_decide := apply (bool_decide_unpack _); vm_compute; exact I.

Example run_danger_danger :
  (check_safety (E_sample danger_text danger_text) "run_shell" shell_args).1
  = Returns (false, deny_reason (E_sample danger_text danger_text)
                      (Flagged (JStr "destructive"))).
Proof. vm_compute. reflexivity. Qed.

Example run_safe :
  ∃ prompt,
    check_safety (E_sample safe_text danger_text) "run_shell" shell_args
    = (Returns (true, ""),
       [LLMChat "light" (fast_messages (E_sample safe_text danger_text) prompt);
        UpdateBudget [("cost", JInt 1)]]).
Proof. eexists. vm_compute. reflexivity. Qed.

(** *** The shape of a run *)

Section Run.
Variable E : Env.

Lemma build_prompt_encodable tool args kvs :
  encodable args = Returns kvs →
  _build_check_prompt E tool args
  = (Returns (check_prompt_text tool (json_dumps_text E kvs)), []).
Proof.
  intros Henc. unfold _build_check_prompt, json_dumps. rewrite Henc. reflexivity.
Qed.

Lemma build_prompt_not_encodable tool args e :
  encodable args = Raises e →
  _build_check_prompt E tool args = (Raises e, []).
Proof.
  intros Henc. unfold _build_check_prompt, json_dumps. rewrite Henc. reflexivity.
Qed.

(** The fast check never raises; it returns [allow] on a [Safe] verdict and
    falls through on every other one. *)
Lemma fast_check_run prompt :
  let fm := fast_messages E prompt in
  ∃ fast, fast_check E prompt = (Returns fast, effects_of E (light_model E) fm)
    ∧ match verdict_of E (light_model E) fm with
      | Safe => fast = FastReturn (true, "")
      | _ => ∃ fast_reason, fast = FastFlagged fast_reason
      end.
Proof.
  cbn zeta.
  unfold fast_check, chat_text, report_usage, verdict_of, budget_failure, effects_of,
    fast_messages.
  destruct (client_chat E _ _) as [[content u]|e].
  2: { cbn. eexists; split; [reflexivity|eauto]. }
  destruct u as [|p u]; [|destruct (update_budget_from_usage E (p :: u)) as [e|]].
  2: { cbn. eexists; split; [reflexivity|eauto]. }
  all: destruct (json_loads E (clean (content_or_empty content))) as [result|e] eqn:Hloads;
    cbn; rewrite Hloads; cbn.
  1,3: destruct result; cbn; try (eexists; split; [reflexivity|eauto]; fail).
  1,2: destruct (is_SAFE _); cbn; (eexists; split; [reflexivity|eauto]).
  all: unfold is_JSONDecodeError; destruct (exn_cls e); cbn;
    (eexists; split; [reflexivity|eauto]).
Qed.

(** The deep check never raises either, and always decides. *)
Lemma deep_check_run prompt :
  let dm := deep_messages E prompt in
  deep_check E prompt
  = (Returns (match verdict_of E (heavy_model E) dm with
              | Safe => (true, "")
              | v => (false, deny_reason E v)
              end),
     effects_of E (heavy_model E) dm).
Proof.
  cbn zeta.
  unfold deep_check, chat_text, report_usage, verdict_of, budget_failure, effects_of,
    deep_messages.
  destruct (client_chat E _ _) as [[content u]|e]; [|reflexivity].
  destruct u as [|p u]; [|destruct (update_budget_from_usage E (p :: u)) as [e|]].
  2: reflexivity.
  all: destruct (json_loads E (clean (content_or_empty content))) as [result|e] eqn:Hloads;
    cbn; rewrite Hloads; cbn.
  1,3: destruct result; cbn; try reflexivity.
  1,2: destruct (is_SAFE _); cbn; reflexivity.
  all: unfold is_JSONDecodeError; destruct (exn_cls e); cbn; reflexivity.
Qed.

(** A gated call with encodable arguments: one check on a [Safe] fast
    verdict, both checks otherwise, and the deep verdict decides. *)
Lemma check_safety_run tool args kvs :
  tool ∈ MUTATING →
  encodable args = Returns kvs →
  let prompt := check_prompt_text tool (json_dumps_text E kvs) in
  let fm := fast_messages E prompt in
  let dm := deep_messages E prompt in
  check_safety E tool args =
  match verdict_of E (light_model E) fm with
  | Safe => (Returns (true, ""), effects_of E (light_model E) fm)
  | _ => (Returns (match verdict_of E (heavy_model E) dm with
                   | Safe => (true, "")
                   | v => (false, deny_reason E v)
                   end),
          effects_of E (light_model E) fm ++ effects_of E (heavy_model E) dm)
  end.
Proof.
  intros Hmut Henc. cbn zeta. unfold check_safety.
  rewrite bool_decide_eq_true_2 by done. cbn [negb].
  rewrite (build_prompt_encodable _ _ _ Henc).
  destruct (fast_check_run (check_prompt_text tool (json_dumps_text E kvs)))
    as (fast & Hfast & Hv).
  cbn zeta in Hfast, Hv. unfold bind at 1. cbn [app].
  unfold bind. rewrite Hfast.
  destruct (verdict_of E (light_model E) _).
  - subst fast. cbn. by rewrite app_nil_r.
  - destruct Hv as [r ->]. by rewrite deep_check_run.
  - destruct Hv as [r ->]. by rewrite deep_check_run.
  - destruct Hv as [r ->]. by rewrite deep_check_run.
Qed.

Lemma check_safety_not_mutating tool args :
  tool ∉ MUTATING → check_safety E tool args = (Returns (true, ""), []).
Proof.
  intros Hnot. unfold check_safety. by rewrite bool_decide_eq_false_2.
Qed.

Lemma check_safety_not_encodable tool args e :
  tool ∈ MUTATING → encodable args = Raises e →
  check_safety E tool args = (Raises e, []).
Proof.
  intros Hmut Henc. unfold check_safety.
  rewrite bool_decide_eq_true_2 by done. cbn [negb].
  by rewrite (build_prompt_not_encodable _ _ _ Henc).
Qed.

Lemma effects_of_head model messages :
  ∃ rest, effects_of E model messages = LLMChat model messages :: rest.
Proof. unfold effects_of. eauto. Qed.

Lemma deny_reason_prefix v :
  v ≠ Safe → String.prefix "⚠️ SAFETY_VIOLATION" (deny_reason E v) = true.
Proof. destruct v; [done|..]; intros _; vm_compute; reflexivity. Qed.

Lemma prefix_nonempty p s :
  String.prefix p s = true → p ≠ "" → s ≠ "".
Proof. destruct p, s; cbn; congruence. Qed.

Lemma deny_reason_nonempty v : v ≠ Safe → deny_reason E v ≠ "".
Proof.
  intros Hv. eapply prefix_nonempty; [by apply deny_reason_prefix|done].
Qed.

End Run.

(** *** The gate *)

(** C1, as the specification lists the mutating set, fails on the code both
    ways at once: ["code_edit"] is in the listed set and is allowed with no
    LLM call, although both models of this environment would answer
    DANGEROUS; ["claude_code_edit"] is not in the listed set and is denied. *)
Lemma check_safety_code_edit_ungated :
  "code_edit" ∈ SPEC_MUTATING
  ∧ check_safety E_dd "code_edit" shell_args = (Returns (true, ""), [])
  ∧ ("claude_code_edit" ∉ SPEC_MUTATING)
  ∧ (check_safety E_dd "claude_code_edit" shell_args).1 ≠ Returns (true, "").
Proof.
  split_and!.
  - by_decide.
  - vm_compute. reflexivity.
  - by_decide.
  - vm_compute. discriminate.
Qed.

(** C1, amended: the gate is on the names of [MUTATING], where the code-edit
    tool is called ["claude_code_edit"].  A tool outside that set is allowed
    with an empty reason and an empty trace (no LLM call, no budget update).
    A tool inside it is never allowed unconditionally: whenever the function
    returns, its first effect is the fast check's LLM call on the prompt
    built from the call, and it returns allow only if the fast or the deep
    verdict is [Safe]. *)
Theorem check_safety_gate (E : Env) (tool : string) (args : list (string * pyarg)) :
  (tool ∉ MUTATING → check_safety E tool args = (Returns (true, ""), []))
  ∧ (tool ∈ MUTATING →
     ∀ b reason, (check_safety E tool args).1 = Returns (b, reason) →
       ∃ prompt rest,
         _build_check_prompt E tool args = (Returns prompt, [])
         ∧ (check_safety E tool args).2
           = LLMChat (light_model E) (fast_messages E prompt) :: rest
         ∧ (b = true →
            verdict_of E (light_model E) (fast_messages E prompt) = Safe
            ∨ verdict_of E (heavy_model E) (deep_messages E prompt) = Safe)).
Proof.
  split; [apply check_safety_not_mutating|].
  intros Hmut b reason Hret.
  destruct (encodable args) as [kvs|e] eqn:Henc.
  2: { rewrite (check_safety_not_encodable E _ _ _ Hmut Henc) in Hret. discriminate. }
  rewrite (check_safety_run E _ _ _ Hmut Henc) in Hret |- *.
  exists (check_prompt_text tool (json_dumps_text E kvs)).
  destruct (effects_of_head E (light_model E)
              (fast_messages E (check_prompt_text tool (json_dumps_text E kvs))))
    as [rest Hrest].
  destruct (verdict_of E (light_model E) _) eqn:Hfast; cbn [fst snd] in *.
  1: { exists rest. split_and!; [by apply build_prompt_encodable|done|auto]. }
  all: eexists (rest ++ _); rewrite Hrest; split_and!;
    [by apply build_prompt_encodable|reflexivity|].
  all: intros ->; right;
    destruct (verdict_of E (heavy_model E) _); [reflexivity|discriminate..].
Qed.

Lemma check_safety_gate_witness :
  check_safety (E_sample danger_text safe_text) "web_search" shell_args
  = (Returns (true, ""), [])
  ∧ ∃ prompt rest,
      _build_check_prompt (E_sample danger_text safe_text) "run_shell" shell_args
      = (Returns prompt, [])
      ∧ (check_safety (E_sample danger_text safe_text) "run_shell" shell_args).2
        = LLMChat (light_model (E_sample danger_text safe_text))
            (fast_messages (E_sample danger_text safe_text) prompt) :: rest
      ∧ (true = true →
         verdict_of (E_sample danger_text safe_text)
           (light_model (E_sample danger_text safe_text))
           (fast_messages (E_sample danger_text safe_text) prompt) = Safe
         ∨ verdict_of (E_sample danger_text safe_text)
             (heavy_model (E_sample danger_text safe_text))
             (deep_messages (E_sample danger_text safe_text) prompt) = Safe).
Proof.
  split.
  - apply (proj1 (check_safety_gate (E_sample danger_text safe_text) "web_search" shell_args)).
    by_decide.
  - apply (proj2 (check_safety_gate (E_sample danger_text safe_text) "run_shell" shell_args))
      with (reason := "").
    + by_decide.
    + vm_compute. reflexivity.
Defined.

(** *** The two tiers *)

(** C2: for a gated tool with encodable arguments, a [Safe] fast verdict
    returns allow and the trace holds the fast check's effects only (the deep
    check is not invoked); on every other fast verdict (flagged, unparseable,
    failed call) the deep check runs after the fast one, a [Safe] deep verdict
    gives allow, and every other deep verdict gives deny with a non-empty
    reason.  A deny is therefore never produced without the deep check's LLM
    call in the trace. *)
Theorem check_safety_two_tier (E : Env) (tool : string)
    (args : list (string * pyarg)) (kvs : list (string * json)) :
  tool ∈ MUTATING →
  encodable args = Returns kvs →
  let prompt := check_prompt_text tool (json_dumps_text E kvs) in
  let fm := fast_messages E prompt in
  let dm := deep_messages E prompt in
  let fast := verdict_of E (light_model E) fm in
  let deep := verdict_of E (heavy_model E) dm in
  let run := check_safety E tool args in
  (fast = Safe → run = (Returns (true, ""), effects_of E (light_model E) fm))
  ∧ (fast ≠ Safe →
     run.2 = effects_of E (light_model E) fm ++ effects_of E (heavy_model E) dm
     ∧ (deep = Safe → run.1 = Returns (true, ""))
     ∧ (deep ≠ Safe →
        run.1 = Returns (false, deny_reason E deep) ∧ deny_reason E deep ≠ ""))
  ∧ (∀ reason, run.1 = Returns (false, reason) →
     fast ≠ Safe ∧ deep ≠ Safe ∧ LLMChat (heavy_model E) dm ∈ run.2).
Proof.
  intros Hmut Henc. cbn zeta.
  rewrite (check_safety_run E _ _ _ Hmut Henc).
  set (fm := fast_messages E _). set (dm := deep_messages E _).
  destruct (effects_of_head E (heavy_model E) dm) as [rest Hrest].
  split_and!.
  - by intros ->.
  - intros Hfast.
    assert (Hdeny := deny_reason_nonempty E (verdict_of E (heavy_model E) dm)).
    destruct (verdict_of E (light_model E) fm); [done|..];
      (split_and!; [done|by intros ->|]);
      intros Hdeep; (split; [|by auto]);
      by destruct (verdict_of E (heavy_model E) dm).
  - intros reason.
    destruct (verdict_of E (light_model E) fm); cbn [fst snd]; [done|..];
      destruct (verdict_of E (heavy_model E) dm); intros [= <-];
      (split_and!; [done|done|]);
      rewrite Hrest; apply elem_of_app; right; apply elem_of_cons; by left.
Qed.

Lemma check_safety_two_tier_witness :
  (check_safety E_dd "run_shell" shell_args).1
  = Returns (false, deny_reason E_dd (Flagged (JStr "destructive")))
  ∧ length (check_safety E_dd "run_shell" shell_args).2 = 4%nat.
Proof.
  destruct (check_safety_two_tier E_dd "run_shell" shell_args [("cmd", JStr "rm -rf /")])
    as (_ & Hflagged & _).
  { by_decide. }
  { reflexivity. }
  destruct Hflagged as (Htrace & _ & Hdeny).
  { vm_compute. discriminate. }
  destruct Hdeny as [Hret _].
  { vm_compute. discriminate. }
  split.
  - rewrite Hret. vm_compute. reflexivity.
  - rewrite Htrace. vm_compute. reflexivity.
Defined.

(** *** Totality *)

(** C3, as stated for every argument dictionary, fails: the prompt is built
    by [json.dumps] before the first [try], so a dictionary holding a value
    without a JSON encoding makes the [TypeError] leave [check_safety]. *)
Lemma check_safety_unencodable_raises :
  "run_shell" ∈ MUTATING
  ∧ check_safety (E_sample safe_text safe_text) "run_shell" [("cmd", NonSer "bytes")]
    = (Raises (Exn TypeError "Object of type bytes is not JSON serializable"), []).
Proof. split; [by_decide|vm_compute; reflexivity]. Qed.

(** C3, amended: for every tool name, every argument dictionary that
    [json.dumps] can encode, and every behaviour of the two LLM calls and of
    the decoder, [check_safety] returns, and what it returns is either allow
    (true with the empty reason) or deny (false with a non-empty reason). *)
Theorem check_safety_total (E : Env) (tool : string)
    (args : list (string * pyarg)) (kvs : list (string * json)) :
  encodable args = Returns kvs →
  ∃ b reason,
    (check_safety E tool args).1 = Returns (b, reason)
    ∧ ((b = true ∧ reason = "") ∨ (b = false ∧ reason ≠ "")).
Proof.
  intros Henc.
  destruct (decide (tool ∈ MUTATING)) as [Hmut|Hnot].
  2: { rewrite check_safety_not_mutating by done. exists true, "". auto. }
  rewrite (check_safety_run E _ _ _ Hmut Henc).
  set (fm := fast_messages E _). set (dm := deep_messages E _).
  assert (Hdeny := deny_reason_nonempty E (verdict_of E (heavy_model E) dm)).
  destruct (verdict_of E (light_model E) fm); cbn [fst];
    [exists true, ""; auto|..];
    (destruct (verdict_of E (heavy_model E) dm);
     [exists true, ""; auto|eexists false, _; split; [reflexivity|right; auto]..]).
Qed.

Lemma check_safety_total_witness :
  ∃ b reason,
    (check_safety (E_sample "not json" "not json") "drive_write" shell_args).1
    = Returns (b, reason)
    ∧ ((b = true ∧ reason = "") ∨ (b = false ∧ reason ≠ "")).
Proof.
  apply (check_safety_total (E_sample "not json" "not json") "drive_write" shell_args
           [("cmd", JStr "rm -rf /")]).
  reflexivity.
Defined.

(** *** Deny reasons *)

(** C6: whenever [check_safety] denies, the reason is non-empty and begins
    with "⚠️ SAFETY_VIOLATION"; it is the deny text of the deep check's
    verdict, which is one of flagged (DANGEROUS), unparseable, or failed. *)
Theorem check_safety_deny_reason (E : Env) (tool : string)
    (args : list (string * pyarg)) (reason : string) :
  (check_safety E tool args).1 = Returns (false, reason) →
  String.prefix "⚠️ SAFETY_VIOLATION" reason = true
  ∧ reason ≠ ""
  ∧ ∃ prompt,
      _build_check_prompt E tool args = (Returns prompt, [])
      ∧ reason = deny_reason E (verdict_of E (heavy_model E) (deep_messages E prompt))
      ∧ ((∃ heavy_reason,
            verdict_of E (heavy_model E) (deep_messages E prompt) = Flagged heavy_reason)
         ∨ verdict_of E (heavy_model E) (deep_messages E prompt) = Unparseable
         ∨ (∃ e, verdict_of E (heavy_model E) (deep_messages E prompt) = Failed e)).
Proof.
  intros Hdeny.
  destruct (decide (tool ∈ MUTATING)) as [Hmut|Hnot].
  2: { rewrite check_safety_not_mutating in Hdeny by done. discriminate. }
  destruct (encodable args) as [kvs|e] eqn:Henc.
  2: { rewrite (check_safety_not_encodable E _ _ _ Hmut Henc) in Hdeny. discriminate. }
  rewrite (check_safety_run E _ _ _ Hmut Henc) in Hdeny.
  rewrite (build_prompt_encodable E _ _ _ Henc).
  set (prompt := check_prompt_text tool (json_dumps_text E kvs)) in *.
  assert (Hpre := deny_reason_prefix E (verdict_of E (heavy_model E) (deep_messages E prompt))).
  assert (Hne := deny_reason_nonempty E (verdict_of E (heavy_model E) (deep_messages E prompt))).
  destruct (verdict_of E (light_model E) _); cbn [fst] in Hdeny; [discriminate|..];
    (destruct (verdict_of E (heavy_model E) (deep_messages E prompt)) eqn:Hdeep;
     [discriminate|..]; injection Hdeny as <-;
     (split_and!; [by apply Hpre|by apply Hne|]);
     exists prompt; rewrite Hdeep; split_and!; eauto).
Qed.

Lemma check_safety_deny_reason_witness :
  String.prefix "⚠️ SAFETY_VIOLATION"
    (deny_reason (E_sample danger_text "not json") Unparseable) = true.
Proof.
  apply (check_safety_deny_reason (E_sample danger_text "not json") "repo_commit" shell_args).
  vm_compute. reflexivity.
Defined.

End SafetyFacts.

Module SupervisorFacts.
Import PyStr PyStrFacts Supervisor Samples.

(** *** The pending order *)

Lemma task_le_total a b : ¬ task_le a b → task_le b a.
Proof. unfold task_le. lia. Qed.

Lemma insert_task_perm t l : insert_task t l ≡ₚ t :: l.
Proof.
  induction l as [|u l IH]; cbn; [done|].
  case_decide; [done|]. rewrite IH. apply Permutation_swap.
Qed.

Lemma sorted_tasks_perm l : sorted_tasks l ≡ₚ l.
Proof.
  induction l as [|t l IH]; cbn; [done|].
  by rewrite insert_task_perm, IH.
Qed.

Lemma insert_task_hd u t l :
  task_le u t → HdRel task_le u l → HdRel task_le u (insert_task t l).
Proof.
  intros Hut Hul. destruct l as [|v l]; cbn; [by constructor|].
  case_decide; constructor; [done|]. by inversion Hul.
Qed.

Lemma insert_task_sorted t l :
  Sorted task_le l → Sorted task_le (insert_task t l).
Proof.
  induction 1 as [|u l Hl IH Hhd]; cbn; [by repeat constructor|].
  case_decide as Htu.
  - constructor; [by constructor|by constructor].
  - constructor; [done|]. apply insert_task_hd; [by apply task_le_total|done].
Qed.

Lemma sorted_tasks_sorted l : Sorted task_le (sorted_tasks l).
Proof.
  induction l as [|t l IH]; cbn; [constructor|]. by apply insert_task_sorted.
Qed.

Example sorted_tasks_ex :
  task_id <$> sorted_tasks [mk_task "c" "chat" 2 5; mk_task "a" "review" 1 9;
                            mk_task "b" "chat" 2 3; mk_task "d" "chat" 2 5]
  = ["a"; "b"; "c"; "d"].
Proof. reflexivity. Qed.

(** *** One update *)

Section Routing.
Variable W : World.

Lemma handle_update_no_message upd s :
  message_of upd = None → handle_update W upd s = set_offset (update_id upd + 1) s.
Proof. intros Hm. unfold handle_update. by rewrite Hm. Qed.

Lemma handle_update_first_contact upd msg s :
  message_of upd = Some msg →
  is_None (load_state s !! "owner_id") = true →
  handle_update W upd s
  = send_with_budget 1 welcome
      (log_chat "in" 1 1 (default "" (msg_text msg))
         (save_state (registered (now_iso W (trace s)) (load_state s))
            (set_offset (update_id upd + 1) s))).
Proof.
  intros Hm Hnone. unfold handle_update. rewrite Hm. cbn zeta.
  change (load_state (set_offset _ s)) with (load_state s).
  by rewrite Hnone.
Qed.

Lemma handle_update_owner upd msg s :
  message_of upd = Some msg →
  is_None (load_state s !! "owner_id") = false →
  handle_update W upd s
  = let text := default "" (msg_text msg) in
    if bool_decide (text = "") then noted W upd text s
    else route_text W 1 text (noted W upd text s).
Proof.
  intros Hm Hown. unfold handle_update. rewrite Hm. cbn zeta.
  change (load_state (set_offset _ s)) with (load_state s).
  by rewrite Hown.
Qed.

Lemma noted_trace upd text s :
  trace (noted W upd text s)
  = trace s ++ [LogChat "in" 1 1 text;
                SaveState (<["last_owner_message_at" := PyStr (now_iso W (trace s))]>
                             (load_state s))].
Proof. cbn. by rewrite <- app_assoc. Qed.

Lemma route_text_panic text s :
  startswith (lower (strip text)) "/panic" = true →
  route_text W 1 text s
  = set_proc (Exited 1)
      (emit (OsExit 1)
         (kill_workers (send_with_budget 1 "🛑 PANIC: stopping everything now." s))).
Proof. intros Hp. unfold route_text. cbn zeta. by rewrite Hp. Qed.

Lemma route_text_restart text s :
  startswith (lower (strip text)) "/restart" = true →
  route_text W 1 text s
  = let s1 := send_with_budget 1 "♻️ Restarting (soft)." s in
    let s2 := emit (SafeRestart "owner_restart" "rescue_and_reset") s1 in
    if (safe_restart W (trace s1)).1
    then set_proc Replaced (emit OsExecv (kill_workers s2))
    else send_with_budget 1 ("⚠️ Restart cancelled: " +:+ (safe_restart W (trace s1)).2) s2.
Proof.
  intros Hp. unfold route_text. cbn zeta.
  destruct (prefix_app _ _ Hp) as [r Hr].
  unfold startswith in *. rewrite Hr.
  change (String.prefix "/panic" ("/restart" +:+ r)) with false.
  change (String.prefix "/restart" ("/restart" +:+ r))
    with (String.prefix "" r).
  rewrite prefix_nil. cbn iota.
  destruct (safe_restart W _) as [[] m]; reflexivity.
Qed.

Lemma route_text_evolve_off s :
  route_text W 1 "/evolve off" s
  = send_with_budget 1 "🧬 Evolution: OFF"
      (persist_queue_snapshot "evolve_off"
         (sort_pending
            (on_store (λ S, set_PENDING
                         (filter (λ t, py_str (task_type t) ≠ "evolution") (PENDING S)) S)
               (save_state (<["evolution_mode_enabled" := PyBool false]> (load_state s)) s)))).
Proof. reflexivity. Qed.

Lemma routed_only_app r1 r2 : routed_only r1 → routed_only r2 → routed_only (r1 ++ r2).
Proof. apply Forall_app_2. Qed.

Ltac routed_here :=
  eexists; split; [cbn; rewrite <- ?app_assoc; reflexivity|repeat constructor].

Lemma route_text_routed chat_id text s :
  ∃ routed, trace (route_text W chat_id text s) = trace s ++ routed ∧ routed_only routed.
Proof.
  unfold route_text, routed_only. cbn zeta.
  generalize (lower (strip text)). intros lowered.
  destruct (startswith lowered "/panic"); [routed_here|].
  destruct (startswith lowered "/restart").
  { destruct (safe_restart W _) as [[] m]; routed_here. }
  destruct (startswith lowered "/review"); [routed_here|].
  destruct (startswith lowered "/evolve").
  { destruct (bool_decide _); routed_here. }
  destruct (startswith lowered "/bg").
  { do 2 (destruct (bool_decide _); [routed_here|]). routed_here. }
  destruct (startswith lowered "/status"); [routed_here|].
  destruct (agent_busy W _); routed_here.
Qed.

Lemma handle_update_routed upd s :
  ∃ routed, trace (handle_update W upd s) = trace s ++ routed ∧ routed_only routed.
Proof.
  destruct (message_of upd) as [msg|] eqn:Hm.
  2: { rewrite handle_update_no_message by done. exists [].
       split; [cbn; by rewrite app_nil_r|constructor]. }
  destruct (is_None (load_state s !! "owner_id")) eqn:Hown.
  { rewrite (handle_update_first_contact _ _ _ Hm Hown). routed_here. }
  rewrite (handle_update_owner _ _ _ Hm Hown). cbn zeta.
  destruct (bool_decide _).
  { rewrite noted_trace. eexists. split; [reflexivity|repeat constructor]. }
  destruct (route_text_routed 1 (default "" (msg_text msg))
              (noted W upd (default "" (msg_text msg)) s)) as (routed & -> & Hr).
  rewrite noted_trace, <- app_assoc.
  eexists. split; [reflexivity|]. apply routed_only_app; [repeat constructor|done].
Qed.

Lemma route_updates_routed updates s :
  ∃ routed, trace (route_updates W updates s) = trace s ++ routed ∧ routed_only routed.
Proof.
  revert s. induction updates as [|upd rest IH]; intros s; cbn.
  { exists []. split; [by rewrite app_nil_r|constructor]. }
  destruct (handle_update_routed upd s) as (r1 & H1 & Hr1).
  destruct (proc (handle_update W upd s)); [|by eauto..].
  destruct (IH (handle_update W upd s)) as (r2 & -> & Hr2).
  rewrite H1, <- app_assoc. eexists. split; [reflexivity|by apply routed_only_app].
Qed.

Lemma dispatch_all_trace events s :
  trace (foldl (λ s evt, emit (DispatchEvent evt) (on_store (dispatch_event W evt) s))
               s events)
  = trace s ++ (DispatchEvent <$> events).
Proof.
  revert s. induction events as [|evt events IH]; intros s; cbn.
  - by rewrite app_nil_r.
  - rewrite IH. cbn. by rewrite <- app_assoc.
Qed.

Lemma dispatch_all_store events s :
  store (foldl (λ s evt, emit (DispatchEvent evt) (on_store (dispatch_event W evt) s))
               s events)
  = foldl (λ S evt, dispatch_event W evt S) (store s) events.
Proof.
  revert s. induction events as [|evt events IH]; intros s; cbn; [done|].
  by rewrite IH.
Qed.

Lemma dispatch_all_frame events s :
  offset (foldl (λ s evt, emit (DispatchEvent evt) (on_store (dispatch_event W evt) s))
                s events) = offset s
  ∧ proc (foldl (λ s evt, emit (DispatchEvent evt) (on_store (dispatch_event W evt) s))
                s events) = proc s.
Proof.
  revert s. induction events as [|evt events IH]; intros s; cbn; [done|].
  destruct (IH (emit (DispatchEvent evt) (on_store (dispatch_event W evt) s))) as [-> ->].
  done.
Qed.

Lemma before_inbox_store events s :
  store (before_inbox W events s) = phases_store W events (store s).
Proof. unfold before_inbox, phases_store. cbn. by rewrite dispatch_all_store. Qed.

Lemma before_inbox_trace events s :
  trace (before_inbox W events s)
  = trace s ++ [RotateChatLog; EnsureWorkersHealthy] ++ (DispatchEvent <$> events)
    ++ [EnforceTaskTimeouts; EnqueueEvolutionTaskIfNeeded; AssignTasks;
        PersistQueueSnapshot "main_loop" (PENDING (phases_store W events (store s)))].
Proof.
  unfold before_inbox, phases_store. cbn.
  rewrite dispatch_all_trace, dispatch_all_store. cbn.
  by rewrite <- !app_assoc.
Qed.

Lemma before_inbox_offset events s : offset (before_inbox W events s) = offset s.
Proof.
  unfold before_inbox. cbn.
  by destruct (dispatch_all_frame events
                 (emit EnsureWorkersHealthy
                    (on_store (ensure_workers_healthy W) (emit RotateChatLog s)))) as [-> _].
Qed.

Lemma route_updates_stops upd rest s :
  proc (handle_update W upd s) ≠ Running →
  route_updates W (upd :: rest) s = handle_update W upd s.
Proof. intros Hp. cbn. by destruct (proc (handle_update W upd s)). Qed.

Lemma tick_stops events updates s :
  proc (route_updates W updates (emit (GetUpdates (offset (before_inbox W events s)))
                                   (before_inbox W events s))) ≠ Running →
  tick W events updates s
  = route_updates W updates (emit (GetUpdates (offset (before_inbox W events s)))
                               (before_inbox W events s)).
Proof. intros Hp. unfold tick. cbn zeta. by destruct (proc _). Qed.

Lemma run_supervisor_stops events updates later s :
  proc (tick W events updates s) ≠ Running →
  run_supervisor W ((events, updates) :: later) s = tick W events updates s.
Proof. intros Hp. cbn. by destruct (proc _). Qed.

End Routing.

(** *** Owner registration *)

(** C4, as stated, fails on both counts.  On a fresh install "hi" arriving
    from chat 100 records chat id 1 as the owner's, not 100; and "hello"
    arriving from chat 200 afterwards is taken as the owner's: the state
    document changes and the text is handed to the chat agent. *)
Lemma first_contact_ignores_sender :
  state_doc (store after_hi) !! "owner_chat_id" = Some (PyInt 1)
  ∧ state_doc (store after_hi) !! "owner_chat_id" ≠ Some (PyInt 100)
  ∧ state_doc (store after_hello) ≠ state_doc (store after_hi)
  ∧ last (trace after_hello) = Some (StartChatThread 1 "hello").
Proof.
  split_and!.
  - vm_compute. reflexivity.
  - vm_compute. discriminate.
  - intros Heq.
    assert (state_doc (store after_hello) !! "last_owner_message_at"
            = state_doc (store after_hi) !! "last_owner_message_at") as Hat
      by (by rewrite Heq).
    vm_compute in Hat. discriminate.
  - vm_compute. reflexivity.
Qed.

(** C4, amended: on a fresh install (no [owner_id] in the state document)
    the first inbound message with a non-empty message dictionary records the
    fixed local identity as owner, [owner_id = 1] and [owner_chat_id = 1]
    whatever chat id the transport attached, and is answered with the welcome
    line sent to chat 1.  Once an owner is recorded no chat id is compared:
    every later message is logged as chat 1's and [last_owner_message_at] is
    saved, before its text is routed. *)
Theorem first_contact_registers_local_owner (W : World) (upd : Update) (msg : Message)
    (s : Sup) :
  message_of upd = Some msg →
  let text := default "" (msg_text msg) in
  let s' := handle_update W upd s in
  (is_None (load_state s !! "owner_id") = true →
   state_doc (store s') = registered (now_iso W (trace s)) (load_state s)
   ∧ state_doc (store s') !! "owner_id" = Some (PyInt 1)
   ∧ state_doc (store s') !! "owner_chat_id" = Some (PyInt 1)
   ∧ trace s' = trace s ++ [SaveState (registered (now_iso W (trace s)) (load_state s));
                            LogChat "in" 1 1 text;
                            SendWithBudget 1 welcome false])
  ∧ (is_None (load_state s !! "owner_id") = false →
     ∃ routed,
       trace s' = trace s ++ [LogChat "in" 1 1 text;
                              SaveState (<["last_owner_message_at" :=
                                             PyStr (now_iso W (trace s))]> (load_state s))]
                  ++ routed).
Proof.
  intros Hm. cbn zeta. split; intros Hown.
  - rewrite (handle_update_first_contact W _ _ _ Hm Hown). cbn.
    split_and!; [done| | |by rewrite <- !app_assoc].
    + unfold registered.
      rewrite lookup_insert_ne by done. rewrite lookup_insert_ne by done.
      apply lookup_insert_eq.
    + unfold registered. rewrite lookup_insert_ne by done. apply lookup_insert_eq.
  - rewrite (handle_update_owner W _ _ _ Hm Hown). cbn zeta.
    destruct (bool_decide _).
    + exists []. by rewrite noted_trace, app_nil_r.
    + destruct (route_text_routed W 1 (default "" (msg_text msg))
                  (noted W upd (default "" (msg_text msg)) s)) as (routed & -> & _).
      exists routed. by rewrite noted_trace, <- app_assoc.
Qed.

Lemma first_contact_registers_local_owner_witness :
  state_doc (store after_hi) !! "owner_chat_id" = Some (PyInt 1)
  ∧ ∃ routed,
      trace after_hello
      = trace after_hi
        ++ [LogChat "in" 1 1 "hello";
            SaveState (<["last_owner_message_at" :=
                           PyStr (now_iso (W_sample true) (trace after_hi))]>
                         (load_state after_hi))]
        ++ routed.
Proof.
  split.
  - refine (proj1 (proj2 (proj2 (proj1
      (first_contact_registers_local_owner (W_sample true) (text_from 1 100 "hi")
         {| msg_text := Some "hi"; msg_chat_id := Some 100 |} fresh eq_refl) _)))).
    vm_compute. reflexivity.
  - refine (proj2
      (first_contact_registers_local_owner (W_sample true) (text_from 2 200 "hello")
         {| msg_text := Some "hello"; msg_chat_id := Some 200 |} after_hi eq_refl) _).
    vm_compute. reflexivity.
Defined.

(** C10: the message that registers the owner is not interpreted further.
    Whatever its text, a command included, the update adds exactly three
    effects to the trace (the state save, the chat log line, the welcome
    reply); the process keeps running as it was and the pending list is
    untouched: no command handler, no observation injected into the
    consciousness, no chat-agent task. *)
Theorem first_contact_not_interpreted (W : World) (upd : Update) (msg : Message)
    (s : Sup) :
  message_of upd = Some msg →
  is_None (load_state s !! "owner_id") = true →
  let s' := handle_update W upd s in
  trace s' = trace s ++ [SaveState (registered (now_iso W (trace s)) (load_state s));
                         LogChat "in" 1 1 (default "" (msg_text msg));
                         SendWithBudget 1 welcome false]
  ∧ proc s' = proc s
  ∧ PENDING (store s') = PENDING (store s)
  ∧ state_doc (store s') = registered (now_iso W (trace s)) (load_state s).
Proof.
  intros Hm Hown. cbn zeta.
  rewrite (handle_update_first_contact W _ _ _ Hm Hown). cbn.
  by rewrite <- !app_assoc.
Qed.

Lemma first_contact_not_interpreted_witness :
  proc (handle_update (W_sample true) (text_from 1 100 "/panic") fresh) = Running
  ∧ length (trace (handle_update (W_sample true) (text_from 1 100 "/panic") fresh)) = 3%nat.
Proof.
  destruct (first_contact_not_interpreted (W_sample true) (text_from 1 100 "/panic")
              {| msg_text := Some "/panic"; msg_chat_id := Some 100 |} fresh eq_refl)
    as (Htrace & Hproc & _).
  { vm_compute. reflexivity. }
  split; [exact Hproc|]. rewrite Htrace. reflexivity.
Defined.

(** *** Commands *)

(** C8, as stated, fails for the message that registers the owner: on a
    fresh install "/panic" is answered with the welcome line, no worker is
    killed and the process keeps running. *)
Lemma first_contact_panic_keeps_running :
  startswith (lower "/panic") "/panic" = true
  ∧ proc (handle_update (W_sample true) (text_from 1 1 "/panic") fresh) = Running
  ∧ existsb (λ e, match e with KillWorkers | OsExit _ => true | _ => false end)
      (trace (handle_update (W_sample true) (text_from 1 1 "/panic") fresh)) = false
  ∧ last (trace (handle_update (W_sample true) (text_from 1 1 "/panic") fresh))
    = Some (SendWithBudget 1 welcome false).
Proof. split_and!; vm_compute; reflexivity. Qed.

(** C8: on a registered installation, a message whose text starts with
    "/panic" in any letter case sends the warning line, kills the workers and
    exits the process with code 1.  Nothing follows: the rest of the inbox is
    not handled, the iteration ends without its sleep, and no later
    iteration runs. *)
Theorem panic_exits (W : World) (upd : Update) (msg : Message) (text : string) (s : Sup) :
  message_of upd = Some msg →
  msg_text msg = Some text →
  is_None (load_state s !! "owner_id") = false →
  startswith (lower text) "/panic" = true →
  let s' := handle_update W upd s in
  trace s' = trace s ++ [LogChat "in" 1 1 text;
                         SaveState (<["last_owner_message_at" :=
                                        PyStr (now_iso W (trace s))]> (load_state s));
                         SendWithBudget 1 "🛑 PANIC: stopping everything now." false;
                         KillWorkers;
                         OsExit 1]
  ∧ proc s' = Exited 1
  ∧ (∀ rest, route_updates W (upd :: rest) s = s')
  ∧ (∀ events rest later s0,
       s = emit (GetUpdates (offset (before_inbox W events s0))) (before_inbox W events s0) →
       tick W events (upd :: rest) s0 = s'
       ∧ run_supervisor W ((events, upd :: rest) :: later) s0 = s').
Proof.
  intros Hm Htext Hown Hpanic. cbn zeta.
  assert (text ≠ "") as Hne by (intros ->; discriminate).
  assert (handle_update W upd s
          = set_proc (Exited 1)
              (emit (OsExit 1)
                 (kill_workers
                    (send_with_budget 1 "🛑 PANIC: stopping everything now."
                       (noted W upd text s))))) as Hrun.
  { rewrite (handle_update_owner W _ _ _ Hm Hown), Htext. cbn zeta. cbn [default].
    rewrite bool_decide_eq_false_2 by done.
    apply route_text_panic. by apply prefix_lower_strip. }
  assert (proc (handle_update W upd s) = Exited 1) as Hproc by (by rewrite Hrun).
  assert (∀ rest, route_updates W (upd :: rest) s = handle_update W upd s) as Hstop.
  { intros rest. apply route_updates_stops. by rewrite Hproc. }
  split_and!; [|done|done|].
  - rewrite Hrun. cbn - [noted]. rewrite noted_trace. by rewrite <- !app_assoc.
  - intros events rest later s0 ->.
    assert (tick W events (upd :: rest) s0
            = handle_update W upd
                (emit (GetUpdates (offset (before_inbox W events s0)))
                   (before_inbox W events s0))) as Htick.
    { rewrite tick_stops; rewrite Hstop; [done|by rewrite Hproc]. }
    split; [done|]. rewrite run_supervisor_stops; [done|]. by rewrite Htick, Hproc.
Qed.

Lemma panic_exits_witness :
  proc (handle_update (W_sample true) (text_from 7 1 "/PANIC now") (owned [])) = Exited 1.
Proof.
  refine (proj1 (proj2
    (panic_exits (W_sample true) (text_from 7 1 "/PANIC now")
       {| msg_text := Some "/PANIC now"; msg_chat_id := Some 1 |} "/PANIC now" (owned [])
       eq_refl eq_refl _ _))).
  - vm_compute. reflexivity.
  - vm_compute. reflexivity.
Defined.

(** C7, as stated, fails for the message that registers the owner: on a
    fresh install "/restart" calls no [safe_restart]: where it would answer
    ok, no worker is killed and nothing is re-executed; where it would
    refuse, no cancellation is sent, the reply is the welcome line. *)
Lemma first_contact_restart_not_run :
  proc (handle_update (W_sample true) (text_from 1 1 "/restart") fresh) = Running
  ∧ existsb (λ e, match e with
                  | SafeRestart _ _ | KillWorkers | OsExecv => true
                  | _ => false
                  end)
      (trace (handle_update (W_sample true) (text_from 1 1 "/restart") fresh)) = false
  ∧ proc (handle_update (W_sample false) (text_from 1 1 "/restart") fresh) = Running
  ∧ last (trace (handle_update (W_sample false) (text_from 1 1 "/restart") fresh))
    = Some (SendWithBudget 1 welcome false).
Proof. split_and!; vm_compute; reflexivity. Qed.

(** C7: on a registered installation, a message whose text starts with
    "/restart" announces the restart and calls [safe_restart] with reason
    "owner_restart" and policy "rescue_and_reset".  If that answers ok, the
    workers are killed and the supervisor is re-executed; if it answers not
    ok, the owner is told the restart was cancelled, with the message, and
    no worker is killed, nothing is re-executed, and the loop goes on. *)
Theorem restart_command (W : World) (upd : Update) (msg : Message) (text : string)
    (s : Sup) :
  message_of upd = Some msg →
  msg_text msg = Some text →
  is_None (load_state s !! "owner_id") = false →
  startswith text "/restart" = true →
  let s' := handle_update W upd s in
  let before :=
    trace s ++ [LogChat "in" 1 1 text;
                SaveState (<["last_owner_message_at" :=
                               PyStr (now_iso W (trace s))]> (load_state s));
                SendWithBudget 1 "♻️ Restarting (soft)." false] in
  if (safe_restart W before).1 then
    trace s' = before ++ [SafeRestart "owner_restart" "rescue_and_reset";
                          KillWorkers; OsExecv]
    ∧ proc s' = Replaced
  else
    trace s' = before ++ [SafeRestart "owner_restart" "rescue_and_reset";
                          SendWithBudget 1 ("⚠️ Restart cancelled: "
                                            +:+ (safe_restart W before).2) false]
    ∧ proc s' = proc s.
Proof.
  intros Hm Htext Hown Hrestart. cbn zeta.
  assert (text ≠ "") as Hne by (intros ->; discriminate).
  rewrite (handle_update_owner W _ _ _ Hm Hown), Htext. cbn zeta. cbn [default].
  rewrite bool_decide_eq_false_2 by done.
  rewrite route_text_restart
    by (apply (prefix_lower_strip "/restart"); [done|by apply (prefix_lower "/restart")]).
  cbn zeta. cbn [send_with_budget trace emit]. rewrite noted_trace.
  rewrite <- !app_assoc. cbn [app].
  destruct (safe_restart W _) as [[] m]; cbn - [noted];
    rewrite noted_trace, <- !app_assoc; done.
Qed.

Lemma restart_command_witness :
  proc (handle_update (W_sample true) (text_from 3 1 "/restart") (owned [])) = Replaced
  ∧ proc (handle_update (W_sample false) (text_from 3 1 "/restart now") (owned [])) = Running.
Proof.
  split.
  - refine (proj2
      (restart_command (W_sample true) (text_from 3 1 "/restart")
         {| msg_text := Some "/restart"; msg_chat_id := Some 1 |} "/restart" (owned [])
         eq_refl eq_refl _ _)); vm_compute; reflexivity.
  - refine (proj2
      (restart_command (W_sample false) (text_from 3 1 "/restart now")
         {| msg_text := Some "/restart now"; msg_chat_id := Some 1 |} "/restart now"
         (owned []) eq_refl eq_refl _ _)); vm_compute; reflexivity.
Defined.

(** C5, as stated, fails for the message that registers the owner: on a
    fresh install with an evolution task queued, "/evolve off" leaves the
    task in the pending list, saves no [evolution_mode_enabled] and persists
    no snapshot. *)
Lemma first_contact_evolve_off_keeps_queue :
  PENDING (store (handle_update (W_sample true) (text_from 1 1 "/evolve off")
                    (unowned [mk_task "e1" "evolution" 1 1; mk_task "c1" "chat" 2 2])))
  = [mk_task "e1" "evolution" 1 1; mk_task "c1" "chat" 2 2]
  ∧ state_doc (store (handle_update (W_sample true) (text_from 1 1 "/evolve off")
                        (unowned [mk_task "e1" "evolution" 1 1; mk_task "c1" "chat" 2 2])))
      !! "evolution_mode_enabled" = None
  ∧ existsb (λ e, match e with PersistQueueSnapshot _ _ => true | _ => false end)
      (trace (handle_update (W_sample true) (text_from 1 1 "/evolve off")
                (unowned [mk_task "e1" "evolution" 1 1; mk_task "c1" "chat" 2 2]))) = false.
Proof. split_and!; vm_compute; reflexivity. Qed.

(** C5: on a registered installation, the command "/evolve off" saves the
    state document with [evolution_mode_enabled] false; whatever the pending
    list was, afterwards it holds no task of type evolution and is a
    rearrangement, in [(priority, created_at)] order, of exactly the
    non-evolution tasks it held, each of them unchanged; and a queue snapshot
    of that list is persisted with reason "evolve_off". *)
Theorem evolve_off_purges (W : World) (upd : Update) (msg : Message) (s : Sup) :
  message_of upd = Some msg →
  msg_text msg = Some "/evolve off" →
  is_None (load_state s !! "owner_id") = false →
  let s' := handle_update W upd s in
  let kept := filter (λ t, py_str (task_type t) ≠ "evolution") (PENDING (store s)) in
  let st := <["last_owner_message_at" := PyStr (now_iso W (trace s))]> (load_state s) in
  state_doc (store s') = <["evolution_mode_enabled" := PyBool false]> st
  ∧ state_doc (store s') !! "evolution_mode_enabled" = Some (PyBool false)
  ∧ Forall (λ t, py_str (task_type t) ≠ "evolution") (PENDING (store s'))
  ∧ PENDING (store s') ≡ₚ kept
  ∧ (∀ t, t ∈ PENDING (store s) → py_str (task_type t) ≠ "evolution" →
          t ∈ PENDING (store s'))
  ∧ Sorted task_le (PENDING (store s'))
  ∧ trace s' = trace s ++ [LogChat "in" 1 1 "/evolve off";
                           SaveState st;
                           SaveState (<["evolution_mode_enabled" := PyBool false]> st);
                           SortPending;
                           PersistQueueSnapshot "evolve_off" (PENDING (store s'));
                           SendWithBudget 1 "🧬 Evolution: OFF" false].
Proof.
  intros Hm Htext Hown. cbn zeta.
  rewrite (handle_update_owner W _ _ _ Hm Hown), Htext. cbn zeta. cbn [default].
  rewrite bool_decide_eq_false_2 by done.
  rewrite route_text_evolve_off. cbn.
  set (kept := filter _ (PENDING (store s))).
  assert (sorted_tasks kept ≡ₚ kept) as Hperm by apply sorted_tasks_perm.
  split_and!.
  - done.
  - apply lookup_insert_eq.
  - rewrite Hperm. apply Forall_forall. by intros t [Ht _]%list_elem_of_filter.
  - done.
  - intros t Hin Hty. rewrite Hperm. by apply list_elem_of_filter.
  - apply sorted_tasks_sorted.
  - by rewrite <- !app_assoc.
Qed.

Lemma evolve_off_purges_witness :
  task_id <$> PENDING (store (handle_update (W_sample true) (text_from 9 1 "/evolve off")
                (owned [mk_task "e1" "evolution" 1 1; mk_task "c1" "chat" 2 2;
                        mk_task "e2" "evolution" 1 3; mk_task "r1" "review" 0 4;
                        mk_task "e3" "evolution" 1 5])))
  = ["r1"; "c1"]
  ∧ Forall (λ t, py_str (task_type t) ≠ "evolution")
      (PENDING (store (handle_update (W_sample true) (text_from 9 1 "/evolve off")
                (owned [mk_task "e1" "evolution" 1 1; mk_task "c1" "chat" 2 2;
                        mk_task "e2" "evolution" 1 3; mk_task "r1" "review" 0 4;
                        mk_task "e3" "evolution" 1 5])))).
Proof.
  split; [vm_compute; reflexivity|].
  refine (proj1 (proj2 (proj2
    (evolve_off_purges (W_sample true) (text_from 9 1 "/evolve off")
       {| msg_text := Some "/evolve off"; msg_chat_id := Some 1 |}
       (owned [mk_task "e1" "evolution" 1 1; mk_task "c1" "chat" 2 2;
               mk_task "e2" "evolution" 1 3; mk_task "r1" "review" 0 4;
               mk_task "e3" "evolution" 1 5])
       eq_refl eq_refl _)))).
  vm_compute. reflexivity.
Defined.

(** *** The iteration *)

(** C9: in every iteration the trace grows by, in this order: the log
    rotation and the worker health check; one dispatch per drained event, in
    queue order, until the queue is empty; the timeout enforcement; the
    evolution enqueue; the task assignment; the snapshot persist with reason
    "main_loop"; the read of the chat inbox; then what routing the inbox
    emits, which holds none of the phase effects; then the sleep, unless the
    process ended.  The router starts from the stores as the five phases
    left them, and the persisted snapshot is the pending list they left. *)
Theorem tick_phase_order (W : World) (events : list Event) (updates : list Update)
    (s : Sup) :
  ∃ routed tail,
    trace (tick W events updates s)
    = trace s ++ [RotateChatLog; EnsureWorkersHealthy]
      ++ (DispatchEvent <$> events)
      ++ [EnforceTaskTimeouts; EnqueueEvolutionTaskIfNeeded; AssignTasks;
          PersistQueueSnapshot "main_loop" (PENDING (phases_store W events (store s)));
          GetUpdates (offset s)]
      ++ routed ++ tail
    ∧ routed_only routed
    ∧ (tail = [Sleep] ∨ (tail = [] ∧ proc (tick W events updates s) ≠ Running))
    ∧ ∃ at_inbox,
        store at_inbox = phases_store W events (store s)
        ∧ trace at_inbox
          = trace s ++ [RotateChatLog; EnsureWorkersHealthy]
            ++ (DispatchEvent <$> events)
            ++ [EnforceTaskTimeouts; EnqueueEvolutionTaskIfNeeded; AssignTasks;
                PersistQueueSnapshot "main_loop"
                  (PENDING (phases_store W events (store s)));
                GetUpdates (offset s)]
        ∧ trace (route_updates W updates at_inbox) = trace at_inbox ++ routed.
Proof.
  set (at_inbox := emit (GetUpdates (offset (before_inbox W events s)))
                        (before_inbox W events s)).
  assert (trace at_inbox
          = trace s ++ [RotateChatLog; EnsureWorkersHealthy]
            ++ (DispatchEvent <$> events)
            ++ [EnforceTaskTimeouts; EnqueueEvolutionTaskIfNeeded; AssignTasks;
                PersistQueueSnapshot "main_loop"
                  (PENDING (phases_store W events (store s)));
                GetUpdates (offset s)]) as Hat.
  { unfold at_inbox. cbn [trace emit].
    rewrite before_inbox_trace, before_inbox_offset. by rewrite <- !app_assoc. }
  destruct (route_updates_routed W updates at_inbox) as (routed & Hrouted & Honly).
  exists routed.
  exists (match proc (route_updates W updates at_inbox) with Running => [Sleep] | _ => [] end).
  assert (trace (tick W events updates s)
          = trace at_inbox ++ routed
            ++ match proc (route_updates W updates at_inbox) with
               | Running => [Sleep] | _ => [] end) as Htick.
  { unfold tick. cbn zeta. fold at_inbox.
    destruct (proc (route_updates W updates at_inbox)); cbn [trace emit];
      rewrite Hrouted, <- ?app_assoc; by rewrite ?app_nil_r. }
  split_and!.
  - rewrite Htick, Hat. by rewrite <- !app_assoc.
  - done.
  - unfold tick. cbn zeta. fold at_inbox.
    destruct (proc (route_updates W updates at_inbox)) eqn:Hp; [by left|right..];
      by rewrite Hp.
  - exists at_inbox. split_and!; [|done|done].
    unfold at_inbox. cbn [store emit]. apply before_inbox_store.
Qed.

Example tick_ex :
  trace (tick (W_sample true)
           [{| ev_worker := 2; ev_type := "heartbeat"; ev_payload := "" |}]
           [text_from 4 1 "/review"] (owned []))
  = [RotateChatLog; EnsureWorkersHealthy;
     DispatchEvent {| ev_worker := 2; ev_type := "heartbeat"; ev_payload := "" |};
     EnforceTaskTimeouts; EnqueueEvolutionTaskIfNeeded; AssignTasks;
     PersistQueueSnapshot "main_loop" []; GetUpdates 0;
     LogChat "in" 1 1 "/review";
     SaveState (<["last_owner_message_at" := PyStr "2026-01-01T00:00:8+00:00"]>
                  (load_state (owned [])));
     QueueReviewTask "owner:/review" true;
     Sleep].
Proof. vm_compute. reflexivity. Qed.

End SupervisorFacts.

(* ===================================================================== *)
(** ** Further properties of the router *)
(* ===================================================================== *)

Module RouterFacts.
Import PyStr PyStrFacts Supervisor Samples App SupervisorFacts.

Lemma strip_empty_of_prefix p text :
  p ≠ "" → startswith (lower (strip text)) p = true → text ≠ "".
Proof. intros Hp Hpre ->. destruct p; [done|discriminate]. Qed.

(** Which branch a lowered text selects, once it starts with a command. *)
Lemma evolve_excludes lowered :
  startswith lowered "/evolve" = true →
  startswith lowered "/panic" = false
  ∧ startswith lowered "/restart" = false
  ∧ startswith lowered "/review" = false.
Proof.
  intros [r ->]%prefix_app. unfold startswith.
  by change (String.prefix "/panic" ("/evolve" +:+ r)) with false;
     change (String.prefix "/restart" ("/evolve" +:+ r)) with false;
     change (String.prefix "/review" ("/evolve" +:+ r)) with false.
Qed.

Lemma bg_excludes lowered :
  startswith lowered "/bg" = true →
  startswith lowered "/panic" = false
  ∧ startswith lowered "/restart" = false
  ∧ startswith lowered "/review" = false
  ∧ startswith lowered "/evolve" = false.
Proof.
  intros [r ->]%prefix_app. unfold startswith.
  by change (String.prefix "/panic" ("/bg" +:+ r)) with false;
     change (String.prefix "/restart" ("/bg" +:+ r)) with false;
     change (String.prefix "/review" ("/bg" +:+ r)) with false;
     change (String.prefix "/evolve" ("/bg" +:+ r)) with false.
Qed.

Lemma route_text_evolve W chat_id text s :
  startswith (lower (strip text)) "/evolve" = true →
  route_text W chat_id text s
  = let turn_on := bool_decide (argument "on" (lower (strip text)) ∉ OFF_WORDS) in
    let s1 := save_state (<["evolution_mode_enabled" := PyBool turn_on]> (load_state s)) s in
    let s2 :=
      if negb turn_on then
        persist_queue_snapshot "evolve_off"
          (sort_pending
             (on_store (λ S, set_PENDING
                          (filter (λ t, py_str (task_type t) ≠ "evolution") (PENDING S)) S)
                s1))
      else s1 in
    send_with_budget chat_id ("🧬 Evolution: " +:+ (if turn_on then "ON" else "OFF")) s2.
Proof.
  intros Hev. destruct (evolve_excludes _ Hev) as (Hp & Hr & Hv).
  unfold route_text. cbn zeta. by rewrite Hp, Hr, Hv, Hev.
Qed.

Lemma route_text_bg W chat_id text s :
  startswith (lower (strip text)) "/bg" = true →
  route_text W chat_id text s
  = let action := argument "status" (lower (strip text)) in
    if bool_decide (action ∈ ["start"; "on"; "1"]) then
      send_with_budget chat_id ("🧠 " +:+ consciousness_start W (trace s))
        (emit ConsciousnessStart s)
    else if bool_decide (action ∈ ["stop"; "off"; "0"]) then
      send_with_budget chat_id ("🧠 " +:+ consciousness_stop W (trace s))
        (emit ConsciousnessStop s)
    else
      send_with_budget chat_id
        ("🧠 Background consciousness: "
         +:+ (if consciousness_is_running W (trace s) then "running" else "stopped")) s.
Proof.
  intros Hbg. destruct (bg_excludes _ Hbg) as (Hp & Hr & Hv & He).
  unfold route_text. cbn zeta. by rewrite Hp, Hr, Hv, He, Hbg.
Qed.

(** A registered installation hands every non-empty text to the router. *)
Lemma handle_update_routes W upd msg text s :
  message_of upd = Some msg →
  msg_text msg = Some text →
  is_None (load_state s !! "owner_id") = false →
  text ≠ "" →
  handle_update W upd s = route_text W 1 text (noted W upd text s).
Proof.
  intros Hm Htext Hown Hne.
  rewrite (handle_update_owner W _ _ _ Hm Hown), Htext. cbn zeta.
  change (default "" (Some text)) with text.
  by rewrite bool_decide_eq_false_2.
Qed.

Lemma route_text_proc W chat_id text s :
  proc (route_text W chat_id text s)
  = if startswith (lower (strip text)) "/panic" then Exited 1
    else if startswith (lower (strip text)) "/restart" then
      if (safe_restart W (trace s ++ [SendWithBudget chat_id "♻️ Restarting (soft)." false])).1
      then Replaced else proc s
    else proc s.
Proof.
  unfold route_text. cbn zeta. generalize (lower (strip text)). intros lowered.
  destruct (startswith lowered "/panic"); [done|].
  destruct (startswith lowered "/restart").
  { cbn. by destruct (safe_restart W _) as [[] m]. }
  destruct (startswith lowered "/review"); [done|].
  destruct (startswith lowered "/evolve").
  { by destruct (bool_decide _). }
  destruct (startswith lowered "/bg").
  { by do 2 (destruct (bool_decide _); [done|]). }
  destruct (startswith lowered "/status"); [done|].
  by destruct (agent_busy W _).
Qed.

Lemma route_text_offset W chat_id text s :
  offset (route_text W chat_id text s) = offset s.
Proof.
  unfold route_text. cbn zeta. generalize (lower (strip text)). intros lowered.
  destruct (startswith lowered "/panic"); [done|].
  destruct (startswith lowered "/restart").
  { by destruct (safe_restart W _) as [[] m]. }
  destruct (startswith lowered "/review"); [done|].
  destruct (startswith lowered "/evolve").
  { by destruct (bool_decide _). }
  destruct (startswith lowered "/bg").
  { by do 2 (destruct (bool_decide _); [done|]). }
  destruct (startswith lowered "/status"); [done|].
  by destruct (agent_busy W _).
Qed.

Lemma handle_update_offset W upd s :
  offset (handle_update W upd s) = update_id upd + 1.
Proof.
  destruct (message_of upd) as [msg|] eqn:Hm.
  2: { by rewrite handle_update_no_message. }
  destruct (is_None (load_state s !! "owner_id")) eqn:Hown.
  { by rewrite (handle_update_first_contact W _ _ _ Hm Hown). }
  rewrite (handle_update_owner W _ _ _ Hm Hown). cbn zeta.
  destruct (bool_decide _); [done|]. by rewrite route_text_offset.
Qed.

(** The text matters to a command only through its normalised form. *)
Theorem route_text_normalised (W : World) (chat_id : Z) (t1 t2 : string) (s : Sup) :
  lower (strip t1) = lower (strip t2) →
  is_command (lower (strip t1)) = true →
  route_text W chat_id t1 s = route_text W chat_id t2 s.
Proof.
  intros Heq Hcmd. unfold route_text. cbn zeta. rewrite <- Heq.
  unfold is_command in Hcmd. cbn [existsb COMMAND_WORDS] in Hcmd.
  destruct (startswith (lower (strip t1)) "/panic"); [done|].
  destruct (startswith (lower (strip t1)) "/restart"); [done|].
  destruct (startswith (lower (strip t1)) "/review"); [done|].
  destruct (startswith (lower (strip t1)) "/evolve"); [done|].
  destruct (startswith (lower (strip t1)) "/bg"); [done|].
  destruct (startswith (lower (strip t1)) "/status"); [done|].
  discriminate.
Qed.

Lemma route_text_normalised_witness :
  route_text (W_sample true) 1 ("  /EVOLVE Off" +:+ nl) (owned [mk_task "e" "evolution" 1 1])
  = route_text (W_sample true) 1 "/evolve off" (owned [mk_task "e" "evolution" 1 1]).
Proof.
  apply route_text_normalised; vm_compute; reflexivity.
Defined.

(** [/evolve] in ASCII text: the flag follows the argument, and turning
    evolution on leaves the queue alone. *)
Theorem evolve_flag_follows_argument (W : World) (upd : Update) (msg : Message)
    (text : string) (s : Sup) :
  message_of upd = Some msg →
  msg_text msg = Some text →
  isascii text = true →
  is_None (load_state s !! "owner_id") = false →
  startswith (lower (strip text)) "/evolve" = true →
  let turn_on := bool_decide (argument "on" (lower (strip text)) ∉ OFF_WORDS) in
  let st := <["last_owner_message_at" := PyStr (now_iso W (trace s))]> (load_state s) in
  let s' := handle_update W upd s in
  state_doc (store s') = <["evolution_mode_enabled" := PyBool turn_on]> st
  ∧ last (trace s')
    = Some (SendWithBudget 1 ("🧬 Evolution: " +:+ (if turn_on then "ON" else "OFF")) false)
  ∧ (turn_on = true →
     PENDING (store s') = PENDING (store s)
     ∧ trace s' = trace s ++ [LogChat "in" 1 1 text;
                              SaveState st;
                              SaveState (<["evolution_mode_enabled" := PyBool true]> st);
                              SendWithBudget 1 "🧬 Evolution: ON" false]).
Proof.
  intros Hm Htext _ Hown Hev. cbn zeta.
  assert (text ≠ "") as Hne
    by (apply (strip_empty_of_prefix "/evolve"); [done|exact Hev]).
  rewrite (handle_update_owner W _ _ _ Hm Hown), Htext. cbn zeta.
  change (default "" (Some text)) with text.
  rewrite bool_decide_eq_false_2 by done.
  rewrite route_text_evolve by done.
  generalize (bool_decide (argument "on" (lower (strip text)) ∉ OFF_WORDS)).
  intros [|]; cbn - [noted].
  - split_and!; [done|by rewrite last_snoc|].
    intros _. split; [done|]. rewrite noted_trace. by rewrite <- !app_assoc.
  - split_and!; [done|by rewrite last_snoc|done].
Qed.

Lemma evolve_flag_follows_argument_witness :
  state_doc (store (handle_update (W_sample true) (text_from 5 1 "/evolveoff")
                      (owned [mk_task "e" "evolution" 1 1])))
    !! "evolution_mode_enabled" = Some (PyBool true)
  ∧ PENDING (store (handle_update (W_sample true) (text_from 5 1 "/evolveoff")
                      (owned [mk_task "e" "evolution" 1 1])))
    = [mk_task "e" "evolution" 1 1].
Proof.
  destruct (evolve_flag_follows_argument (W_sample true) (text_from 5 1 "/evolveoff")
              {| msg_text := Some "/evolveoff"; msg_chat_id := Some 1 |} "/evolveoff"
              (owned [mk_task "e" "evolution" 1 1]) eq_refl eq_refl eq_refl)
    as (Hdoc & _ & Hon).
  { vm_compute. reflexivity. }
  { vm_compute. reflexivity. }
  split.
  - rewrite Hdoc. vm_compute. reflexivity.
  - apply Hon. vm_compute. reflexivity.
Defined.

(** Handling a message of ASCII text ends the loop in two ways only. *)
Theorem stop_only_by_command (W : World) (upd : Update) (s : Sup) :
  isascii (default "" (message_of upd ≫= msg_text)) = true →
  proc s = Running →
  proc (handle_update W upd s) ≠ Running →
  ∃ msg text,
    message_of upd = Some msg
    ∧ msg_text msg = Some text
    ∧ is_None (load_state s !! "owner_id") = false
    ∧ ((startswith (lower (strip text)) "/panic" = true
        ∧ proc (handle_update W upd s) = Exited 1)
       ∨ (startswith (lower (strip text)) "/restart" = true
          ∧ (safe_restart W
               (trace s ++ [LogChat "in" 1 1 text;
                            SaveState (<["last_owner_message_at" :=
                                           PyStr (now_iso W (trace s))]> (load_state s));
                            SendWithBudget 1 "♻️ Restarting (soft)." false])).1 = true
          ∧ proc (handle_update W upd s) = Replaced)).
Proof.
  intros _ Hrun Hstop.
  destruct (message_of upd) as [msg|] eqn:Hm.
  2: { rewrite handle_update_no_message in Hstop by done. by cbn in Hstop. }
  destruct (is_None (load_state s !! "owner_id")) eqn:Hown.
  { rewrite (handle_update_first_contact W _ _ _ Hm Hown) in Hstop. by cbn in Hstop. }
  destruct (msg_text msg) as [text|] eqn:Htext.
  2: { rewrite (handle_update_owner W _ _ _ Hm Hown), Htext in Hstop. by cbn in Hstop. }
  destruct (decide (text = "")) as [->|Hne].
  { rewrite (handle_update_owner W _ _ _ Hm Hown), Htext in Hstop. by cbn in Hstop. }
  exists msg, text. split_and!; [done..|].
  rewrite (handle_update_routes W _ _ _ _ Hm Htext Hown Hne) in Hstop |- *.
  rewrite route_text_proc in Hstop |- *. rewrite noted_trace, <- app_assoc in Hstop |- *.
  destruct (startswith (lower (strip text)) "/panic"); [by left|].
  destruct (startswith (lower (strip text)) "/restart"); [|done].
  right. cbn [app] in Hstop |- *. by destruct (safe_restart W _) as [[] m].
Qed.

Lemma stop_only_by_command_witness :
  ∃ msg text,
    message_of (text_from 3 1 "/Restart") = Some msg
    ∧ msg_text msg = Some text
    ∧ startswith (lower (strip text)) "/restart" = true.
Proof.
  destruct (stop_only_by_command (W_sample true) (text_from 3 1 "/Restart") (owned []))
    as (msg & text & Hm & Htext & _ & [[Hp Hproc]|(Hr & _ & _)]).
  { reflexivity. }
  { reflexivity. }
  { vm_compute. discriminate. }
  - exfalso. vm_compute in Hproc. discriminate.
  - by exists msg, text.
Defined.

(** An ASCII text that is no command goes to the chat agent as it is. *)
Theorem plain_text_forwarded (W : World) (upd : Update) (msg : Message)
    (text : string) (s : Sup) :
  message_of upd = Some msg →
  msg_text msg = Some text →
  isascii text = true →
  is_None (load_state s !! "owner_id") = false →
  text ≠ "" →
  is_command (lower (strip text)) = false →
  let st := <["last_owner_message_at" := PyStr (now_iso W (trace s))]> (load_state s) in
  let noted_trace :=
    trace s ++ [LogChat "in" 1 1 text; SaveState st;
                InjectObservation ("Owner message: " +:+ take 100 text)] in
  let s' := handle_update W upd s in
  store s' = set_state_doc st (store s)
  ∧ proc s' = proc s
  ∧ trace s'
    = noted_trace ++ (if agent_busy W noted_trace then [AgentInjectMessage text]
                      else [ConsciousnessPause; StartChatThread 1 text]).
Proof.
  intros Hm Htext _ Hown Hne Hcmd. cbn zeta.
  rewrite (handle_update_routes W _ _ _ _ Hm Htext Hown Hne).
  unfold is_command in Hcmd. cbn [existsb COMMAND_WORDS] in Hcmd.
  unfold route_text. cbn zeta.
  destruct (startswith (lower (strip text)) "/panic"); [done|].
  destruct (startswith (lower (strip text)) "/restart"); [done|].
  destruct (startswith (lower (strip text)) "/review"); [done|].
  destruct (startswith (lower (strip text)) "/evolve"); [done|].
  destruct (startswith (lower (strip text)) "/bg"); [done|].
  destruct (startswith (lower (strip text)) "/status"); [done|].
  cbn [trace emit]. rewrite noted_trace, <- !app_assoc. cbn [app].
  destruct (agent_busy W _); cbn - [noted]; rewrite noted_trace, <- !app_assoc; done.
Qed.

Lemma plain_text_forwarded_witness :
  last (trace (handle_update (W_sample true) (text_from 6 1 "   ") (owned [])))
  = Some (StartChatThread 1 "   ").
Proof.
  destruct (plain_text_forwarded (W_sample true) (text_from 6 1 "   ")
              {| msg_text := Some "   "; msg_chat_id := Some 1 |} "   " (owned [])
              eq_refl eq_refl eq_refl) as (_ & _ & Htrace).
  { vm_compute. reflexivity. }
  { done. }
  { vm_compute. reflexivity. }
  rewrite Htrace. vm_compute. reflexivity.
Defined.

(** The offset is the last update's id plus one. *)
Theorem offset_follows_last_update (W : World) (updates : list Update) (last_upd : Update)
    (s : Sup) :
  last updates = Some last_upd →
  proc (route_updates W updates s) = Running →
  offset (route_updates W updates s) = update_id last_upd + 1.
Proof.
  revert s. induction updates as [|upd rest IH]; intros s Hlast Hrun; [done|].
  cbn [route_updates] in Hrun |- *.
  destruct rest as [|upd' rest].
  - injection Hlast as <-. cbn.
    destruct (proc (handle_update W upd s)); apply handle_update_offset.
  - destruct (proc (handle_update W upd s)) eqn:Hp.
    + apply IH; [done|]. exact Hrun.
    + by rewrite Hp in Hrun.
    + by rewrite Hp in Hrun.
Qed.

Lemma offset_follows_last_update_witness :
  offset (route_updates (W_sample true)
            [text_from 9 1 "hello"; {| update_id := 4; message := None |}] (owned []))
  = 5.
Proof.
  apply (offset_follows_last_update (W_sample true)
           [text_from 9 1 "hello"; {| update_id := 4; message := None |}]
           {| update_id := 4; message := None |} (owned [])).
  - reflexivity.
  - vm_compute. reflexivity.
Defined.

(** *** The owner, once recorded *)

Section OwnerKept.
Variable W : World.
Hypothesis review_keeps_state :
  ∀ reason force S, state_doc (queue_review_task W reason force S) = state_doc S.

Lemma route_text_other_keys chat_id text s key :
  key ≠ "evolution_mode_enabled" →
  state_doc (store (route_text W chat_id text s)) !! key = state_doc (store s) !! key.
Proof.
  intros Hkey. unfold route_text. cbn zeta. generalize (lower (strip text)). intros lowered.
  destruct (startswith lowered "/panic"); [done|].
  destruct (startswith lowered "/restart").
  { by destruct (safe_restart W _) as [[] m]. }
  destruct (startswith lowered "/review").
  { cbn. by rewrite review_keeps_state. }
  destruct (startswith lowered "/evolve").
  { destruct (bool_decide _); cbn; by rewrite lookup_insert_ne. }
  destruct (startswith lowered "/bg").
  { by do 2 (destruct (bool_decide _); [done|]). }
  destruct (startswith lowered "/status"); [done|].
  by destruct (agent_busy W _).
Qed.

Lemma handle_update_owner_keys upd s key :
  key = "owner_id" ∨ key = "owner_chat_id" →
  is_None (load_state s !! "owner_id") = false →
  state_doc (store (handle_update W upd s)) !! key = state_doc (store s) !! key.
Proof.
  intros Hkey Hown.
  destruct (message_of upd) as [msg|] eqn:Hm.
  2: { by rewrite handle_update_no_message. }
  rewrite (handle_update_owner W _ _ _ Hm Hown). cbn zeta.
  assert (state_doc (store (noted W upd (default "" (msg_text msg)) s)) !! key
          = state_doc (store s) !! key) as Hnoted.
  { cbn. apply lookup_insert_ne. by destruct Hkey as [-> | ->]. }
  destruct (bool_decide _); [done|].
  rewrite route_text_other_keys; [done|]. by destruct Hkey as [-> | ->].
Qed.

End OwnerKept.

(** Once an owner is recorded, no inbox changes who it is. *)
Theorem owner_kept (W : World) (updates : list Update) (s : Sup) :
  (∀ reason force S, state_doc (queue_review_task W reason force S) = state_doc S) →
  is_None (load_state s !! "owner_id") = false →
  state_doc (store (route_updates W updates s)) !! "owner_id"
  = state_doc (store s) !! "owner_id"
  ∧ state_doc (store (route_updates W updates s)) !! "owner_chat_id"
    = state_doc (store s) !! "owner_chat_id".
Proof.
  intros Hreview. revert s. induction updates as [|upd rest IH]; intros s Hown; [done|].
  assert (state_doc (store (handle_update W upd s)) !! "owner_id"
          = state_doc (store s) !! "owner_id") as Hid
    by (apply handle_update_owner_keys; auto).
  assert (state_doc (store (handle_update W upd s)) !! "owner_chat_id"
          = state_doc (store s) !! "owner_chat_id") as Hchat
    by (apply handle_update_owner_keys; auto).
  cbn [route_updates].
  destruct (proc (handle_update W upd s)); [|done..].
  destruct (IH (handle_update W upd s)) as [-> ->]; [|done].
  unfold load_state. by rewrite Hid.
Qed.

Lemma owner_kept_witness :
  state_doc (store (route_updates (W_sample true)
                      [text_from 2 200 "hello"; text_from 3 300 "/evolve off";
                       text_from 4 400 "/review"] after_hi))
    !! "owner_chat_id" = Some (PyInt 1).
Proof.
  destruct (owner_kept (W_sample true)
              [text_from 2 200 "hello"; text_from 3 300 "/evolve off";
               text_from 4 400 "/review"] after_hi) as [_ ->].
  - reflexivity.
  - vm_compute. reflexivity.
  - vm_compute. reflexivity.
Defined.

(** *** The dashboard switches *)

(** Project fields out of a composed supervisor state without computing
    on the state document. *)
Ltac fields :=
  cbv zeta;
  cbn [negb store state_doc PENDING trace proc offset send_with_budget emit save_state
       on_store set_state_doc set_PENDING persist_queue_snapshot sort_pending].

(** What the evolution switch sends sets the flag to the switch's value. *)
Theorem dashboard_evolution_switch (W : World) (value : bool) (upd : Update)
    (msg : Message) (text : string) (s : Sup) :
  on_evo_change true value = Some text →
  message_of upd = Some msg →
  msg_text msg = Some text →
  is_None (load_state s !! "owner_id") = false →
  let s' := handle_update W upd s in
  state_doc (store s') !! "evolution_mode_enabled" = Some (PyBool value)
  ∧ (if value then PENDING (store s') = PENDING (store s)
     else Forall (λ t, py_str (task_type t) ≠ "evolution") (PENDING (store s'))
          ∧ ∃ rest, trace s' = rest ++ [PersistQueueSnapshot "evolve_off" (PENDING (store s'));
                                       SendWithBudget 1 "🧬 Evolution: OFF" false]).
Proof.
  intros [= <-] Hm Htext Hown. cbn zeta.
  destruct value; cbv iota in Hm, Htext |- *.
  - rewrite (handle_update_routes W _ _ _ _ Hm Htext Hown) by discriminate.
    rewrite route_text_evolve by (vm_compute; reflexivity).
    change (argument "on" (lower (strip ("/evolve " +:+ "start")))) with "start".
    rewrite bool_decide_eq_true_2 by (apply (bool_decide_unpack _); vm_compute; exact I).
    fields. split; [apply lookup_insert_eq|done].
  - rewrite (handle_update_routes W _ _ _ _ Hm Htext Hown) by discriminate.
    rewrite route_text_evolve by (vm_compute; reflexivity).
    change (argument "on" (lower (strip ("/evolve " +:+ "stop")))) with "stop".
    rewrite bool_decide_eq_false_2
      by (intros Hin; apply Hin; apply (bool_decide_unpack _); vm_compute; exact I).
    fields. split_and!; [apply lookup_insert_eq| |].
    + rewrite sorted_tasks_perm. apply Forall_forall.
      by intros t [Ht _]%list_elem_of_filter.
    + exists (trace (noted W upd ("/evolve " +:+ "stop") s)
              ++ [SaveState (<["evolution_mode_enabled" := PyBool false]>
                               (load_state (noted W upd ("/evolve " +:+ "stop") s)));
                  SortPending]).
      by rewrite <- !app_assoc.
Qed.

Lemma dashboard_evolution_switch_witness :
  state_doc (store (handle_update (W_sample true) (text_from 8 1 "/evolve stop")
                      (owned [mk_task "e" "evolution" 1 1; mk_task "c" "chat" 2 2])))
    !! "evolution_mode_enabled" = Some (PyBool false).
Proof.
  refine (proj1
    (dashboard_evolution_switch (W_sample true) false (text_from 8 1 "/evolve stop")
       {| msg_text := Some "/evolve stop"; msg_chat_id := Some 1 |} "/evolve stop"
       (owned [mk_task "e" "evolution" 1 1; mk_task "c" "chat" 2 2])
       eq_refl eq_refl eq_refl _)).
  vm_compute. reflexivity.
Defined.

(** What the consciousness switch sends starts or stops the consciousness. *)
Theorem dashboard_bg_switch (W : World) (value : bool) (upd : Update)
    (msg : Message) (text : string) (s : Sup) :
  on_bg_change true value = Some text →
  message_of upd = Some msg →
  msg_text msg = Some text →
  is_None (load_state s !! "owner_id") = false →
  let st := <["last_owner_message_at" := PyStr (now_iso W (trace s))]> (load_state s) in
  let before := trace s ++ [LogChat "in" 1 1 text; SaveState st] in
  let s' := handle_update W upd s in
  store s' = set_state_doc st (store s)
  ∧ proc s' = proc s
  ∧ trace s'
    = before
      ++ (if value
          then [ConsciousnessStart;
                SendWithBudget 1 ("🧠 " +:+ consciousness_start W before) false]
          else [ConsciousnessStop;
                SendWithBudget 1 ("🧠 " +:+ consciousness_stop W before) false]).
Proof.
  intros [= <-] Hm Htext Hown. cbn zeta.
  destruct value; cbv iota in Hm, Htext |- *.
  - rewrite (handle_update_routes W _ _ _ _ Hm Htext Hown) by discriminate.
    rewrite route_text_bg by (vm_compute; reflexivity). cbv zeta.
    change (argument "status" (lower (strip ("/bg " +:+ "start")))) with "start".
    rewrite bool_decide_eq_true_2 by (apply (bool_decide_unpack _); vm_compute; exact I).
    cbn - [noted]. rewrite noted_trace. by rewrite <- !app_assoc.
  - rewrite (handle_update_routes W _ _ _ _ Hm Htext Hown) by discriminate.
    rewrite route_text_bg by (vm_compute; reflexivity). cbv zeta.
    change (argument "status" (lower (strip ("/bg " +:+ "stop")))) with "stop".
    rewrite bool_decide_eq_false_2
      by (apply (bool_decide_unpack _); vm_compute; exact I).
    rewrite bool_decide_eq_true_2 by (apply (bool_decide_unpack _); vm_compute; exact I).
    cbn - [noted]. rewrite noted_trace. by rewrite <- !app_assoc.
Qed.

Lemma dashboard_bg_switch_witness :
  last (trace (handle_update (W_sample true) (text_from 8 1 "/bg start") (owned [])))
  = Some (SendWithBudget 1 "🧠 started" false).
Proof.
  destruct (dashboard_bg_switch (W_sample true) true (text_from 8 1 "/bg start")
              {| msg_text := Some "/bg start"; msg_chat_id := Some 1 |} "/bg start"
              (owned []) eq_refl eq_refl eq_refl) as (_ & _ & Htrace).
  { vm_compute. reflexivity. }
  rewrite Htrace. vm_compute. reflexivity.
Defined.

End RouterFacts.

(* ===================================================================== *)
(** ** Around the loop: uptime, settings, models *)
(* ===================================================================== *)

Module AppFacts.
Import PyStr Safety App MoreSamples.

(** The three fields of the uptime line recombine to the elapsed seconds,
    with minutes and seconds below sixty. *)
Theorem uptime_fields_recombine (elapsed : Z) :
  let '(h, m, s) := uptime_fields elapsed in
  h * 3600 + m * 60 + s = elapsed
  ∧ 0 ≤ m < 60
  ∧ 0 ≤ s < 60
  ∧ (0 ≤ h ↔ 0 ≤ elapsed).
Proof.
  unfold uptime_fields. cbv zeta.
  pose proof (Z.div_mod elapsed 3600 ltac:(lia)) as H1.
  pose proof (Z.mod_pos_bound elapsed 3600 ltac:(lia)) as H2.
  pose proof (Z.div_mod (elapsed `mod` 3600) 60 ltac:(lia)) as H3.
  pose proof (Z.mod_pos_bound (elapsed `mod` 3600) 60 ltac:(lia)) as H4.
  assert (0 ≤ (elapsed `mod` 3600) `div` 60 < 60) as H5.
  { split; [apply Z.div_pos; lia|apply Z.div_lt_upper_bound; lia]. }
  split_and!; lia.
Qed.

Lemma uptime_seconds elapsed : (elapsed `mod` 3600) `mod` 60 = elapsed `mod` 60.
Proof.
  symmetry. rewrite (Z.div_mod elapsed 3600) at 1 by lia.
  replace (3600 * (elapsed `div` 3600) + elapsed `mod` 3600)
    with (elapsed `mod` 3600 + (60 * (elapsed `div` 3600)) * 60) by lia.
  apply Z.mod_add. lia.
Qed.

(** The uptime line starts at the largest unit that is not zero. *)
Theorem uptime_text_shape (elapsed : Z) :
  0 ≤ elapsed →
  uptime_text elapsed
  = if bool_decide (elapsed < 60) then pretty elapsed +:+ "s"
    else if bool_decide (elapsed < 3600) then
      pretty (elapsed `div` 60) +:+ "m " +:+ pretty (elapsed `mod` 60) +:+ "s"
    else
      pretty (elapsed `div` 3600) +:+ "h "
      +:+ pretty ((elapsed `mod` 3600) `div` 60) +:+ "m "
      +:+ pretty (elapsed `mod` 60) +:+ "s".
Proof.
  intros Hpos. unfold uptime_text, uptime_fields. cbv zeta.
  rewrite uptime_seconds.
  destruct (decide (elapsed < 60)) as [Hs|Hs].
  { rewrite (Z.div_small elapsed 3600), (Z.mod_small elapsed 3600),
      (Z.div_small elapsed 60), (Z.mod_small elapsed 60) by lia.
    rewrite (bool_decide_eq_true_2 (elapsed < 60)) by done.
    by rewrite !bool_decide_eq_false_2 by lia. }
  rewrite (bool_decide_eq_false_2 (elapsed < 60)) by done.
  destruct (decide (elapsed < 3600)) as [Hm|Hm].
  { rewrite (Z.div_small elapsed 3600), (Z.mod_small elapsed 3600) by lia.
    rewrite (bool_decide_eq_true_2 (elapsed < 3600)) by done.
    rewrite (bool_decide_eq_false_2 (0 ≠ 0)) by lia.
    rewrite bool_decide_eq_true_2; [done|].
    intros Hz. apply Z.div_small_iff in Hz; lia. }
  rewrite (bool_decide_eq_false_2 (elapsed < 3600)) by done.
  rewrite bool_decide_eq_true_2; [done|].
  intros Hz. apply Z.div_small_iff in Hz; lia.
Qed.

Lemma uptime_text_shape_witness :
  uptime_text 3725 = "1h 2m 5s" ∧ uptime_text 125 = "2m 5s" ∧ uptime_text 59 = "59s".
Proof.
  split_and!.
  - rewrite (uptime_text_shape 3725) by lia. vm_compute. reflexivity.
  - rewrite (uptime_text_shape 125) by lia. vm_compute. reflexivity.
  - rewrite (uptime_text_shape 59) by lia. vm_compute. reflexivity.
Defined.

(** *** Settings *)

(** With no usable settings file the defaults are loaded, and with them the
    supervisor is not started. *)
Theorem first_run_no_supervisor (E : Env) (float_truthy : string → bool)
    (f : settings_file) :
  (∀ text, f = FileText text → ∃ e, json_loads E text = Raises e) →
  load_settings E f = JObj DEFAULT_SETTINGS
  ∧ starts_supervisor E float_truthy f = Returns false.
Proof.
  intros Hbad.
  assert (load_settings E f = JObj DEFAULT_SETTINGS) as Hload.
  { destruct f as [|e|text]; [done..|].
    destruct (Hbad text eq_refl) as [e He]. unfold load_settings. by rewrite He. }
  split; [done|]. unfold starts_supervisor. rewrite Hload. reflexivity.
Qed.

Lemma first_run_no_supervisor_witness :
  starts_supervisor E_down (λ _, true) (FileText "{not json") = Returns false.
Proof.
  apply (first_run_no_supervisor E_down (λ _, true) (FileText "{not json")).
  intros text [= <-]. eexists. vm_compute. reflexivity.
Defined.

(** A settings file that decodes to something other than an object is
    handed on as it is, and the entry code's [settings.get] raises. *)
Theorem settings_not_object_raises (E : Env) (float_truthy : string → bool)
    (text : string) (v : json) :
  json_loads E text = Returns v →
  (∀ m, v ≠ JObj m) →
  load_settings E (FileText text) = v
  ∧ starts_supervisor E float_truthy (FileText text)
    = Raises (Exn AttributeError ("'" +:+ type_name v +:+ "' object has no attribute 'get'")).
Proof.
  intros Hv Hobj. unfold starts_supervisor, load_settings. rewrite Hv.
  split; [done|]. destruct v; try reflexivity. by destruct (Hobj m).
Qed.

Lemma settings_not_object_raises_witness :
  starts_supervisor (E_array) (λ _, true) (FileText "[]")
  = Raises (Exn AttributeError "'list' object has no attribute 'get'").
Proof.
  apply (settings_not_object_raises E_array (λ _, true) "[]" (JArr [])).
  - reflexivity.
  - discriminate.
Defined.

(** The models of the safety gate are the ones of the settings. *)
Theorem models_from_settings (E : Env) (settings : gmap string json) :
  light_model (after_setup E settings)
  = setting E settings "OUROBOROS_MODEL_LIGHT" (JStr "google/gemini-3-pro-preview")
  ∧ heavy_model (after_setup E settings)
    = setting E settings "OUROBOROS_MODEL_CODE" (JStr "anthropic/claude-sonnet-4.6").
Proof.
  assert (set_environment E settings !! "OUROBOROS_MODEL_LIGHT"
          = Some (setting E settings "OUROBOROS_MODEL_LIGHT"
                    (JStr "google/gemini-3-pro-preview"))) as Hlight.
  { unfold set_environment. cbv zeta.
    rewrite lookup_insert_ne by done. apply lookup_insert_eq. }
  assert (set_environment E settings !! "OUROBOROS_MODEL_CODE"
          = Some (setting E settings "OUROBOROS_MODEL_CODE"
                    (JStr "anthropic/claude-sonnet-4.6"))) as Hcode.
  { unfold set_environment. cbv zeta.
    do 2 rewrite lookup_insert_ne by done. apply lookup_insert_eq. }
  unfold light_model, heavy_model, after_setup. cbn [environ].
  by rewrite Hlight, Hcode.
Qed.

End AppFacts.

(* ===================================================================== *)
(** ** Further properties of the safety gate *)
(* ===================================================================== *)

Module SafetyMoreFacts.
Import PyStr Safety Samples MoreSamples SafetyCost SafetyFacts.

Lemma effects_of_count E model messages :
  llm_calls (effects_of E model messages) = 1%nat
  ∧ (budget_updates (effects_of E model messages) ≤ 1)%nat.
Proof.
  unfold effects_of, llm_calls, budget_updates.
  destruct (client_chat E model messages) as [[content [|p u]]|e]; cbn; lia.
Qed.

Lemma llm_calls_app t1 t2 : llm_calls (t1 ++ t2) = (llm_calls t1 + llm_calls t2)%nat.
Proof. unfold llm_calls. by rewrite List.filter_app, length_app. Qed.

Lemma budget_updates_app t1 t2 :
  budget_updates (t1 ++ t2) = (budget_updates t1 + budget_updates t2)%nat.
Proof. unfold budget_updates. by rewrite List.filter_app, length_app. Qed.

(** One decision costs at most two LLM calls, and no budget update is made
    without a call; an ungated tool costs nothing. *)
Theorem check_safety_cost (E : Env) (tool : string) (args : list (string * pyarg)) :
  (llm_calls (check_safety E tool args).2 ≤ 2)%nat
  ∧ (budget_updates (check_safety E tool args).2 ≤ llm_calls (check_safety E tool args).2)%nat
  ∧ (tool ∉ MUTATING → (check_safety E tool args).2 = []).
Proof.
  destruct (decide (tool ∈ MUTATING)) as [Hmut|Hnot].
  2: { rewrite check_safety_not_mutating by done. cbn. split_and!; [lia|lia|done]. }
  destruct (encodable args) as [kvs|e] eqn:Henc.
  2: { rewrite (check_safety_not_encodable E _ _ _ Hmut Henc). cbn.
       split_and!; [lia|lia|done]. }
  rewrite (check_safety_run E _ _ _ Hmut Henc).
  set (fm := fast_messages E _). set (dm := deep_messages E _).
  destruct (effects_of_count E (light_model E) fm) as [Hl Hlb].
  destruct (effects_of_count E (heavy_model E) dm) as [Hh Hhb].
  destruct (verdict_of E (light_model E) fm); cbn [snd];
    rewrite ?llm_calls_app, ?budget_updates_app; split_and!; (lia || done).
Qed.

(** While the LLM provider is down, every gated call is denied, after both
    calls were tried. *)
Theorem outage_denies_gated (E : Env) (tool : string) (args : list (string * pyarg))
    (kvs : list (string * json)) :
  tool ∈ MUTATING →
  encodable args = Returns kvs →
  (∀ model messages, ∃ e, client_chat E model messages = Raises e) →
  let prompt := check_prompt_text tool (json_dumps_text E kvs) in
  ∃ e,
    client_chat E (heavy_model E) (deep_messages E prompt) = Raises e
    ∧ check_safety E tool args
      = (Returns (false, "⚠️ SAFETY_VIOLATION: Safety check failed with error: " +:+ exn_str e),
         [LLMChat (light_model E) (fast_messages E prompt);
          LLMChat (heavy_model E) (deep_messages E prompt)]).
Proof.
  intros Hmut Henc Hdown. cbn zeta.
  rewrite (check_safety_run E _ _ _ Hmut Henc).
  set (prompt := check_prompt_text tool (json_dumps_text E kvs)).
  destruct (Hdown (light_model E) (fast_messages E prompt)) as [e1 H1].
  destruct (Hdown (heavy_model E) (deep_messages E prompt)) as [e2 H2].
  exists e2. split; [done|].
  unfold verdict_of, effects_of. by rewrite H1, H2.
Qed.

Lemma outage_denies_gated_witness :
  (check_safety E_down "run_shell" shell_args).1
  = Returns (false, "⚠️ SAFETY_VIOLATION: Safety check failed with error: connection refused").
Proof.
  destruct (outage_denies_gated E_down "run_shell" shell_args [("cmd", JStr "rm -rf /")])
    as (e & He & ->).
  - apply (bool_decide_unpack _). vm_compute. exact I.
  - reflexivity.
  - intros model messages. eexists. reflexivity.
  - injection He as <-. reflexivity.
Defined.

End SafetyMoreFacts.

(* ===================================================================== *)
(** ** The Telegram bridge *)
(* ===================================================================== *)

Module PyStrMoreFacts.
Import PyStr PyStrFacts.

Lemma lstrip_head s :
  lstrip s = "" ∨ ∃ c r, lstrip s = String c r ∧ isspace c = false.
Proof.
  induction s as [|c s IH]; [by left|]. cbn.
  destruct (isspace c) eqn:Hc; [done|]. right. by exists c, s.
Qed.

Lemma strip_head s :
  strip s = "" ∨ ∃ c r, strip s = String c r ∧ isspace c = false.
Proof.
  unfold strip. destruct (lstrip_head s) as [-> | (c & r & -> & Hc)]; [by left|].
  right. rewrite rstrip_cons_nospace by done. by exists c, (rstrip r).
Qed.

Lemma rstrip_idem s : rstrip (rstrip s) = rstrip s.
Proof.
  induction s as [|c s IH]; [done|]. cbn.
  destruct (rstrip s) as [|c' r] eqn:Hr.
  - destruct (isspace c) eqn:Hc; [done|]. cbn. by rewrite Hc.
  - cbn [rstrip]. cbn [rstrip] in IH. by rewrite IH.
Qed.

(** Characters, not bytes: six Cyrillic letters are twelve bytes. *)
Example take_ex :
  take 3 "Ошибка bridge" = "Оши" ∧ len "Ошибка" = 6%nat ∧ String.length "Ошибка" = 12%nat.
Proof. split_and!; reflexivity. Qed.

(** A slice has no more characters than it was asked for. *)
Lemma len_take n s : (len (take n s) ≤ n)%nat.
Proof.
  revert n. induction s as [|c s IH]; intros n; cbn [take]; [cbn; lia|].
  destruct (is_continuation c) eqn:Hc.
  - cbn [len]. rewrite Hc. specialize (IH n). lia.
  - destruct n as [|k]; [cbn; lia|]. cbn [len]. rewrite Hc. specialize (IH k). lia.
Qed.

(** [strip] is idempotent. *)
Lemma strip_idem s : strip (strip s) = strip s.
Proof.
  destruct (strip_head s) as [Hs | (c & r & Hs & Hc)].
  - by rewrite Hs.
  - unfold strip at 1. rewrite Hs. cbn [lstrip]. rewrite Hc, <- Hs.
    unfold strip. apply rstrip_idem.
Qed.

End PyStrMoreFacts.

Module BridgeFacts.
Import PyStr PyStrMoreFacts Bridge MoreSamples.

Lemma ask_trace W text st :
  ∃ waited, trace (ask W text st).2 = trace st ++ PostCommand text :: waited
            ∧ (waited = [] ∨ waited = [WaitReply])
            ∧ offset (ask W text st).2 = offset st.
Proof.
  unfold ask. cbn zeta.
  destruct (post_command W _); cbn.
  { exists []. auto. }
  destruct (wait_reply W _); cbn; exists [WaitReply]; rewrite <- app_assoc; auto.
Qed.

Lemma handle_skipped W upd st :
  accepted W upd = false →
  handle W upd st
  = ({| offset := Z.max (offset st) (default 0 (tg_update_id upd) + 1);
        trace := trace st |}, None).
Proof.
  unfold accepted, handle. cbn zeta.
  destruct (bool_decide (text_of upd = "")); [done|].
  by destruct (bool_decide (ALLOWED_CHAT W ≠ "") && bool_decide (_ ≠ _)).
Qed.

Lemma handle_accepted W upd st :
  accepted W upd = true →
  ∃ waited answer,
    (waited = [] ∨ waited = [WaitReply])
    ∧ offset (handle W upd st).1 = Z.max (offset st) (default 0 (tg_update_id upd) + 1)
    ∧ trace (handle W upd st).1
      = trace st ++ PostCommand (text_of upd) :: waited
        ++ [SendMessage (chat_id_of upd) (take REPLY_MAX answer)].
Proof.
  unfold accepted, handle. cbn zeta.
  destruct (bool_decide (text_of upd = "")); [done|].
  destruct (bool_decide (ALLOWED_CHAT W ≠ "") && bool_decide (_ ≠ _)); [done|].
  intros _.
  set (st0 := {| offset := Z.max (offset st) (default 0 (tg_update_id upd) + 1);
                 trace := trace st |}).
  destruct (ask_trace W (text_of upd) st0) as (waited & Htrace & Hw & Hoff).
  destruct (ask W (text_of upd) st0) as [answer st1]. cbn in *.
  exists waited, answer. split_and!; [done|done|].
  rewrite Htrace, <- app_assoc. done.
Qed.

Lemma handle_offset W upd st :
  offset (handle W upd st).1 = Z.max (offset st) (default 0 (tg_update_id upd) + 1).
Proof.
  destruct (accepted W upd) eqn:Hacc.
  - by destruct (handle_accepted W upd st Hacc) as (? & ? & _ & -> & _).
  - by rewrite handle_skipped.
Qed.

(** The offset never goes back, and once a batch is through it lies beyond
    every update id of the batch. *)
Theorem bridge_offset_covers (W : World) (updates : list TgUpdate) (st : St) :
  offset st ≤ offset (handle_all W updates st).1
  ∧ ((handle_all W updates st).2 = None →
     Forall (λ upd, default 0 (tg_update_id upd) < offset (handle_all W updates st).1)
            updates).
Proof.
  revert st. induction updates as [|upd rest IH]; intros st; cbn.
  { split; [lia|constructor]. }
  pose proof (handle_offset W upd st) as Hoff.
  destruct (handle W upd st) as [st' [e|]] eqn:Hh; cbn in *.
  { split; [lia|done]. }
  destruct (IH st') as [Hle Hall]. split; [lia|].
  intros Hdone. constructor; [lia|by apply Hall].
Qed.

(** Through a whole batch of ASCII texts, exactly the accepted updates are
    posted, in order and stripped, and each is answered once, to its own
    chat. *)
Theorem bridge_posts_accepted (W : World) (updates : list TgUpdate) (st : St) :
  Forall (λ upd, isascii (default "" (tg_text upd)) = true) updates →
  (handle_all W updates st).2 = None →
  posted (trace (handle_all W updates st).1)
  = posted (trace st) ++ (text_of <$> List.filter (accepted W) updates)
  ∧ replied_to (trace (handle_all W updates st).1)
    = replied_to (trace st) ++ (chat_id_of <$> List.filter (accepted W) updates).
Proof.
  intros _.
  revert st. induction updates as [|upd rest IH]; intros st; cbn [handle_all List.filter].
  { intros _. cbn. by rewrite !app_nil_r. }
  destruct (accepted W upd) eqn:Hacc.
  - destruct (handle_accepted W upd st Hacc) as (waited & answer & Hw & _ & Htrace).
    destruct (handle W upd st) as [st' [e|]] eqn:Hh; [done|]. cbn [fst] in Htrace.
    intros Hdone. destruct (IH st' Hdone) as [-> ->].
    rewrite Htrace. unfold posted, replied_to.
    rewrite !omap_app. cbn [fmap list_fmap].
    destruct Hw as [-> | ->]; cbn; by rewrite <- !app_assoc.
  - rewrite handle_skipped by done. intros Hdone.
    by destruct (IH _ Hdone) as [-> ->].
Qed.

Lemma bridge_posts_accepted_witness :
  posted (trace (handle_all W_bridge
                   [tg 7 42 " /status "; tg 8 13 "/panic"; tg 9 42 "   "] bridge_start).1)
  = ["/status"].
Proof.
  refine (proj1 (bridge_posts_accepted W_bridge
                   [tg 7 42 " /status "; tg 8 13 "/panic"; tg 9 42 "   "] bridge_start _ _)).
  - repeat constructor.
  - vm_compute. reflexivity.
Defined.

(** No reply has more than [REPLY_MAX], that is 4000, characters, however
    many bytes they take. *)
Theorem bridge_replies_bounded (W : World) (updates : list TgUpdate) (st : St) :
  Forall (λ r, (len r ≤ REPLY_MAX)%nat) (replies (trace st)) →
  Forall (λ r, (len r ≤ REPLY_MAX)%nat) (replies (trace (handle_all W updates st).1)).
Proof.
  revert st. induction updates as [|upd rest IH]; intros st Hst; cbn [handle_all]; [done|].
  assert (Forall (λ r, (len r ≤ REPLY_MAX)%nat) (replies (trace (handle W upd st).1)))
    as Hstep.
  { destruct (accepted W upd) eqn:Hacc.
    - destruct (handle_accepted W upd st Hacc) as (waited & answer & Hw & _ & ->).
      unfold replies. rewrite omap_app. apply Forall_app. split; [exact Hst|].
      destruct Hw as [-> | ->]; cbn [omap list_omap app];
        (apply Forall_cons_2; [apply len_take|apply Forall_nil_2]).
    - by rewrite handle_skipped. }
  destruct (handle W upd st) as [st' [e|]]; [done|]. by apply IH.
Qed.

Lemma bridge_replies_bounded_witness :
  Forall (λ r, (len r ≤ REPLY_MAX)%nat)
    (replies (trace (handle_all W_bridge [tg 7 42 "/status"] bridge_start).1)).
Proof.
  apply (bridge_replies_bounded W_bridge [tg 7 42 "/status"] bridge_start).
  constructor.
Defined.

(** *** The queue of answers *)

(** The queue holds at most 500 entries: an append puts the entry last and
    keeps the newest entries before it. *)
Lemma outbox_append_spec {T : Type} (entry : T * string) (OUTBOX : list (T * string)) :
  length (outbox_append entry OUTBOX) = Nat.min (length OUTBOX + 1) OUTBOX_MAXLEN
  ∧ last (outbox_append entry OUTBOX) = Some entry
  ∧ outbox_append entry OUTBOX `suffix_of` OUTBOX ++ [entry].
Proof.
  unfold outbox_append, OUTBOX_MAXLEN. cbv zeta.
  set (extended := OUTBOX ++ [entry]).
  assert (length extended = (length OUTBOX + 1)%nat) as Hlen
    by (unfold extended; rewrite length_app; cbn; lia).
  split_and!.
  - rewrite length_drop. lia.
  - unfold extended in *. rewrite drop_app_le by lia. apply last_snoc.
  - apply suffix_drop.
Qed.

(** A frame leaves the queue within its bound and free of empty texts. *)
Theorem frame_keeps_queue {T : Type} (E : Safety.Env) (float_truthy : string → bool)
    (now : T) (msg : string) (OUTBOX OUTBOX' : list (T * string)) :
  on_frame E float_truthy now msg OUTBOX = Safety.Returns OUTBOX' →
  ((length OUTBOX ≤ OUTBOX_MAXLEN)%nat → (length OUTBOX' ≤ OUTBOX_MAXLEN)%nat)
  ∧ (Forall (λ entry, entry.2 ≠ "" ∧ strip entry.2 = entry.2) OUTBOX →
     Forall (λ entry, entry.2 ≠ "" ∧ strip entry.2 = entry.2) OUTBOX')
  ∧ (OUTBOX' = OUTBOX
     ∨ ∃ data text,
         Safety.json_loads E msg = Safety.Returns (Safety.JObj data)
         ∧ is_str (data !! "type") "chat" = true
         ∧ is_str (data !! "role") "assistant" = true
         ∧ OUTBOX' = outbox_append (now, text) OUTBOX).
Proof.
  unfold on_frame. intros Hret.
  assert (∀ text, text ≠ "" → strip text = text →
            ((length OUTBOX ≤ OUTBOX_MAXLEN)%nat →
             (length (outbox_append (now, text) OUTBOX) ≤ OUTBOX_MAXLEN)%nat)
            ∧ (Forall (λ entry, entry.2 ≠ "" ∧ strip entry.2 = entry.2) OUTBOX →
               Forall (λ entry, entry.2 ≠ "" ∧ strip entry.2 = entry.2)
                      (outbox_append (now, text) OUTBOX))) as Happend.
  { intros text Hne Hstrip. split.
    - intros _. destruct (outbox_append_spec (now, text) OUTBOX) as [-> _]. lia.
    - intros Hall. destruct (outbox_append_spec (now, text) OUTBOX) as (_ & _ & Hsuf).
      destruct Hsuf as [dropped Hsuf].
      assert (Forall (λ entry : T * string, entry.2 ≠ "" ∧ strip entry.2 = entry.2)
                     (OUTBOX ++ [(now, text)])) as Hext
        by (apply Forall_app; split; [done|by repeat constructor]).
      rewrite Hsuf in Hext. by apply Forall_app in Hext as [_ ?]. }
  case_bool_decide; [injection Hret as <-; auto|].
  destruct (Safety.json_loads E msg) as [v|e] eqn:Hloads; [|injection Hret as <-; auto].
  destruct v as [| | | | | |data]; try discriminate.
  destruct (is_str (data !! "type") "chat") eqn:Htype; cbn [andb] in Hret;
    [|injection Hret as <-; auto].
  destruct (is_str (data !! "role") "assistant") eqn:Hrole;
    [|injection Hret as <-; auto].
  cbv zeta in Hret. case_bool_decide as Htext; injection Hret as <-; [|auto].
  destruct (Happend _ Htext (strip_idem _)) as [Hb Hf].
  split_and!; [done|done|]. right. by eexists _, _.
Qed.

Lemma frame_keeps_queue_witness :
  Forall (λ entry : Z * string, entry.2 ≠ "" ∧ strip entry.2 = entry.2) [(7, "hello")].
Proof.
  refine (proj1 (proj2 (frame_keeps_queue E_ws (λ _, true) 7 "{}" [] [(7, "hello")] _)) _).
  - by vm_compute.
  - constructor.
Defined.


End BridgeFacts.

(* ===================================================================== *)
(** ** Evolution statistics *)
(* ===================================================================== *)

Module EvolutionFacts.
Import EvolutionStats MoreSamples.

Example splitlines_ex :
  splitlines ("a" +:+ PyStr.nl +:+ "b" +:+ String (Ascii.ascii_of_nat 13) PyStr.nl
              +:+ PyStr.nl +:+ "c" +:+ PyStr.nl)
  = ["a"; "b"; ""; "c"].
Proof. reflexivity. Qed.

Example splitlines_unicode_ex :
  splitlines ("a" +:+ u2028 +:+ "b" +:+ u0085 +:+ "é" +:+ u2028) = ["a"; "b"; "é"].
Proof. reflexivity. Qed.

Example split_max_ex : split_max "|" 2 "h|t|m|x" = ["h"; "t"; "m|x"].
Proof. reflexivity. Qed.

Example extract_version_ex :
  _extract_version "release v5.2.1 done" = Some "5.2.1"
  ∧ _extract_version "v1.2" = None
  ∧ _extract_version "v1..2 vv3.40.5x" = Some "3.40.5".
Proof. by vm_compute. Qed.

Example select_small : select_indices 5 {[ 3%nat ]} = [4; 3; 2; 1; 0]%nat.
Proof. by vm_compute. Qed.

Example select_large :
  length (select_indices 250 ∅) = 100%nat
  ∧ head (select_indices 250 ∅) = Some 249%nat
  ∧ last (select_indices 250 ∅) = Some 0%nat.
Proof. by vm_compute. Qed.

Example collect_ex :
  match _collect_data W_repo with
  | Safety.Returns points => p_hash <$> points
  | Safety.Raises _ => []
  end = ["a1a1a1a1"; "b2b2b2b2"; "c3c3c3c3"].
Proof. by vm_compute. Qed.

(** A subject that holds a U+2028 makes two lines, and here two commits. *)
Example collect_wrapped_ex :
  match _collect_data W_wrapped with
  | Safety.Returns points => p_ts <$> points
  | Safety.Raises _ => []
  end = ["c"; "d2"; "d1"].
Proof. by vm_compute. Qed.

(** *** Sorting a set of indices *)

Lemma insert_index_perm i l : insert_index i l ≡ₚ i :: l.
Proof.
  induction l as [|j l IH]; cbn; [done|].
  case_bool_decide; [done|]. rewrite IH. apply Permutation_swap.
Qed.

Lemma insert_index_increasing i l :
  StronglySorted lt l → i ∉ l → StronglySorted lt (insert_index i l).
Proof.
  induction 1 as [|j l Hl IH Hj]; intros Hi; cbn; [by repeat constructor|].
  apply not_elem_of_cons in Hi as [Hij Hi].
  case_bool_decide.
  - constructor; [by constructor|].
    constructor; [lia|]. eapply Forall_impl; [exact Hj|]. cbn. lia.
  - constructor; [by apply IH|].
    rewrite insert_index_perm. constructor; [lia|done].
Qed.

Lemma sort_increasing l :
  NoDup l →
  StronglySorted lt (foldr insert_index [] l) ∧ foldr insert_index [] l ≡ₚ l.
Proof.
  induction 1 as [|i l Hi Hl [IHs IHp]]; cbn; [split; [constructor|done]|].
  split.
  - apply insert_index_increasing; [done|]. by rewrite IHp.
  - by rewrite insert_index_perm, IHp.
Qed.

Lemma sorted_increasing X : StronglySorted lt (sorted X).
Proof. apply sort_increasing, NoDup_elements. Qed.

Lemma elem_of_sorted X i : i ∈ sorted X ↔ i ∈ X.
Proof.
  unfold sorted. destruct (sort_increasing (elements X)) as [_ ->]; [apply NoDup_elements|].
  apply elem_of_elements.
Qed.

Lemma length_sorted X : length (sorted X) = size X.
Proof.
  unfold sorted. destruct (sort_increasing (elements X)) as [_ ->]; [apply NoDup_elements|].
  done.
Qed.

Lemma decreasing_reverse l :
  StronglySorted lt l → StronglySorted (λ i j, j < i)%nat (reverse l).
Proof.
  induction 1 as [|i l Hl IH Hi]; [constructor|].
  rewrite reverse_cons.
  assert (Forall (λ j, i < j)%nat (reverse l)) as Hrev by (by apply Forall_reverse).
  clear Hi Hl. induction IH as [|j k Hk IHk Hj]; cbn.
  - repeat constructor.
  - apply Forall_cons in Hrev as [Hij Hrev].
    constructor; [by apply IHk|].
    apply Forall_app. split; [done|]. by repeat constructor.
Qed.

Lemma elem_of_stride_go {A} step skip (l : list A) x :
  x ∈ stride_go step skip l → x ∈ l.
Proof.
  revert skip. induction l as [|y l IH]; intros skip; cbn; [done|].
  destruct skip as [|k].
  - intros [->|Hx]%elem_of_cons; [left|right; by eapply IH].
  - intros Hx. right. by eapply IH.
Qed.

Lemma size_list_to_set_le (l : list nat) :
  (size (list_to_set l : gset nat) ≤ length l)%nat.
Proof.
  induction l as [|x l IH]; cbn; [by rewrite size_empty|].
  rewrite size_union_alt, size_singleton.
  assert (size ((list_to_set l : gset nat) ∖ {[x]}) ≤ size (list_to_set l : gset nat))%nat
    by (apply subseteq_size, subseteq_difference_l; done).
  lia.
Qed.

Lemma elem_of_range_step n step i : i ∈ range_step n step → (i < n)%nat.
Proof.
  unfold range_step. rewrite list_elem_of_In, filter_In, <- list_elem_of_In, elem_of_seq.
  lia.
Qed.

(** *** The sample *)

Section Sample.
Variable n : nat.
Variable version_idx : gset nat.
Hypothesis some_commit : (1 ≤ n)%nat.
Hypothesis version_idx_in_range : ∀ i, i ∈ version_idx → (i < n)%nat.

Let must_include : gset nat := version_idx ∪ {[ 0%nat; (n - 1)%nat ]}.

Lemma must_include_in_range i : i ∈ must_include → (i < n)%nat.
Proof.
  unfold must_include. rewrite elem_of_union, elem_of_union, !elem_of_singleton.
  intros [Hv|[-> | ->]]; [by apply version_idx_in_range|lia..].
Qed.

(** What the sample is made of: the commits that must be there, and
    otherwise indices of the evenly spaced ones. *)
Lemma elem_of_select i :
  i ∈ select_indices n version_idx →
  i ∈ must_include ∨ i ∈ range_step n (Nat.max 1 (n `div` MAX_POINTS)).
Proof.
  unfold select_indices. fold must_include. cbv zeta.
  rewrite elem_of_reverse.
  set (spaced := range_step n _).
  case_bool_decide as Hlong.
  2: { rewrite elem_of_sorted, elem_of_union, elem_of_list_to_set. tauto. }
  rewrite elem_of_sorted, elem_of_union, elem_of_list_to_set.
  intros [Hm|Hextra]; [by left|].
  destruct (_ && _); [|by apply elem_of_nil in Hextra].
  apply subseteq_take, elem_of_stride_go in Hextra.
  apply list_elem_of_In, filter_In in Hextra as [Hin _].
  apply list_elem_of_In, elem_of_sorted, elem_of_union in Hin as [Hin|Hin]; [by left|].
  right. by apply elem_of_list_to_set in Hin.
Qed.

Lemma must_include_selected i : i ∈ must_include → i ∈ select_indices n version_idx.
Proof.
  intros Hi. unfold select_indices. fold must_include. cbv zeta.
  rewrite elem_of_reverse. case_bool_decide; rewrite elem_of_sorted, elem_of_union; by left.
Qed.

Lemma select_decreasing :
  StronglySorted (λ i j, j < i)%nat (select_indices n version_idx).
Proof.
  unfold select_indices. cbv zeta. apply decreasing_reverse.
  case_bool_decide; apply sorted_increasing.
Qed.

Lemma select_in_range : Forall (λ i, (i < n)%nat) (select_indices n version_idx).
Proof.
  apply Forall_forall. intros i [Hi|Hi]%elem_of_select.
  - by apply must_include_in_range.
  - by apply elem_of_range_step in Hi.
Qed.

Lemma version_selected i : i ∈ version_idx → i ∈ select_indices n version_idx.
Proof. intros Hi. apply must_include_selected, elem_of_union. by left. Qed.

Lemma newest_selected : 0%nat ∈ select_indices n version_idx.
Proof.
  apply must_include_selected. unfold must_include.
  rewrite elem_of_union, elem_of_union, !elem_of_singleton. auto.
Qed.

Lemma oldest_selected : (n - 1)%nat ∈ select_indices n version_idx.
Proof.
  apply must_include_selected. unfold must_include.
  rewrite elem_of_union, elem_of_union, !elem_of_singleton. auto.
Qed.

End Sample.

Lemma decreasing_NoDup (l : list nat) : StronglySorted (λ i j, (j < i)%nat) l → NoDup l.
Proof.
  induction 1 as [|i l Hl IH Hi]; constructor; [|done].
  intros Hin. rewrite Forall_forall in Hi. specialize (Hi _ Hin). lia.
Qed.

(** Every sampled index names a commit, and the sample runs from the
    highest index down without repeating one. *)
Theorem sample_in_range_and_ordered (n : nat) (version_idx : gset nat) :
  (1 ≤ n)%nat →
  (∀ i, i ∈ version_idx → (i < n)%nat) →
  Forall (λ i, (i < n)%nat) (select_indices n version_idx)
  ∧ StronglySorted (λ i j, (j < i)%nat) (select_indices n version_idx)
  ∧ NoDup (select_indices n version_idx).
Proof.
  intros Hn Hv. split_and!.
  - by apply select_in_range.
  - apply select_decreasing.
  - apply decreasing_NoDup, select_decreasing.
Qed.

Lemma sample_in_range_and_ordered_witness :
  Forall (λ i, (i < 250)%nat) (select_indices 250 {[ 7%nat; 201%nat ]}).
Proof.
  refine (proj1 (sample_in_range_and_ordered 250 {[ 7%nat; 201%nat ]} _ _)).
  - lia.
  - intros i. rewrite elem_of_union, !elem_of_singleton. lia.
Defined.

(** The sample always holds the newest commit, the oldest one and every
    commit whose message carries a version. *)
Theorem sample_keeps_versions (n : nat) (version_idx : gset nat) (i : nat) :
  i ∈ version_idx ∨ i = 0%nat ∨ i = (n - 1)%nat →
  i ∈ select_indices n version_idx.
Proof.
  intros [Hi|[-> | ->]].
  - by apply version_selected.
  - apply newest_selected.
  - apply oldest_selected.
Qed.

Lemma sample_keeps_versions_witness : 201%nat ∈ select_indices 250 {[ 7%nat; 201%nat ]}.
Proof.
  apply sample_keeps_versions. left. set_solver.
Defined.

(** The sample is no longer than [MAX_POINTS], or than the number of
    commits that must be in it where that is more. *)
Theorem sample_size (n : nat) (version_idx : gset nat) :
  (length (select_indices n version_idx)
   ≤ Nat.max MAX_POINTS (size (version_idx ∪ {[ 0%nat; (n - 1)%nat ]})))%nat.
Proof.
  unfold select_indices. cbv zeta.
  set (must_include := version_idx ∪ {[ 0%nat; (n - 1)%nat ]}).
  rewrite length_reverse. case_bool_decide as Hlong; [|lia].
  rewrite length_sorted, size_union_alt.
  set (extra := if _ && _ then _ else _).
  assert (size (list_to_set extra ∖ must_include : gset nat) ≤ length extra)%nat as Hsize.
  { etrans; [|apply size_list_to_set_le]. apply subseteq_size, subseteq_difference_l. done. }
  assert (length extra ≤ MAX_POINTS - size must_include)%nat as Hextra.
  { unfold extra. destruct (_ && _); [|cbn; lia]. rewrite length_take. lia. }
  lia.
Qed.

(** *** The version pattern *)

Lemma append_cons ch s t : String ch s +:+ t = String ch (s +:+ t).
Proof. reflexivity. Qed.

Lemma append_assoc s t u : (s +:+ t) +:+ u = s +:+ (t +:+ u).
Proof. induction s as [|ch s IH]; [done|]. by rewrite !append_cons, IH. Qed.

Lemma digits_spec s ds rest :
  digits s = (ds, rest) →
  s = ds +:+ rest
  ∧ Forall (λ ch, is_digit ch = true) (list_ascii_of_string ds)
  ∧ (∀ ch r, rest = String ch r → is_digit ch = false).
Proof.
  revert ds rest. induction s as [|ch s IH]; intros ds rest; cbn [digits].
  - intros [= <- <-]. split_and!; [done|constructor|done].
  - destruct (is_digit ch) eqn:Hd.
    + destruct (digits s) as [ds' rest'] eqn:Hs. intros [= <- <-].
      destruct (IH _ _ eq_refl) as (Heq & Hall & Hrest).
      split_and!; [by rewrite append_cons, <- Heq|by constructor|done].
    + intros [= <- <-]. split_and!; [done|constructor|].
      by intros ? ? [= <- <-].
Qed.

Lemma digits_app ds rest :
  Forall (λ ch, is_digit ch = true) (list_ascii_of_string ds) →
  (∀ ch r, rest = String ch r → is_digit ch = false) →
  digits (ds +:+ rest) = (ds, rest).
Proof.
  intros Hds Hrest. induction ds as [|ch ds IH].
  - destruct rest as [|ch r]; [done|].
    change ("" +:+ String ch r) with (String ch r). cbn [digits].
    by rewrite (Hrest ch r).
  - apply Forall_cons in Hds as [Hch Hds].
    rewrite append_cons. cbn [digits]. by rewrite Hch, IH.
Qed.

Lemma match_numbers_spec s v :
  match_numbers s = Some v →
  ∃ a b c post,
    s = v +:+ post ∧ v = a +:+ "." +:+ b +:+ "." +:+ c
    ∧ a ≠ "" ∧ b ≠ "" ∧ c ≠ ""
    ∧ Forall (λ ch, is_digit ch = true) (list_ascii_of_string (a +:+ b +:+ c)).
Proof.
  unfold match_numbers.
  destruct (digits s) as [a r1] eqn:Ha. case_bool_decide as Hae; [done|].
  destruct r1 as [|ch1 r2]; [done|].
  destruct (decide (ch1 = "."%char)) as [->|Hch1];
    [|by destruct ch1 as [[] [] [] [] [] [] [] []]].
  destruct (digits r2) as [b r3] eqn:Hb. case_bool_decide as Hbe; [done|].
  destruct r3 as [|ch2 r4]; [done|].
  destruct (decide (ch2 = "."%char)) as [->|Hch2];
    [|by destruct ch2 as [[] [] [] [] [] [] [] []]].
  destruct (digits r4) as [c r5] eqn:Hc. case_bool_decide as Hce; [done|].
  intros [= <-].
  apply digits_spec in Ha as (-> & Hda & _).
  apply digits_spec in Hb as (-> & Hdb & _).
  apply digits_spec in Hc as (-> & Hdc & _).
  exists a, b, c, r5. split_and!; [|done..|].
  - by rewrite !append_assoc.
  - clear -Hda Hdb Hdc.
    induction a as [|ch a IH]; [|apply Forall_cons in Hda as [??]; constructor; auto].
    change ("" +:+ b +:+ c) with (b +:+ c).
    induction b as [|ch b IH]; [done|apply Forall_cons in Hdb as [??]; constructor; auto].
Qed.

(** A version found in a message of ASCII text stands in it right after a
    [v], and is three non-empty runs of digits joined by dots. *)
Theorem extract_version_shape (msg v : string) :
  PyStr.isascii msg = true →
  _extract_version msg = Some v →
  ∃ pre post a b c,
    msg = pre +:+ "v" +:+ v +:+ post
    ∧ v = a +:+ "." +:+ b +:+ "." +:+ c
    ∧ a ≠ "" ∧ b ≠ "" ∧ c ≠ ""
    ∧ Forall (λ ch, is_digit ch = true) (list_ascii_of_string (a +:+ b +:+ c)).
Proof.
  intros _.
  induction msg as [|ch msg IH]; [done|]. cbn [_extract_version].
  assert (_extract_version msg = Some v →
          ∃ pre post a b c,
            String ch msg = pre +:+ "v" +:+ v +:+ post
            ∧ v = a +:+ "." +:+ b +:+ "." +:+ c
            ∧ a ≠ "" ∧ b ≠ "" ∧ c ≠ ""
            ∧ Forall (λ ch, is_digit ch = true) (list_ascii_of_string (a +:+ b +:+ c)))
    as Hlater.
  { intros (pre & post & a & b & c & -> & Hrest)%IH.
    by exists (String ch pre), post, a, b, c. }
  case_bool_decide as Hv; [|done].
  destruct (match_numbers msg) as [v'|] eqn:Hm; [|done].
  intros [= ->]. destruct (match_numbers_spec _ _ Hm) as (a & b & c & post & -> & Hrest).
  subst ch. by exists "", post, a, b, c.
Qed.

Lemma extract_version_shape_witness :
  ∃ pre post a b c,
    "release v6.2.0 (hotfix)" = pre +:+ "v" +:+ "6.2.0" +:+ post
    ∧ "6.2.0" = a +:+ "." +:+ b +:+ "." +:+ c
    ∧ a ≠ "" ∧ b ≠ "" ∧ c ≠ ""
    ∧ Forall (λ ch, is_digit ch = true) (list_ascii_of_string (a +:+ b +:+ c)).
Proof.
  apply (extract_version_shape "release v6.2.0 (hotfix)" "6.2.0"); reflexivity.
Defined.

Lemma extract_version_nonempty msg v : _extract_version msg = Some v → v ≠ "".
Proof.
  induction msg as [|ch msg IH]; [done|]. cbn [_extract_version].
  case_bool_decide; [|done].
  destruct (match_numbers msg) as [v'|] eqn:Hm; [|done].
  intros [= ->]. destruct (match_numbers_spec _ _ Hm) as (a & b & c & _ & _ & -> & Ha & _).
  by destruct a.
Qed.

(** The first [v] of a message that is followed by three runs of digits
    with dots between them gives the version, if what comes after the last
    run is nothing or starts with an ASCII character that is no digit. *)
Theorem extract_version_finds (pre a b c post : string) :
  Forall (λ ch, ch ≠ "v"%char) (list_ascii_of_string pre) →
  a ≠ "" → b ≠ "" → c ≠ "" →
  Forall (λ ch, is_digit ch = true) (list_ascii_of_string a) →
  Forall (λ ch, is_digit ch = true) (list_ascii_of_string b) →
  Forall (λ ch, is_digit ch = true) (list_ascii_of_string c) →
  (∀ ch r, post = String ch r →
           is_digit ch = false ∧ (Ascii.nat_of_ascii ch < 128)%nat) →
  _extract_version (pre +:+ "v" +:+ a +:+ "." +:+ b +:+ "." +:+ c +:+ post)
  = Some (a +:+ "." +:+ b +:+ "." +:+ c).
Proof.
  intros Hpre Ha Hb Hc Hda Hdb Hdc Hpost.
  assert (∀ ch r, post = String ch r → is_digit ch = false) as Hstop
    by (intros ch r Heq; by destruct (Hpost ch r Heq)).
  clear Hpost.
  induction pre as [|ch pre IH].
  - change ("" +:+ "v" +:+ a +:+ "." +:+ b +:+ "." +:+ c +:+ post)
      with (String "v" (a +:+ String "." (b +:+ String "." (c +:+ post)))).
    cbn [_extract_version]. rewrite bool_decide_eq_true_2 by done.
    unfold match_numbers.
    rewrite (digits_app a) by (done || by intros ? ? [= <- <-]).
    rewrite bool_decide_eq_false_2 by done.
    rewrite (digits_app b) by (done || by intros ? ? [= <- <-]).
    rewrite bool_decide_eq_false_2 by done.
    rewrite (digits_app c) by done.
    by rewrite bool_decide_eq_false_2 by done.
  - apply Forall_cons in Hpre as [Hch Hpre].
    rewrite append_cons. cbn [_extract_version].
    rewrite bool_decide_eq_false_2 by done. by apply IH.
Qed.

Lemma extract_version_finds_witness :
  _extract_version ("bump: " +:+ "v" +:+ "10" +:+ "." +:+ "0" +:+ "." +:+ "3" +:+ "-rc1")
  = Some ("10" +:+ "." +:+ "0" +:+ "." +:+ "3").
Proof.
  apply (extract_version_finds "bump: " "10" "0" "3" "-rc1"); try done.
  - cbn. repeat constructor; done.
  - cbn. by repeat constructor.
  - cbn. by repeat constructor.
  - cbn. by repeat constructor.
  - intros ? ? [= <- <-]. split; [reflexivity|by apply Nat.ltb_lt].
Defined.

(** *** The points *)

#[local] Abbreviation log_out W := (_git W ["log"; "--pretty=format:%H|%aI|%s"; "--no-merges"]).

(** What a point says of the commit it was made from. *)
#[local] Abbreviation point_of all_commits :=
  (λ (idx : nat) (p : Point), ∃ c,
     all_commits !! idx = Some c
     ∧ p_ts p = c_ts c ∧ p_hash p = PyStr.take 8 (c_hash c)
     ∧ p_msg p = PyStr.take 80 (c_msg c)
     ∧ p_version p = _extract_version (c_msg c)).

Lemma collect_points_spec W all_commits selected :
  Forall (λ i, (i < length all_commits)%nat) selected →
  ∃ points, collect_points W all_commits selected = Safety.Returns points
            ∧ Forall2 (point_of all_commits) selected points.
Proof.
  induction 1 as [|idx selected Hidx _ (points & IH & Hpoints)]; cbn [collect_points].
  - exists []. by split.
  - apply lookup_lt_is_Some_2 in Hidx as [c Hc]. rewrite Hc.
    destruct (_count_py_lines W (c_hash c)) as [py_lines module_count]. rewrite IH.
    eexists. split; [done|]. constructor; [|done]. by exists c.
Qed.

Lemma version_indices_in_range all_commits i :
  i ∈ version_indices all_commits → (i < length all_commits)%nat.
Proof.
  unfold version_indices. rewrite elem_of_list_to_set, list_elem_of_omap.
  intros ([j c] & Hin & Hsome).
  apply elem_of_lookup_imap in Hin as (k & c' & [= -> ->] & Hk). cbn in Hsome.
  destruct (_extract_version _); [|done]. case_bool_decide; [|done].
  injection Hsome as <-. by eapply lookup_lt_Some.
Qed.

Lemma version_indices_has all_commits i c v :
  all_commits !! i = Some c → _extract_version (c_msg c) = Some v →
  i ∈ version_indices all_commits.
Proof.
  intros Hc Hv. unfold version_indices. rewrite elem_of_list_to_set, list_elem_of_omap.
  exists (i, c). split; [by apply (elem_of_lookup_imap_2 pair)|].
  cbn. rewrite Hv. rewrite bool_decide_eq_true_2; [done|].
  by eapply extract_version_nonempty.
Qed.

Lemma collect_data_spec W :
  let all_commits := parse_log (log_out W) in
  let selected := select_indices (length all_commits) (version_indices all_commits) in
  ∃ points, _collect_data W = Safety.Returns points
    ∧ (all_commits = [] → points = [])
    ∧ (all_commits ≠ [] → Forall2 (point_of all_commits) selected points).
Proof.
  intros all_commits selected. unfold _collect_data. fold all_commits. cbv zeta.
  case_bool_decide as Hnil.
  - exists []. by split_and!.
  - destruct (collect_points_spec W all_commits selected) as (points & Hret & Hpoints).
    { apply select_in_range.
      - destruct all_commits; [done|cbn; lia].
      - apply version_indices_in_range. }
    exists points. by split_and!.
Qed.

Lemma collect_data_nil W points :
  _collect_data W = Safety.Returns points →
  points = [] ↔ parse_log (log_out W) = [].
Proof.
  destruct (collect_data_spec W) as (points' & Hret & Hnil & Hsome). cbv zeta in *.
  rewrite Hret. intros [= <-].
  set (all_commits := parse_log (log_out W)) in *.
  split; [|done]. intros ->.
  destruct (decide (all_commits = [])) as [|Hcs]; [done|].
  apply Hsome, Forall2_nil_inv_r in Hcs.
  pose proof (newest_selected (length all_commits) (version_indices all_commits)) as H0.
  rewrite Hcs in H0. by apply elem_of_nil in H0.
Qed.

(** [_collect_data] never raises.  It gives no more points than the log
    has commits, and none exactly when the log has no commit line. *)
Theorem collect_data_returns (W : World) :
  ∃ points, _collect_data W = Safety.Returns points
    ∧ (length points ≤ length (parse_log (log_out W)))%nat
    ∧ (points = [] ↔ parse_log (log_out W) = []).
Proof.
  destruct (collect_data_spec W) as (points & Hret & Hnil & Hsome). cbv zeta in *.
  exists points. split_and!; [done| |by apply collect_data_nil].
  set (all_commits := parse_log (log_out W)) in *.
  destruct (decide (all_commits = [])) as [Hcs|Hcs].
  { rewrite (Hnil Hcs). cbn. lia. }
  rewrite <- (Forall2_length _ _ _ (Hsome Hcs)).
  assert (1 ≤ length all_commits)%nat as Hn by (destruct all_commits; [done|cbn; lia]).
  assert (select_indices (length all_commits) (version_indices all_commits)
          ⊆+ seq 0 (length all_commits)) as Hsub.
  { apply NoDup_submseteq; [apply decreasing_NoDup, select_decreasing|].
    intros i Hi. apply elem_of_seq.
    pose proof (select_in_range _ _ Hn (version_indices_in_range all_commits)) as Hrange.
    rewrite Forall_forall in Hrange. specialize (Hrange i Hi). lia. }
  apply submseteq_length in Hsub. by rewrite length_seq in Hsub.
Qed.

Lemma decreasing_head l n :
  StronglySorted (λ i j, (j < i)%nat) l → Forall (λ i, (i < n)%nat) l →
  (n - 1)%nat ∈ l → head l = Some (n - 1)%nat.
Proof.
  intros Hs Hall Hin. destruct Hs as [|i l Hl Hi]; [by apply elem_of_nil in Hin|].
  cbn. f_equal. apply Forall_cons in Hall as [Hi_n _].
  apply elem_of_cons in Hin as [->|Hin]; [done|].
  rewrite Forall_forall in Hi. specialize (Hi _ Hin). lia.
Qed.

Lemma decreasing_last l :
  StronglySorted (λ i j, (j < i)%nat) l → 0%nat ∈ l → last l = Some 0%nat.
Proof.
  induction 1 as [|i l Hl IH Hi]; intros Hin; [by apply elem_of_nil in Hin|].
  destruct l as [|j l'].
  - by apply list_elem_of_singleton in Hin as ->.
  - change (last (i :: j :: l')) with (last (j :: l')). apply IH.
    apply elem_of_cons in Hin as [<-|Hin]; [|done].
    apply Forall_cons in Hi as [Hj _]. lia.
Qed.

(** The points run from the oldest commit of the log to the newest one:
    the log has the newest first, the points have it last. *)
Theorem points_oldest_first (W : World) (newest oldest : Commit) :
  head (parse_log (log_out W)) = Some newest →
  last (parse_log (log_out W)) = Some oldest →
  ∃ points first final,
    _collect_data W = Safety.Returns points
    ∧ head points = Some first ∧ last points = Some final
    ∧ p_ts first = c_ts oldest ∧ p_hash first = PyStr.take 8 (c_hash oldest)
    ∧ p_ts final = c_ts newest ∧ p_hash final = PyStr.take 8 (c_hash newest).
Proof.
  intros Hnewest Holdest.
  destruct (collect_data_spec W) as (points & Hret & _ & Hsome). cbv zeta in *.
  set (all_commits := parse_log (log_out W)) in *.
  assert (all_commits ≠ []) as Hcs by (by intros Heq; rewrite Heq in Hnewest).
  specialize (Hsome Hcs).
  assert (1 ≤ length all_commits)%nat as Hn by (destruct all_commits; [done|cbn; lia]).
  pose proof (select_in_range _ _ Hn (version_indices_in_range all_commits)) as Hrange.
  pose proof (select_decreasing (length all_commits) (version_indices all_commits)) as Hdec.
  pose proof (oldest_selected (length all_commits) (version_indices all_commits)) as Hold.
  pose proof (newest_selected (length all_commits) (version_indices all_commits)) as Hnew.
  set (selected := select_indices _ _) in *.
  assert (head selected = Some (length all_commits - 1)%nat) as Hhead
    by (by apply decreasing_head).
  assert (last selected = Some 0%nat) as Hlast by (by apply decreasing_last).
  apply Forall2_last in Hsome as Hfinal. rewrite Hlast in Hfinal.
  inversion Hfinal as [i0 final (c0 & Hc0 & Hts0 & Hhash0 & _) Hi0 Hfinal'|].
  clear Hfinal Hi0 i0. symmetry in Hfinal'.
  destruct Hsome as [|i first sel' points' (c1 & Hc1 & Hts1 & Hhash1 & _) _]; [done|].
  injection Hhead as ->.
  rewrite <- head_lookup, Hnewest in Hc0. injection Hc0 as <-.
  rewrite last_lookup in Holdest.
  replace (Init.Nat.pred (length all_commits)) with (length all_commits - 1)%nat
    in Holdest by lia.
  rewrite Holdest in Hc1. injection Hc1 as <-.
  exists (first :: points'), first, final. by split_and!.
Qed.

Lemma points_oldest_first_witness :
  ∃ points first final,
    _collect_data W_repo = Safety.Returns points
    ∧ head points = Some first ∧ last points = Some final
    ∧ p_ts first = "2026-01-01T00:00:00+00:00" ∧ p_hash first = "a1a1a1a1"
    ∧ p_ts final = "2026-03-01T00:00:00+00:00" ∧ p_hash final = "c3c3c3c3".
Proof.
  apply (points_oldest_first W_repo
           {| c_hash := "c3c3c3c3c3"; c_ts := "2026-03-01T00:00:00+00:00";
              c_msg := "fix: typo" |}
           {| c_hash := "a1a1a1a1a1"; c_ts := "2026-01-01T00:00:00+00:00";
              c_msg := "init" |}); by vm_compute.
Defined.

(** Every commit whose message is ASCII text and carries a version has its
    point, whatever the size of the history. *)
Theorem versioned_commits_sampled (W : World) (i : nat) (c : Commit) (v : string) :
  parse_log (log_out W) !! i = Some c →
  PyStr.isascii (c_msg c) = true →
  _extract_version (c_msg c) = Some v →
  ∃ points p,
    _collect_data W = Safety.Returns points ∧ p ∈ points
    ∧ p_version p = Some v ∧ p_ts p = c_ts c ∧ p_hash p = PyStr.take 8 (c_hash c).
Proof.
  intros Hc _ Hv.
  destruct (collect_data_spec W) as (points & Hret & _ & Hsome). cbv zeta in *.
  set (all_commits := parse_log (log_out W)) in *.
  assert (all_commits ≠ []) as Hcs by (by intros Heq; rewrite Heq in Hc).
  specialize (Hsome Hcs).
  assert (i ∈ select_indices (length all_commits) (version_indices all_commits)) as Hi.
  { apply version_selected. by eapply version_indices_has. }
  apply list_elem_of_lookup in Hi as [k Hk].
  destruct (Forall2_lookup_l _ _ _ _ _ Hsome Hk) as (p & Hp & c' & Hc' & Hts & Hhash & _ & Hver).
  rewrite Hc in Hc'. injection Hc' as <-.
  exists points, p. split_and!; [done|by eapply list_elem_of_lookup_2|congruence|done..].
Qed.

Lemma versioned_commits_sampled_witness :
  ∃ points p,
    _collect_data W_repo = Safety.Returns points ∧ p ∈ points
    ∧ p_version p = Some "6.2.0" ∧ p_ts p = "2026-02-01T00:00:00+00:00"
    ∧ p_hash p = "b2b2b2b2".
Proof.
  apply (versioned_commits_sampled W_repo 1
           {| c_hash := "b2b2b2b2b2"; c_ts := "2026-02-01T00:00:00+00:00";
              c_msg := "release v6.2.0" |} "6.2.0"); by vm_compute.
Defined.

(** *** The document *)

Lemma max_of_ge (field : Point → nat) points p :
  p ∈ points → (field p ≤ max_of field points)%nat.
Proof.
  induction points as [|q points IH]; [by intros ?%elem_of_nil|].
  change (max_of field (q :: points)) with (Nat.max (field q) (max_of field points)).
  intros [->|Hin%IH]%elem_of_cons; lia.
Qed.

Lemma max_of_attained (field : Point → nat) points :
  points ≠ [] → ∃ p, p ∈ points ∧ field p = max_of field points.
Proof.
  induction points as [|q points IH]; [done|]. intros _.
  change (max_of field (q :: points)) with (Nat.max (field q) (max_of field points)).
  destruct points as [|q' points'].
  - exists q. split; [by left|cbn; lia].
  - destruct IH as (p & Hin & Hp); [done|].
    destruct (decide (field q ≤ max_of field (q' :: points'))%nat).
    + exists p. split; [by right|]. rewrite Hp. lia.
    + exists q. split; [by left|]. lia.
Qed.

(** The summary is the no-data one, with nothing pushed, exactly when the
    log has no commit line. *)
Theorem no_data_iff_no_commits (W : World) (push : Data → Safety.outcome string) :
  generate_evolution_stats W push
    = Safety.Returns ("No data collected (empty git history?)", None)
  ↔ parse_log (log_out W) = [].
Proof.
  destruct (collect_data_spec W) as (points & Hret & _ & _).
  unfold generate_evolution_stats. rewrite Hret.
  rewrite <- (collect_data_nil W points Hret). clear Hret.
  destruct points as [|first points]; [done|].
  destruct (last (first :: points)) as [final|] eqn:Hlast; [|by apply last_None in Hlast].
  cbv zeta. destruct (push _); split; intros; done.
Qed.

(** When git cannot give the log, by an exception or a non-zero exit,
    nothing is pushed and the answer is the no-data summary. *)
Theorem log_failure_no_push (W : World) (push : Data → Safety.outcome string) :
  (∀ out, run W ["git"; "log"; "--pretty=format:%H|%aI|%s"; "--no-merges"]
          ≠ Safety.Returns (0, out)) →
  generate_evolution_stats W push
    = Safety.Returns ("No data collected (empty git history?)", None).
Proof.
  intros Hfail.
  assert (log_out W = "") as Hlog.
  { unfold _git. destruct (run W _) as [[code out]|e] eqn:Hrun; [|done].
    case_bool_decide as Hcode; [|done]. subst code. by destruct (Hfail out). }
  unfold generate_evolution_stats, _collect_data. by rewrite Hlog.
Qed.

Lemma log_failure_no_push_witness :
  generate_evolution_stats W_nogit push_ok
    = Safety.Returns ("No data collected (empty git history?)", None).
Proof. apply log_failure_no_push. intros out. discriminate. Defined.

(** The document pushed counts its points, of which there is at least
    one, and each of its three maxima bounds every point and is the value
    of one of them. *)
Theorem pushed_document_consistent (W : World) (push : Data → Safety.outcome string)
    (summary : string) (d : Data) :
  generate_evolution_stats W push = Safety.Returns (summary, Some d) →
  _collect_data W = Safety.Returns (points d)
  ∧ (∃ result, push d = Safety.Returns result)
  ∧ (1 ≤ total_commits_sampled d)%nat
  ∧ total_commits_sampled d = length (points d)
  ∧ Forall (λ p, (p_py_lines p ≤ max_py_lines d)%nat
                 ∧ (p_bible_bytes p ≤ max_bible_bytes d)%nat
                 ∧ (p_system_bytes p ≤ max_system_bytes d)%nat) (points d)
  ∧ (∃ p, p ∈ points d ∧ p_py_lines p = max_py_lines d)
  ∧ (∃ p, p ∈ points d ∧ p_bible_bytes p = max_bible_bytes d)
  ∧ (∃ p, p ∈ points d ∧ p_system_bytes p = max_system_bytes d).
Proof.
  unfold generate_evolution_stats.
  destruct (_collect_data W) as [pts|e]; [|done].
  destruct pts as [|first pts']; [done|].
  destruct (last (first :: pts')) as [final|]; [|done].
  cbv zeta. destruct (push _) as [result|e] eqn:Hpush; [|done].
  intros [= <- <-]. cbn [points total_commits_sampled max_py_lines max_bible_bytes
                          max_system_bytes].
  split_and!; [done|by exists result|cbn; lia|done|..].
  - apply Forall_forall. intros p Hp.
    split_and!; [exact (max_of_ge p_py_lines _ p Hp)|exact (max_of_ge p_bible_bytes _ p Hp)
                |exact (max_of_ge p_system_bytes _ p Hp)].
  - by apply (max_of_attained p_py_lines (first :: pts')).
  - by apply (max_of_attained p_bible_bytes (first :: pts')).
  - by apply (max_of_attained p_system_bytes (first :: pts')).
Qed.

Lemma pushed_document_consistent_witness :
  Forall (λ p, (p_py_lines p ≤ 2)%nat ∧ (p_bible_bytes p ≤ 0)%nat
               ∧ (p_system_bytes p ≤ 0)%nat) (points repo_document).
Proof.
  refine (proj1 (proj2 (proj2 (proj2 (proj2
            (pushed_document_consistent W_repo push_ok repo_summary repo_document _)))))).
  by vm_compute.
Defined.

End EvolutionFacts.
